(** * Navigation engine of the grade-lookup bot

    A shallow embedding of the pagination and keyboard builders
    (bot/keyboards.py), of the gating pre-processor and of the
    pagination, restart and backtracking handlers (bot/handlers.py),
    together with the conversation tables of bot/main.py.

    Python values are embedded as follows.  Integers are [Z].  Text is
    [string], a sequence of UTF-8 bytes; operations that count
    characters ([text[:60]]) count code points.  A JSON object read
    with [.get] is a [gmap string atom]; [context.user_data] is a
    [gmap string pyval].  A function that may raise returns a
    [result]. *)

From Stdlib Require Import ZArith List String Ascii Bool Lia.
From Stdlib Require Import Decimal DecimalString DecimalZ DecimalFacts DecimalPos.
From Stdlib Require Import Sorted Permutation.
From stdpp Require Import gmap strings sorting.

Open Scope Z_scope.

(** Appending to a text that starts with known characters reduces. *)
#[global] Arguments String.append !s1 s2 : simpl nomatch.

(** ** Python values and built-ins *)
Module Py.

(** Scalars as they come out of a JSON body or of the handlers. *)
Inductive atom : Type :=
| ANone
| ABool (b : bool)
| AInt (z : Z)
| AStr (s : string).

(** Exception classes the modelled code raises or classifies. *)
Inductive exn : Type :=
| ValueError
| TypeError
| AttributeError
| IndexError
| HTTPStatusError
| RequestError
| TelegramError
| OtherException.

Inductive result (A : Type) : Type :=
| Ok (a : A)
| Raise (e : exn).
Arguments Ok {A} a.
Arguments Raise {A} e.

#[global] Instance result_ret : MRet result := fun A a => Ok a.
#[global] Instance result_bind : MBind result :=
  fun A B f m => match m with Ok a => f a | Raise e => Raise e end.

(** [try: m except Exception as e: h e] *)
Definition try_except {A} (m : result A) (h : exn -> result A) : result A :=
  match m with Ok a => Ok a | Raise e => h e end.

(** [bool(a)] *)
Definition truthy (a : atom) : bool :=
  match a with
  | ANone => false
  | ABool b => b
  | AInt z => negb (z =? 0)
  | AStr s => negb (String.eqb s "")
  end.

(** [a == b]; [True == 1] and [False == 0] as in Python. *)
Definition py_eq (a b : atom) : bool :=
  match a, b with
  | ANone, ANone => true
  | ABool x, ABool y => Bool.eqb x y
  | ABool x, AInt z | AInt z, ABool x => z =? (if x then 1 else 0)
  | AInt x, AInt y => x =? y
  | AStr x, AStr y => String.eqb x y
  | _, _ => false
  end.

(** [str(z)] for an integer. *)
Definition str_int (z : Z) : string := NilZero.string_of_int (Z.to_int z).

(** [str(a)], as an f-string renders [{a}]. *)
Definition str (a : atom) : string :=
  match a with
  | ANone => "None"
  | ABool true => "True"
  | ABool false => "False"
  | AInt z => str_int z
  | AStr s => s
  end.

(** Characters [str.strip()] and [int()] treat as blank (ASCII part). *)
Definition is_space (c : ascii) : bool :=
  let n := nat_of_ascii c in
  ((9 <=? n)%nat && (n <=? 13)%nat) || ((28 <=? n)%nat && (n <=? 32)%nat).

Fixpoint lstrip (s : string) : string :=
  match s with
  | String c s' => if is_space c then lstrip s' else s
  | EmptyString => EmptyString
  end.

Fixpoint string_rev_onto (s acc : string) : string :=
  match s with
  | EmptyString => acc
  | String c s' => string_rev_onto s' (String c acc)
  end.

Definition string_rev (s : string) : string := string_rev_onto s EmptyString.

(** [s.strip()] *)
Definition strip (s : string) : string :=
  string_rev (lstrip (string_rev (lstrip s))).

Definition is_digit (c : ascii) : bool :=
  let n := nat_of_ascii c in (48 <=? n)%nat && (n <=? 57)%nat.

(** Digit groups of an integer literal: single underscores are allowed
    between two digits only.  [prev] tells whether the previous
    character was a digit. *)
Fixpoint drop_underscores (prev : bool) (s : string) : option string :=
  match s with
  | EmptyString => if prev then Some EmptyString else None
  | String c s' =>
      if Ascii.eqb c "_" then
        (if prev then
           match s' with
           | EmptyString => None
           | String _ _ => drop_underscores false s'
           end
         else None)
      else if is_digit c then
        option_map (String c) (drop_underscores true s')
      else None
  end.

Definition int_digits (s : string) : option uint :=
  match drop_underscores false s with
  | Some d => NilEmpty.uint_of_string d
  | None => None
  end.

(** [int(s)] for a string in base 10: blanks around, an optional sign,
    digits with single underscores between them; anything else is a
    [ValueError].  Digits outside ASCII are not modelled. *)
Definition int_str (s : string) : result Z :=
  match strip s with
  | String c r =>
      if Ascii.eqb c "-" then
        match int_digits r with
        | Some d => Ok (Z.of_int (Neg d))
        | None => Raise ValueError
        end
      else if Ascii.eqb c "+" then
        match int_digits r with
        | Some d => Ok (Z.of_int (Pos d))
        | None => Raise ValueError
        end
      else
        match int_digits (String c r) with
        | Some d => Ok (Z.of_int (Pos d))
        | None => Raise ValueError
        end
  | EmptyString => Raise ValueError
  end.

(** [s.split(sep)] for a one-character separator. *)
Fixpoint split_char (sep : ascii) (s : string) : list string :=
  match s with
  | EmptyString => [EmptyString]
  | String c s' =>
      if Ascii.eqb c sep then EmptyString :: split_char sep s'
      else match split_char sep s' with
           | w :: ws => String c w :: ws
           | [] => [String c EmptyString]
           end
  end.

(** The cut of [s.rsplit(sep, 1)] at the last occurrence of [sep]. *)
Fixpoint rsplit_once (sep : ascii) (s : string) : option (string * string) :=
  match s with
  | EmptyString => None
  | String c s' =>
      match rsplit_once sep s' with
      | Some (a, b) => Some (String c a, b)
      | None => if Ascii.eqb c sep then Some (EmptyString, s') else None
      end
  end.

(** [s.rsplit(sep, 1)] *)
Definition rsplit1 (sep : ascii) (s : string) : list string :=
  match rsplit_once sep s with
  | Some (a, b) => [a; b]
  | None => [s]
  end.

Fixpoint string_drop (n : nat) (s : string) : string :=
  match n, s with
  | O, _ => s
  | S n', String _ s' => string_drop n' s'
  | S _, EmptyString => EmptyString
  end.

(** The cut of [s.split(sep, 1)] at the first occurrence of [sep]. *)
Fixpoint split_once (sep : string) (s : string) : option (string * string) :=
  match s with
  | EmptyString =>
      if String.prefix sep EmptyString then Some (EmptyString, EmptyString) else None
  | String c s' =>
      if String.prefix sep s then Some (EmptyString, string_drop (String.length sep) s)
      else match split_once sep s' with
           | Some (a, b) => Some (String c a, b)
           | None => None
           end
  end.

(** [s.split(sep, 1)] for a non-empty separator. *)
Definition split1 (sep : string) (s : string) : list string :=
  match split_once sep s with
  | Some (a, b) => [a; b]
  | None => [s]
  end.

(** [l[i]] for a non-negative literal index. *)
Definition index {A} (l : list A) (i : nat) : result A :=
  match nth_error l i with
  | Some x => Ok x
  | None => Raise IndexError
  end.

(** [sep.join(l)] *)
Fixpoint join (sep : string) (l : list string) : string :=
  match l with
  | [] => EmptyString
  | [x] => x
  | x :: rest => x +:+ sep +:+ join sep rest
  end.

(** Bound of a slice as Python normalises it against the length. *)
Definition slice_bound (len i : Z) : Z :=
  if i <? 0 then Z.max (len + i) 0 else Z.min i len.

(** [l[start:stop]] on a list; never raises. *)
Definition slice {A} (l : list A) (start stop : Z) : list A :=
  let len := Z.of_nat (List.length l) in
  let lo := slice_bound len start in
  let hi := slice_bound len stop in
  firstn (Z.to_nat (hi - lo)) (skipn (Z.to_nat lo) l).

(** A UTF-8 continuation byte, [10xxxxxx]. *)
Definition is_cont (c : ascii) : bool :=
  let n := nat_of_ascii c in (128 <=? n)%nat && (n <? 192)%nat.

(** [s[:n]], counting code points of the UTF-8 text. *)
Fixpoint take_chars (n : nat) (s : string) : string :=
  match s with
  | EmptyString => EmptyString
  | String c s' =>
      if is_cont c then String c (take_chars n s')
      else match n with
           | O => EmptyString
           | S n' => String c (take_chars n' s')
           end
  end.

Definition dquote : ascii := ascii_of_nat 34.

(** [html.escape(s)] with its default [quote=True]. *)
Fixpoint html_escape (s : string) : string :=
  match s with
  | EmptyString => EmptyString
  | String c s' =>
      (if Ascii.eqb c "&" then "&amp;"
       else if Ascii.eqb c "<" then "&lt;"
       else if Ascii.eqb c ">" then "&gt;"
       else if Ascii.eqb c dquote then "&quot;"
       else if Ascii.eqb c "'" then "&#x27;"
       else String c EmptyString) +:+ html_escape s'
  end.

(** Stable sort by a key, as [sorted(l, key=...)] on keys already
    computed: an element goes before the first one whose key is not
    smaller. *)
Section Sorted.

Context {K A : Type} (leb : K -> K -> bool).

Fixpoint insert_sorted (x : K * A) (l : list (K * A)) : list (K * A) :=
  match l with
  | [] => [x]
  | y :: l' => if leb (fst x) (fst y) then x :: l else y :: insert_sorted x l'
  end.

Fixpoint sort_by_key (l : list (K * A)) : list (K * A) :=
  match l with
  | [] => []
  | x :: l' => insert_sorted x (sort_by_key l')
  end.

End Sorted.

End Py.

Import Py.

(** ** bot/constants.py *)
Module Constants.

(** Conversation states; [END] is [ConversationHandler.END]. *)
Inductive state : Type :=
| SELECTING_ACTION
| TYPING_COURSE
| TYPING_PROF
| SELECTING_COURSE_RESULTS
| SELECTING_PROF_RESULTS
| SELECTING_COURSE_FOR_PROF
| SELECTING_YEAR_SEMESTER
| SHOWING_FINAL_GRADES
| ASK_FEEDBACK_TYPE
| TYPING_FEEDBACK_MESSAGE
| CONFIRM_FEEDBACK_SUBMISSION
| END.

Definition COURSE_SEARCH_MODE := "mode_course".
Definition PROF_SEARCH_MODE := "mode_prof".

Definition CANCEL := "cancel".
Definition BACK_TO_MAIN := "back_main".
Definition BACK_TO_TYPING_COURSE := "back_type_crs".
Definition BACK_TO_TYPING_PROF := "back_type_prof".
Definition BACK_TO_PROF_COURSE_LIST_PREFIX := "back_prof_crs_list_".
Definition BACK_TO_COURSE_SEARCH_LIST := "back_crs_srch_list".
Definition BACK_TO_PROF_SEARCH_LIST := "back_prof_srch_list".
Definition BACK_TO_YEAR_SEM_SELECT_PREFIX := "back_ys_sel_".
Definition BACK_TO_COURSE_LIST_FROM_PLOT_PREFIX := "back_clp_".
Definition VIEW_PROF_COURSES_PREFIX := "vpc_".

Definition COURSE_SELECT_PREFIX := "cs_".
Definition PROF_SELECT_PREFIX := "ps_".
Definition YEAR_SEM_SELECT_PREFIX := "ysel_".

Definition ITEMS_PER_PAGE : Z := 8.
Definition PAGE_COURSE_SEARCH_RESULTS_PREFIX := "p_csr_".
Definition PAGE_PROF_SEARCH_RESULTS_PREFIX := "p_psr_".
Definition PAGE_PROF_COURSE_LIST_PREFIX := "p_pcl_".
Definition PAGE_YEAR_SEMESTER_PREFIX := "p_ys_".

Definition FEEDBACK_TYPE_BUG := "fb_bug".
Definition FEEDBACK_TYPE_SUGGESTION := "fb_suggestion".
Definition FEEDBACK_TYPE_GENERAL := "fb_general".
Definition CONFIRM_SEND_FEEDBACK := "fb_confirm_send".
Definition CANCEL_FEEDBACK := "fb_cancel".

End Constants.

Import Constants.

(** ** bot/keyboards.py *)
Module Keyboards.

(** [InlineKeyboardButton(text, callback_data=...)] *)
Record button : Type := Button { text : string; callback_data : string }.

(** The rows of an [InlineKeyboardMarkup]. *)
Definition keyboard : Type := list (list button).

(** A JSON object of a result list. *)
Abbreviation item := (gmap string atom).

(** [d.get(k)] and [d.get(k, dflt)] *)
Definition get (d : item) (k : string) : atom := default ANone (d !! k).
Definition get_default (d : item) (k : string) (dflt : atom) : atom :=
  default dflt (d !! k).

(** [text[:60]]: only text can be cut. *)
Definition text_60 (a : atom) : result string :=
  match a with
  | AStr s => Ok (take_chars 60 s)
  | _ => Raise TypeError
  end.

Definition get_start_keyboard : keyboard :=
  [ [Button "📚 Search by Course (Code/Title)" COURSE_SEARCH_MODE];
    [Button "🧑‍🏫 Search by Professor" PROF_SEARCH_MODE] ].

Definition get_cancel_keyboard : keyboard :=
  [ [Button "❌ Cancel" CANCEL] ].

Definition get_restart_keyboard : keyboard :=
  [ [Button "🔄 Restart Search" BACK_TO_MAIN] ].

Definition previous_button (target : string) : button := Button "⬅️ Previous" target.
Definition next_button (target : string) : button := Button "Next ➡️" target.

(** The keyboard is extended in place in the source; here the extended
    keyboard is returned. *)
Definition _add_pagination_buttons (keyboard0 : keyboard) (current_page total_items : Z)
    (base_callback_prefix : string) (payload_parts : option (list atom)) : keyboard :=
  if total_items <=? ITEMS_PER_PAGE then keyboard0
  else
    let total_pages := (total_items + ITEMS_PER_PAGE - 1) / ITEMS_PER_PAGE in
    let payload_str :=
      match payload_parts with
      | Some (p :: ps) => join "_" (map str (p :: ps)) +:+ "_"
      | Some [] | None => ""
      end in
    let row1 :=
      if 0 <? current_page
      then [previous_button (base_callback_prefix +:+ payload_str +:+ str_int (current_page - 1))]
      else [] in
    let row2 :=
      if current_page <? total_pages - 1
      then row1 ++ [next_button (base_callback_prefix +:+ payload_str +:+ str_int (current_page + 1))]
      else row1 in
    match row2 with
    | [] => keyboard0
    | _ :: _ => keyboard0 ++ [row2]
    end.

(** One turn of the loop over the page of a search-result list: the row
    it appends, if any. *)
Definition search_result_row (search_type : string) (it : item) : result (list (list button)) :=
  let prefix := if String.eqb search_type "course" then COURSE_SELECT_PREFIX else PROF_SELECT_PREFIX in
  let '(item_id, text) :=
    if String.eqb search_type "course" then
      let item_id := get it "code" in
      let title := get_default it "name" item_id in
      (item_id,
       if truthy title && negb (py_eq title item_id)
       then AStr (str item_id +:+ " - " +:+ str title)
       else item_id)
    else
      let item_id := get it "id" in
      (item_id, get_default it "name" (AStr ("Prof ID " +:+ str item_id))) in
  if truthy item_id then
    t ← text_60 text;
    mret [[Button t (prefix +:+ str item_id)]]
  else mret [].

(** The rows produced by a loop whose turns may raise. *)
Fixpoint rows_of {A} (f : A -> result (list (list button))) (l : list A) : result keyboard :=
  match l with
  | [] => mret []
  | x :: l' => r ← f x; rest ← rows_of f l'; mret (r ++ rest)
  end.

Definition search_footer (search_type : string) : list button :=
  let back_cb := if String.eqb search_type "course" then BACK_TO_TYPING_COURSE else BACK_TO_TYPING_PROF in
  [Button "⬅️ Re-enter Search" back_cb; Button "❌ Cancel" CANCEL].

Definition create_search_results_keyboard (all_results : list item) (search_type : string)
    (current_page : Z) : result keyboard :=
  let start := current_page * ITEMS_PER_PAGE in
  let end_ := start + ITEMS_PER_PAGE in
  let page_items := slice all_results start end_ in
  rows ← rows_of (search_result_row search_type) page_items;
  let pg_prefix := if String.eqb search_type "course"
                   then PAGE_COURSE_SEARCH_RESULTS_PREFIX else PAGE_PROF_SEARCH_RESULTS_PREFIX in
  let keyboard1 := _add_pagination_buttons rows current_page (Z.of_nat (length all_results)) pg_prefix None in
  mret (keyboard1 ++ [search_footer search_type]).

Definition prof_course_row (prof_id_str : string) (it : item) : result (list (list button)) :=
  let code := get it "course_code" in
  let title := get it "course_name" in
  if negb (truthy code) then mret []
  else
    let text := if truthy title && negb (py_eq title code)
                then AStr (str code +:+ " - " +:+ str title) else code in
    t ← text_60 text;
    mret [[Button t (COURSE_SELECT_PREFIX +:+ str code +:+ "|prof|" +:+ prof_id_str)]].

Definition create_prof_course_selection_keyboard (courses : list item) (prof_id_str : string)
    (current_page : Z) : result keyboard :=
  let start := current_page * ITEMS_PER_PAGE in
  let end_ := start + ITEMS_PER_PAGE in
  rows ← rows_of (prof_course_row prof_id_str) (slice courses start end_);
  let keyboard1 := _add_pagination_buttons rows current_page (Z.of_nat (length courses))
                     PAGE_PROF_COURSE_LIST_PREFIX (Some [AStr prof_id_str]) in
  mret (keyboard1 ++ [ [Button "⬅️ Different Professor" BACK_TO_PROF_SEARCH_LIST;
                        Button "❌ Cancel" CANCEL] ]).

(** The dictionary [unique_terms], in insertion order.  Two keys are
    the same entry when they are equal as Python tuples. *)
Definition term_key : Type := atom * atom.

Definition key_eq (k1 k2 : term_key) : bool :=
  py_eq (fst k1) (fst k2) && py_eq (snd k1) (snd k2).

Fixpoint dict_set (k : term_key) (v : item) (d : list (term_key * item)) : list (term_key * item) :=
  match d with
  | [] => [(k, v)]
  | (k', v') :: d' => if key_eq k k' then (k', v) :: d' else (k', v') :: dict_set k v d'
  end.

Fixpoint dedup_terms (terms : list item) (unique_terms : list (term_key * item)) : list (term_key * item) :=
  match terms with
  | [] => unique_terms
  | t :: rest =>
      let key := (get t "academic_year", get t "semester") in
      if truthy (fst key) && truthy (snd key)
      then dedup_terms rest (dict_set key t unique_terms)
      else dedup_terms rest unique_terms
  end.

(** [sem_map.get(s, 99)] *)
Definition sem_rank (s : atom) : Z :=
  match s with
  | AStr x => if String.eqb x "Odd" then 1
              else if String.eqb x "Even" then 2
              else if String.eqb x "Summer" then 3
              else 99
  | _ => 99
  end.

(** The sort key [(-int(x['academic_year'].split('-')[0]), sem_map.get(x['semester'], 99))]. *)
Definition sort_key (x : item) : result (Z * Z) :=
  match get x "academic_year" with
  | AStr y =>
      first ← index (split_char "-" y) 0;
      n ← int_str first;
      mret (- n, sem_rank (get x "semester"))
  | _ => Raise AttributeError
  end.

(** Tuple comparison [k1 <= k2]. *)
Definition key_leb (k1 k2 : Z * Z) : bool :=
  (fst k1 <? fst k2) || ((fst k1 =? fst k2) && (snd k1 <=? snd k2)).

Fixpoint keyed (l : list item) : result (list ((Z * Z) * item)) :=
  match l with
  | [] => mret []
  | x :: l' => k ← sort_key x; rest ← keyed l'; mret ((k, x) :: rest)
  end.

Definition sorted_terms_of (terms : list item) : result (list item) :=
  let unique_terms := dedup_terms terms [] in
  ks ← keyed (map snd unique_terms);
  mret (map snd (sort_by_key key_leb ks)).

Definition term_row (mode back_id : atom) (term : item) : list button :=
  let y := get term "academic_year" in
  let s := get term "semester" in
  [Button (str y +:+ " (" +:+ str s +:+ ")")
          (YEAR_SEM_SELECT_PREFIX +:+ str y +:+ "|" +:+ str s +:+ "|" +:+ str mode +:+ "|" +:+ str back_id)].

Definition create_year_semester_keyboard (terms : list item) (back_id mode : atom)
    (current_page : Z) : result keyboard :=
  sorted_terms ← sorted_terms_of terms;
  let start := current_page * ITEMS_PER_PAGE in
  let end_ := start + ITEMS_PER_PAGE in
  let rows := map (term_row mode back_id) (slice sorted_terms start end_) in
  let keyboard1 := _add_pagination_buttons rows current_page (Z.of_nat (length sorted_terms))
                     PAGE_YEAR_SEMESTER_PREFIX (Some [mode; back_id]) in
  let back_cb := if py_eq mode (AStr "course") then BACK_TO_COURSE_SEARCH_LIST
                 else BACK_TO_PROF_COURSE_LIST_PREFIX +:+ str back_id in
  mret (keyboard1 ++ [ [Button "⬅️ Back" back_cb; Button "❌ Cancel" CANCEL] ]).

End Keyboards.

(** ** Gating: bot/api_client.py and the pre-processor of bot/handlers.py *)
Module Gating.

Inductive level : Type := DEBUG | INFO | WARNING | ERROR.

(** A log record: its level and its message.  The rendering of an
    exception inside a message is left out. *)
Definition log_entry : Type := level * string.

(** What [redis_client.get('maintenance_mode')] does: it returns the
    stored string, or nothing when the key is absent, or raises. *)
Inductive redis_reply : Type :=
| RedisValue (v : option string)
| RedisConnectionError
| RedisOtherError.

(** What the HTTP exchange of [make_api_request] does. *)
Inductive json_body : Type :=
| JObject (o : gmap string atom)
| JOther (is_truthy : bool).

Inductive http_reply : Type :=
| HttpNoContent
| HttpJson (body : json_body)
| HttpStatusFail
| HttpRequestFail
| HttpOtherFail.

(** The inbound event, as far as the gate reads it. *)
Record update : Type := Update {
  effective_user : option Z;
  has_message : bool;
  has_callback_query : bool
}.

(** What the gate sends back to the user. *)
Inductive reply : Type :=
| ReplyText (text : string)
| AnswerAlert (text : string).

Definition is_admin (user_id : Z) (admin_ids : list Z) : bool :=
  existsb (Z.eqb user_id) admin_ids.

Definition get_maintenance_status (redis_get : redis_reply) (user_id : Z) (admin_ids : list Z)
    : list log_entry * result (option string) :=
  if is_admin user_id admin_ids then ([], Ok None)
  else
    match redis_get with
    | RedisValue mode =>
        match mode with
        | None => ([], Ok None)
        | Some m =>
            if String.eqb m "false" then ([], Ok None)
            else if String.eqb m "true" then ([], Ok (Some "stealth"))
            else ([], Ok (Some m))
        end
    | RedisConnectionError =>
        ([(ERROR, "Could not connect to Redis to check maintenance mode. Assuming NOT in maintenance.")],
         Ok None)
    | RedisOtherError => ([], Raise OtherException)
    end.

(** [make_api_request]: the parsed body, or the exception it logs and
    raises again. *)
Definition make_api_request (endpoint : string) (http : http_reply)
    : list log_entry * result (option json_body) :=
  match http with
  | HttpNoContent => ([], Ok None)
  | HttpJson body => ([], Ok (Some body))
  | HttpStatusFail => ([(WARNING, "API HTTP error at " +:+ endpoint)], Raise HTTPStatusError)
  | HttpRequestFail => ([(ERROR, "API request error at " +:+ endpoint)], Raise RequestError)
  | HttpOtherFail => ([(ERROR, "Unexpected API client error at " +:+ endpoint)], Raise OtherException)
  end.

Definition get_user_status_api (target_user_id : string) (http : http_reply)
    : list log_entry * option json_body :=
  let '(logs, r) := make_api_request ("/admin/users/" +:+ target_user_id) http in
  match r with
  | Ok body => (logs, body)
  | Raise _ => (logs, None)
  end.

(** [user_status_response and user_status_response.get('is_blocked')],
    as a truth value; [.get] on a body that is not an object raises. *)
Definition response_says_blocked (resp : option json_body) : result bool :=
  match resp with
  | None => Ok false
  | Some (JObject o) => Ok (truthy (default ANone (o !! "is_blocked")))
  | Some (JOther false) => Ok false
  | Some (JOther true) => Raise AttributeError
  end.

(** Returns [true] when the user is blocked and processing must stop. *)
Definition pre_process_blocked_user (http : http_reply) (upd : update) (admin_ids : list Z)
    : list log_entry * bool :=
  match effective_user upd with
  | None => ([(DEBUG, "pre_process_blocked_user: No effective_user in update, allowing.")], false)
  | Some user_id =>
      if is_admin user_id admin_ids
      then ([(DEBUG, "User " +:+ str_int user_id +:+ " is an admin. Skipping block check.")], false)
      else
        let '(logs, resp) := get_user_status_api (str_int user_id) http in
        match response_says_blocked resp with
        | Raise _ =>
            (logs ++ [(ERROR, "Failed to check block status for user " +:+ str_int user_id
                              +:+ " via API. Allowing update as a precaution.")], false)
        | Ok true =>
            (logs ++ [(INFO, "User " +:+ str_int user_id
                             +:+ " IS blocked (API check). Update will be ignored.")], true)
        | Ok false => (logs, false)
        end
  end.

(** How the pre-processor ends: it returns and the event goes on to the
    conversation handlers, it raises [ApplicationHandlerStop], or
    another exception escapes. *)
Inductive verdict : Type :=
| Proceed
| HandlerStop
| Escapes (e : exn).

Record gate_result : Type := GateResult {
  gate_verdict : verdict;
  gate_replies : list reply;
  gate_logs : list log_entry
}.

(** The world the pre-processor runs in. *)
Record gate_env : Type := GateEnv {
  redis_get : redis_reply;
  user_status_http : http_reply;
  reply_succeeds : bool
}.

(** The block check, second step of the pre-processor. *)
Definition block_step (env : gate_env) (upd : update) (admin_ids : list Z)
    (replies : list reply) (logs : list log_entry) : gate_result :=
  let '(logs2, blocked) := pre_process_blocked_user (user_status_http env) upd admin_ids in
  GateResult (if blocked then HandlerStop else Proceed) replies (logs ++ logs2).

Definition global_pre_processor (env : gate_env) (upd : update) (admin_ids : list Z) : gate_result :=
  match effective_user upd with
  | Some user_id =>
      if negb (user_id =? 0) then
        let '(logs, status) := get_maintenance_status (redis_get env) user_id admin_ids in
        match status with
        | Raise e => GateResult (Escapes e) [] logs
        | Ok None => block_step env upd admin_ids [] logs
        | Ok (Some st) =>
            if String.eqb st "stealth" then
              GateResult HandlerStop []
                (logs ++ [(DEBUG, "User " +:+ str_int user_id +:+ " blocked by STEALTH maintenance mode.")])
            else if negb (String.eqb st "") then
              let logs1 := logs ++ [(DEBUG, "User " +:+ str_int user_id
                                            +:+ " blocked by MESSAGE maintenance mode.")] in
              if has_message upd then
                if reply_succeeds env then GateResult HandlerStop [ReplyText st] logs1
                else GateResult (Escapes TelegramError) [] logs1
              else if has_callback_query upd then
                if reply_succeeds env then GateResult HandlerStop [AnswerAlert st] logs1
                else GateResult (Escapes TelegramError) [] logs1
              else GateResult HandlerStop [] logs1
            else block_step env upd admin_ids [] logs
        end
      else block_step env upd admin_ids [] []
  | None => block_step env upd admin_ids [] []
  end.

End Gating.

(** ** bot/handlers.py: the conversation handlers *)
Module Handlers.
Import Keyboards.

(** What a slot of [context.user_data] holds: a scalar, a cached result
    list, or a message object of the channel. *)
Inductive pyval : Type :=
| VAtom (a : atom)
| VItems (l : list item)
| VMessage (message_id : Z).

Definition VNone : pyval := VAtom ANone.

Definition val_truthy (v : pyval) : bool :=
  match v with
  | VAtom a => truthy a
  | VItems l => match l with [] => false | _ :: _ => true end
  | VMessage _ => true
  end.

Definition is_none (v : pyval) : bool :=
  match v with VAtom ANone => true | _ => false end.

(** [v == z] for an integer [z]. *)
Definition val_eq_int (v : pyval) (z : Z) : bool :=
  match v with VAtom a => py_eq a (AInt z) | _ => false end.

(** A page cursor read back from the context enters arithmetic; only
    numbers survive it. *)
Definition as_page (v : pyval) : result Z :=
  match v with
  | VAtom (AInt z) => Ok z
  | VAtom (ABool b) => Ok (if b then 1 else 0)
  | _ => Raise TypeError
  end.

(** A result slot read as a list.  The handlers write nothing but the
    list decoded from a reply to these slots, and the model covers
    such contexts: any other value found there counts as a type error
    where it is first used as a list (a number or a message fails
    there in Python too; text, which Python would slice, is never
    stored). *)
Definition as_items (v : pyval) : result (list item) :=
  match v with
  | VItems l => Ok l
  | _ => Raise TypeError
  end.

(** [html.escape(v)]: only text has [.replace]. *)
Definition html_escape_val (v : pyval) : result string :=
  match v with
  | VAtom (AStr s) => Ok (html_escape s)
  | _ => Raise AttributeError
  end.

(** Outbound operations, in the order they reached the channel. *)
Inductive effect : Type :=
| QueryAnswer (text : option string)
| EditMessageText (text : string) (markup : option keyboard)
| EditReplyMarkup (markup : option keyboard)
| EditPlotReplyMarkup (message_id : Z)
| SendMessage (text : string) (markup : option keyboard)
| DeleteMessage
| ScheduleSubscribe (user_id : Z)
| ErrorReply (error_source : string) (error : exn) (markup : keyboard).

(** What the channel answers to one call. *)
Inductive outcome : Type :=
| Fails
| Succeeds (message_id : Z).

(** The state a handler runs in: the user's slots, the operations
    delivered so far, and the number of channel calls made. *)
Record hstate : Type := HState {
  user_data : gmap string pyval;
  trace : list effect;
  calls : nat
}.

Definition set_user_data (f : gmap string pyval -> gmap string pyval) (st : hstate) : hstate :=
  HState (f (user_data st)) (trace st) (calls st).

(** A handler body: it may raise, and what it did to the state before
    raising stays done. *)
Definition M (A : Type) : Type := hstate -> result A * hstate.

#[global] Instance M_ret : MRet M := fun A a st => (Ok a, st).
#[global] Instance M_bind : MBind M :=
  fun A B f m st =>
    match m st with
    | (Ok a, st') => f a st'
    | (Raise e, st') => (Raise e, st')
    end.

Definition raise {A} (e : exn) : M A := fun st => (Raise e, st).

Definition lift {A} (r : result A) : M A := fun st => (r, st).

(** [try: body except Exception as e: handler e] *)
Definition try_catch {A} (body : M A) (handler : exn -> M A) : M A :=
  fun st =>
    match body st with
    | (Ok a, st') => (Ok a, st')
    | (Raise e, st') => handler e st'
    end.

(** [context.user_data.get(k)], [.get(k, dflt)], [[k] = v], [.pop(k, None)], [.clear()] *)
Definition ud_get (k : string) : M pyval :=
  fun st => (Ok (default VNone (user_data st !! k)), st).
Definition ud_get_default (k : string) (dflt : pyval) : M pyval :=
  fun st => (Ok (default dflt (user_data st !! k)), st).
Definition ud_set (k : string) (v : pyval) : M unit :=
  fun st => (Ok tt, set_user_data (insert k v) st).
Definition ud_pop (k : string) : M pyval :=
  fun st => (Ok (default VNone (user_data st !! k)), set_user_data (delete k) st).
Definition ud_clear : M unit :=
  fun st => (Ok tt, set_user_data (fun _ => ∅) st).

(** [handle_api_error]: schedules the error message, which carries the
    restart keyboard. *)
Definition handle_api_error (error_source : string) (error : exn) : M unit :=
  fun st => (Ok tt, HState (user_data st)
                      (trace st ++ [ErrorReply error_source error get_restart_keyboard])
                      (calls st)).

Definition schedule (eff : effect) : M unit :=
  fun st => (Ok tt, HState (user_data st) (trace st ++ [eff]) (calls st)).

Definition nl : string := String (ascii_of_nat 10) EmptyString.

(** [s.rstrip('s')] *)
Fixpoint lstrip_char (c : ascii) (s : string) : string :=
  match s with
  | String c' s' => if Ascii.eqb c' c then lstrip_char c s' else s
  | EmptyString => EmptyString
  end.
Definition rstrip_char (c : ascii) (s : string) : string :=
  string_rev (lstrip_char c (string_rev s)).

Definition _get_search_list_text_template (item_type : string) (count : Z) (query : pyval)
    (current_page_num : Z) : result string :=
  query_part ← (if val_truthy query
                then (q ← html_escape_val query; mret (" for '*" +:+ q +:+ "*'"))
                else mret "");
  let count_text := if negb (count =? 1) then "Found " +:+ str_int count +:+ " " +:+ item_type
                    else "Found 1 " +:+ rstrip_char "s" item_type in
  mret ("✅ " +:+ count_text +:+ query_part +:+ "." +:+ nl +:+ "Page " +:+ str_int current_page_num
        +:+ ". Select one or browse:").

Definition _get_prof_course_list_text_template (prof_name : pyval) (count : Z)
    (current_page_num : Z) : result string :=
  let count_text := if negb (count =? 1) then " (" +:+ str_int count +:+ " found)" else " (1 found)" in
  p ← html_escape_val prof_name;
  mret ("Courses taught by **" +:+ p +:+ "**" +:+ count_text +:+ "." +:+ nl +:+ "Page "
        +:+ str_int current_page_num +:+ ". Which course?").

Definition _get_year_semester_list_text_template (course_code : pyval) (count : Z)
    (current_page_num : Z) (prof_name : pyval) : result string :=
  prof_part ← (if val_truthy prof_name
               then (p ← html_escape_val prof_name; mret (" by Prof. **" +:+ p +:+ "**"))
               else mret "");
  let count_text := if negb (count =? 1) then " (" +:+ str_int count +:+ " offerings found)"
                    else " (1 offering found)" in
  c ← html_escape_val course_code;
  mret ("Offerings for **" +:+ c +:+ "**" +:+ prof_part +:+ count_text +:+ "." +:+ nl +:+ "Page "
        +:+ str_int current_page_num +:+ ". Select Year (Semester):").

(** The inbound event, as far as the handlers read it. *)
Record user : Type := User { user_id : Z; first_name : option string }.

Record query : Type := Query {
  data : string;
  message_id : Z;
  chat_id : Z;
  has_reply_markup : bool
}.

Record update : Type := Update {
  effective_user : option user;
  callback_query : option query;
  effective_chat_id : Z
}.

(** [query = update.callback_query]; using it when there is none is an
    [AttributeError]. *)
Definition the_query (upd : update) : M query :=
  match callback_query upd with
  | Some q => mret q
  | None => raise AttributeError
  end.

(** [escape_markdown_v1] *)
Fixpoint escape_markdown_v1 (s : string) : string :=
  match s with
  | EmptyString => EmptyString
  | String c s' =>
      (if Ascii.eqb c "_" || Ascii.eqb c "*" || Ascii.eqb c "`" || Ascii.eqb c "["
       then String "\" (String c EmptyString)
       else String c EmptyString) +:+ escape_markdown_v1 s'
  end.

Definition welcome_text (u : option user) : string :=
  let user_first_name :=
    match u with
    | Some (User _ (Some n)) => if String.eqb n "" then "there" else escape_markdown_v1 n
    | _ => "there"
    end in
  "👋 Hi " +:+ user_first_name +:+ "!" +:+ nl +:+ "How would you like to search?".

Definition _clear_list_context (list_type : string) : M unit :=
  _ ← ud_pop ("all_" +:+ list_type +:+ "_results");
  _ ← ud_pop ("current_" +:+ list_type +:+ "_page");
  _ ← ud_pop ("unique_" +:+ list_type +:+ "_kb");
  if String.eqb list_type "course_search" then
    _ ← ud_pop "last_search_query_course"; mret tt
  else if String.eqb list_type "prof_search" then
    _ ← ud_pop "last_search_query_prof"; mret tt
  else if String.eqb list_type "prof_course_list" then
    _ ← ud_pop "unique_courses_for_selected_prof_kb"; mret tt
  else mret tt.

Section Channel.

(** The channel's answer to the n-th call of a handler run. *)
Context (world : nat -> outcome).

(** One awaited call to the channel; [eff] is delivered when it
    succeeds, and the call raises when it does not. *)
Definition channel (eff : effect) : M Z :=
  fun st =>
    match world (calls st) with
    | Succeeds mid => (Ok mid, HState (user_data st) (trace st ++ [eff]) (S (calls st)))
    | Fails => (Raise TelegramError, HState (user_data st) (trace st) (S (calls st)))
    end.

Definition _disable_previous_plot_buttons : M unit :=
  plot_message ← ud_pop "final_plot_message_obj";
  if val_truthy plot_message then
    match plot_message with
    | VMessage mid =>
        try_catch (_ ← channel (EditPlotReplyMarkup mid); mret tt) (fun _ => mret tt)
    | _ => raise AttributeError
    end
  else mret tt.

Definition start_command (upd : update) : M state :=
  let user := effective_user upd in
  sent ← try_catch
           (_ ← ud_pop "original_message_id_for_edit";
            mid ← channel (SendMessage (welcome_text user) (Some get_start_keyboard));
            _ ← ud_set "original_message_id_for_edit" (VAtom (AInt mid));
            mret true)
           (fun _ => mret false);
  if sent : bool then
    _ ← match user with
        | Some u => schedule (ScheduleSubscribe (user_id u))
        | None => mret tt
        end;
    mret SELECTING_ACTION
  else mret END.

Definition back_to_main_callback (upd : update) : M state :=
  _ ← _disable_previous_plot_buttons;
  let user := effective_user upd in
  _ ← match callback_query upd with
      | Some q =>
          _ ← channel (QueryAnswer (Some "Starting new search..."));
          try_catch
            (if has_reply_markup q
             then (_ ← channel (EditReplyMarkup None); mret tt)
             else mret tt)
            (fun _ => mret tt)
      | None => mret tt
      end;
  _ ← ud_clear;
  try_catch
    (mid ← channel (SendMessage (welcome_text user) (Some get_start_keyboard));
     _ ← ud_set "original_message_id_for_edit" (VAtom (AInt mid));
     mret SELECTING_ACTION)
    (fun _ => mret END).

(** The mode choice that follows the welcome prompt. *)
Definition select_search_mode_callback (upd : update) : M state :=
  q ← the_query upd;
  _ ← channel (QueryAnswer None);
  let callback_data := data q in
  message_id_to_edit ← ud_get "original_message_id_for_edit";
  _ ← ud_clear;
  _ ← (if val_truthy message_id_to_edit
       then ud_set "original_message_id_for_edit" message_id_to_edit
       else mret tt);
  try_catch
    (if negb (val_truthy message_id_to_edit) then raise ValueError
     else
       '(prompt_text, next_state) ←
         (if String.eqb callback_data COURSE_SEARCH_MODE then
            _ ← ud_set "search_mode" (VAtom (AStr "course"));
            mret ("📚 OK. Enter **course code OR full/partial title**:", TYPING_COURSE)
          else if String.eqb callback_data PROF_SEARCH_MODE then
            _ ← ud_set "search_mode" (VAtom (AStr "prof"));
            mret ("🧑‍🏫 OK. Enter **professor's name**:", TYPING_PROF)
          else raise ValueError);
       _ ← channel (EditMessageText prompt_text (Some get_cancel_keyboard));
       mret next_state)
    (fun e => _ ← handle_api_error "select_search_mode" e; mret END).

(** The list kinds a pagination callback can name; the four callers
    pass, with the key, the keyboard builder and the text template of
    that kind, which is how they are chosen here. *)
Definition render_list_page (list_type_key : string) (page_data_parts : list string)
    (new_page : Z) (all_results_primary data_for_kb_creation : pyval) : M (string * keyboard) :=
  let current_page_for_display := new_page + 1 in
  if String.eqb list_type_key "course_search" then
    primary ← lift (as_items all_results_primary);
    query ← ud_get_default "last_search_query_course" (VAtom (AStr ""));
    items ← lift (as_items data_for_kb_creation);
    kb ← lift (create_search_results_keyboard items "course" new_page);
    text ← lift (_get_search_list_text_template "courses" (Z.of_nat (length primary)) query
                   current_page_for_display);
    mret (text, kb)
  else if String.eqb list_type_key "prof_search" then
    primary ← lift (as_items all_results_primary);
    query ← ud_get_default "last_search_query_prof" (VAtom (AStr ""));
    items ← lift (as_items data_for_kb_creation);
    kb ← lift (create_search_results_keyboard items "prof" new_page);
    text ← lift (_get_search_list_text_template "professors" (Z.of_nat (length primary)) query
                   current_page_for_display);
    mret (text, kb)
  else if String.eqb list_type_key "prof_course_list" then
    prof_id_str ← lift (index page_data_parts 0);
    prof_name ← ud_get_default "selected_prof_name" (VAtom (AStr ("ID " +:+ prof_id_str)));
    items ← lift (as_items data_for_kb_creation);
    kb ← lift (create_prof_course_selection_keyboard items prof_id_str new_page);
    text ← lift (_get_prof_course_list_text_template prof_name (Z.of_nat (length items))
                   current_page_for_display);
    mret (text, kb)
  else if String.eqb list_type_key "year_semester_list" then
    mode ← lift (index page_data_parts 0);
    identifier ← lift (index page_data_parts 1);
    course_code ← ud_get_default "selected_course" (VAtom (AStr "?Crs?"));
    prof_name_text ← (if String.eqb mode "prof" then ud_get "selected_prof_name" else mret VNone);
    primary ← lift (as_items all_results_primary);
    kb ← lift (create_year_semester_keyboard primary (AStr identifier) (AStr mode) new_page);
    text ← lift (_get_year_semester_list_text_template course_code (Z.of_nat (length primary))
                   current_page_for_display prof_name_text);
    mret (text, kb)
  else raise ValueError.

Definition _handle_pagination_callback (upd : update) (list_type_key : string)
    (page_data_parts : list string) (current_listing_state : state)
    (expected_cb_parts_len : nat) : M state :=
  q ← the_query upd;
  _ ← channel (QueryAnswer None);
  let message_to_edit_id := message_id q in
  _ ← ud_set "original_message_id_for_edit" (VAtom (AInt message_to_edit_id));
  try_catch
    (if negb (length page_data_parts =? expected_cb_parts_len)%nat then raise ValueError
     else
       last_part ← lift (index (rev page_data_parts) 0);
       new_page ← lift (int_str last_part);
       all_results_primary ← ud_get ("all_" +:+ list_type_key +:+ "_results");
       all_results_for_keyboard ←
         (if String.eqb list_type_key "prof_course_list"
          then ud_get_default "unique_courses_for_selected_prof_kb" all_results_primary
          else mret all_results_primary);
       if is_none all_results_primary then raise ValueError
       else if String.eqb list_type_key "prof_course_list" && is_none all_results_for_keyboard
       then raise ValueError
       else
         _ ← ud_set ("current_" +:+ list_type_key +:+ "_page") (VAtom (AInt new_page));
         let data_for_kb_creation :=
           if negb (is_none all_results_for_keyboard) then all_results_for_keyboard
           else all_results_primary in
         '(message_text, new_keyboard) ←
           render_list_page list_type_key page_data_parts new_page all_results_primary
             data_for_kb_creation;
         _ ← channel (EditMessageText message_text (Some new_keyboard));
         mret current_listing_state)
    (fun e => _ ← handle_api_error ("pagination_" +:+ list_type_key) e; mret END).

(** [update.callback_query.data.split(prefix, 1)[1]] *)
Definition payload_after (prefix : string) (upd : update) : M string :=
  q ← the_query upd;
  lift (index (split1 prefix (data q)) 1).

Definition page_course_search_results_callback (upd : update) : M state :=
  r ← try_catch (s ← payload_after PAGE_COURSE_SEARCH_RESULTS_PREFIX upd; mret (Some s))
        (fun e => match e with IndexError => mret None | _ => raise e end);
  match r : option string with
  | None => mret END
  | Some page_num_str =>
      _handle_pagination_callback upd "course_search" [page_num_str] SELECTING_COURSE_RESULTS 1
  end.

Definition page_prof_search_results_callback (upd : update) : M state :=
  r ← try_catch (s ← payload_after PAGE_PROF_SEARCH_RESULTS_PREFIX upd; mret (Some s))
        (fun e => match e with IndexError => mret None | _ => raise e end);
  match r : option string with
  | None => mret END
  | Some page_num_str =>
      _handle_pagination_callback upd "prof_search" [page_num_str] SELECTING_PROF_RESULTS 1
  end.

Definition page_prof_course_list_callback (upd : update) : M state :=
  r ← try_catch
        (payload ← payload_after PAGE_PROF_COURSE_LIST_PREFIX upd;
         let parts := rsplit1 "_" payload in
         if negb (length parts =? 2)%nat then raise ValueError
         else
           prof_id_str ← lift (index parts 0);
           page_num_str ← lift (index parts 1);
           mret (Some (prof_id_str, page_num_str)))
        (fun e => match e with IndexError | ValueError => mret None | _ => raise e end);
  match r : option (string * string) with
  | None => mret END
  | Some (prof_id_str, page_num_str) =>
      _handle_pagination_callback upd "prof_course_list" [prof_id_str; page_num_str]
        SELECTING_COURSE_FOR_PROF 2
  end.

Definition page_year_semester_list_callback (upd : update) : M state :=
  r ← try_catch
        (payload ← payload_after PAGE_YEAR_SEMESTER_PREFIX upd;
         let parts := split_char "_" payload in
         if negb (length parts =? 3)%nat then raise ValueError
         else mret (Some parts))
        (fun e => match e with IndexError | ValueError => mret None | _ => raise e end);
  match r : option (list string) with
  | None => mret END
  | Some parts =>
      _handle_pagination_callback upd "year_semester_list" parts SELECTING_YEAR_SEMESTER 3
  end.

(** *** Backward navigation *)

(** The "back" handlers. *)
Inductive back_trigger : Type :=
| BackToMain
| BackToTypingCourse
| BackToTypingProf
| BackToProfSearchList
| BackToCourseSearchList
| BackToProfCourses
| BackToCourseListFromPlot
| BackToYearSemSelect.

(** How a back handler ends when it does not raise: it returns the
    next state, or its last act is [return await other(update, context)],
    which hands the same update and context over to another handler. *)
Inductive hop : Type :=
| Return (s : state)
| HandOver (h : back_trigger).

(** The slots every backward step forgets. *)
Definition forget_plot_and_terms : M unit :=
  _ ← ud_pop "last_plot_message_id";
  _ ← ud_pop "last_bot_message_obj";
  _ ← ud_pop "current_ys_list_mode";
  _ ← ud_pop "current_ys_list_identifier";
  mret tt.

Definition back_to_typing_course_callback (upd : update) : M state :=
  q ← the_query upd;
  _ ← channel (QueryAnswer (Some "⬅️ Back"));
  _ ← _clear_list_context "course_search";
  _ ← ud_pop "selected_course";
  _ ← _clear_list_context "year_semester_list";
  _ ← ud_pop "selected_year";
  _ ← ud_pop "selected_semester";
  _ ← forget_plot_and_terms;
  _ ← ud_set "search_mode" (VAtom (AStr "course"));
  let prompt_text := "📚 OK. Re-enter **course code OR full/partial title**:" in
  _ ← ud_set "original_message_id_for_edit" (VAtom (AInt (message_id q)));
  try_catch
    (_ ← channel (EditMessageText prompt_text (Some get_cancel_keyboard));
     mret TYPING_COURSE)
    (fun e => _ ← handle_api_error "back_to_typing_course" e; mret END).

Definition back_to_typing_prof_callback (upd : update) : M state :=
  q ← the_query upd;
  _ ← channel (QueryAnswer (Some "⬅️ Back"));
  _ ← _clear_list_context "prof_search";
  _ ← _clear_list_context "prof_course_list";
  _ ← ud_pop "selected_prof_id";
  _ ← ud_pop "selected_prof_name";
  _ ← ud_pop "selected_course";
  _ ← _clear_list_context "year_semester_list";
  _ ← ud_pop "selected_year";
  _ ← ud_pop "selected_semester";
  _ ← forget_plot_and_terms;
  _ ← ud_set "search_mode" (VAtom (AStr "prof"));
  let prompt_text := "🧑‍🏫 OK. Re-enter **professor's name**:" in
  _ ← ud_set "original_message_id_for_edit" (VAtom (AInt (message_id q)));
  try_catch
    (_ ← channel (EditMessageText prompt_text (Some get_cancel_keyboard));
     mret TYPING_PROF)
    (fun e => _ ← handle_api_error "back_to_typing_prof" e; mret END).

Definition back_to_prof_search_list_callback (upd : update) : M hop :=
  q ← the_query upd;
  _ ← channel (QueryAnswer (Some "⬅️ Back"));
  all_results ← ud_get "all_prof_search_results";
  page ← ud_get_default "current_prof_search_page" (VAtom (AInt 0));
  query_text ← ud_get_default "last_search_query_prof" (VAtom (AStr ""));
  _ ← ud_set "original_message_id_for_edit" (VAtom (AInt (message_id q)));
  if is_none all_results then mret (HandOver BackToTypingProf)
  else
    _ ← ud_pop "selected_prof_id";
    _ ← ud_pop "selected_prof_name";
    _ ← _clear_list_context "prof_course_list";
    _ ← ud_pop "selected_course";
    _ ← _clear_list_context "year_semester_list";
    _ ← forget_plot_and_terms;
    try_catch
      (p ← lift (as_page page);
       items ← lift (as_items all_results);
       keyboard ← lift (create_search_results_keyboard items "prof" p);
       qt ← lift (html_escape_val query_text);
       let text := "⬅️ Back to Prof Search Results for '*" +:+ qt +:+ "*'." +:+ nl +:+ "Page "
                   +:+ str_int (p + 1) +:+ ". Select:" in
       _ ← channel DeleteMessage;
       mid ← channel (SendMessage text (Some keyboard));
       _ ← ud_set "original_message_id_for_edit" (VAtom (AInt mid));
       mret (Return SELECTING_PROF_RESULTS))
      (fun e => _ ← handle_api_error "back_to_prof_search_list" e; mret (Return END)).

Definition back_to_course_search_list_callback (upd : update) : M hop :=
  q ← the_query upd;
  _ ← channel (QueryAnswer (Some "⬅️ Back"));
  all_results ← ud_get "all_course_search_results";
  page ← ud_get_default "current_course_search_page" (VAtom (AInt 0));
  query_text ← ud_get_default "last_search_query_course" (VAtom (AStr ""));
  _ ← ud_set "original_message_id_for_edit" (VAtom (AInt (message_id q)));
  if is_none all_results then mret (HandOver BackToTypingCourse)
  else
    _ ← ud_pop "selected_course";
    _ ← _clear_list_context "year_semester_list";
    _ ← forget_plot_and_terms;
    try_catch
      (p ← lift (as_page page);
       items ← lift (as_items all_results);
       keyboard ← lift (create_search_results_keyboard items "course" p);
       qt ← lift (html_escape_val query_text);
       let text := "⬅️ Back to Course Search Results for '*" +:+ qt +:+ "*'." +:+ nl +:+ "Page "
                   +:+ str_int (p + 1) +:+ ". Select:" in
       _ ← channel (EditMessageText text (Some keyboard));
       mret (Return SELECTING_COURSE_RESULTS))
      (fun e => _ ← handle_api_error "back_to_course_search_list" e; mret (Return END)).

Definition back_to_prof_courses_callback (upd : update) : M hop :=
  q ← the_query upd;
  _ ← channel (QueryAnswer (Some "⬅️ Back"));
  _ ← ud_set "original_message_id_for_edit" (VAtom (AInt (message_id q)));
  parsed ← try_catch
             (prof_id_str ← lift (index (split1 BACK_TO_PROF_COURSE_LIST_PREFIX (data q)) 1);
              prof_id ← lift (int_str prof_id_str);
              mret (Some (prof_id_str, prof_id)))
             (fun e => match e with IndexError | ValueError => mret None | _ => raise e end);
  match parsed : option (string * Z) with
  | None => mret (HandOver BackToMain)
  | Some (prof_id_str, prof_id) =>
      selected_prof_id_ctx ← ud_get "selected_prof_id";
      if negb (val_eq_int selected_prof_id_ctx prof_id) then mret (HandOver BackToTypingProf)
      else
        all_unique_courses ← ud_get "unique_courses_for_selected_prof_kb";
        page ← ud_get_default "current_prof_course_list_page" (VAtom (AInt 0));
        prof_name ← ud_get_default "selected_prof_name" (VAtom (AStr ("ID " +:+ str_int prof_id)));
        if negb (val_truthy all_unique_courses) then mret (HandOver BackToProfSearchList)
        else
          _ ← ud_pop "selected_course";
          _ ← _clear_list_context "year_semester_list";
          _ ← forget_plot_and_terms;
          try_catch
            (p ← lift (as_page page);
             items ← lift (as_items all_unique_courses);
             keyboard ← lift (create_prof_course_selection_keyboard items prof_id_str p);
             pn ← lift (html_escape_val prof_name);
             let text := "⬅️ Back. Courses for **" +:+ pn +:+ "**." +:+ nl +:+ "Page "
                         +:+ str_int (p + 1) +:+ ". Select:" in
             _ ← channel (EditMessageText text (Some keyboard));
             mret (Return SELECTING_COURSE_FOR_PROF))
            (fun e => _ ← handle_api_error "back_to_prof_courses" e; mret (Return END))
  end.

Definition session_expired_text : string :=
  "Session data has expired. Please use /start for a new search.".

(** [payload.split('prof_')[1]] for a payload that starts with ['prof_']. *)
Definition after_prof_prefix (payload : string) : string :=
  let rest := string_drop 5 payload in
  match split_once "prof_" rest with
  | Some (a, _) => a
  | None => rest
  end.

Definition back_to_course_list_from_plot_callback (upd : update) : M state :=
  _ ← _disable_previous_plot_buttons;
  q ← the_query upd;
  _ ← channel (QueryAnswer (Some "⬅️ Going back to course list..."));
  try_catch
    (payload ← lift (index (split1 BACK_TO_COURSE_LIST_FROM_PLOT_PREFIX (data q)) 1);
     if String.prefix "prof_" payload then
       let prof_id_str := after_prof_prefix payload in
       all_unique_courses ← ud_get "unique_courses_for_selected_prof_kb";
       page ← ud_get_default "current_prof_course_list_page" (VAtom (AInt 0));
       prof_name ← ud_get_default "selected_prof_name" (VAtom (AStr ("ID " +:+ prof_id_str)));
       if negb (val_truthy all_unique_courses) then raise ValueError
       else
         p ← lift (as_page page);
         items ← lift (as_items all_unique_courses);
         keyboard ← lift (create_prof_course_selection_keyboard items prof_id_str p);
         message_text ← lift (_get_prof_course_list_text_template prof_name
                                (Z.of_nat (length items)) (p + 1));
         _ ← channel (SendMessage message_text (Some keyboard));
         mret SELECTING_COURSE_FOR_PROF
     else if String.eqb payload "course" then
       all_results ← ud_get "all_course_search_results";
       page ← ud_get_default "current_course_search_page" (VAtom (AInt 0));
       query_text ← ud_get_default "last_search_query_course" (VAtom (AStr ""));
       if negb (val_truthy all_results) then raise ValueError
       else
         p ← lift (as_page page);
         items ← lift (as_items all_results);
         keyboard ← lift (create_search_results_keyboard items "course" p);
         message_text ← lift (_get_search_list_text_template "courses"
                                (Z.of_nat (length items)) query_text (p + 1));
         _ ← channel (SendMessage message_text (Some keyboard));
         mret SELECTING_COURSE_RESULTS
     else raise ValueError)
    (fun _ => _ ← channel (SendMessage session_expired_text None); mret END).

(** The mode and the identifier of the term list are stored as text
    (or not at all), and the model covers such contexts: a list or a
    message found in these slots counts as a type error. *)
Definition as_atom (v : pyval) : result atom :=
  match v with
  | VAtom a => Ok a
  | _ => Raise TypeError
  end.

Definition back_to_year_sem_select_callback (upd : update) : M state :=
  _ ← _disable_previous_plot_buttons;
  q ← the_query upd;
  _ ← channel (QueryAnswer (Some "⬅️ Going back..."));
  try_catch
    (course_code ← ud_get "selected_course";
     all_terms_data ← ud_get "all_year_semester_list_results";
     search_mode ← ud_get "current_ys_list_mode";
     identifier ← ud_get "current_ys_list_identifier";
     page ← ud_get_default "current_year_semester_list_page" (VAtom (AInt 0));
     prof_name ← (if match search_mode with VAtom a => py_eq a (AStr "prof") | _ => false end
                  then ud_get "selected_prof_name" else mret VNone);
     if negb (val_truthy course_code && val_truthy all_terms_data && val_truthy search_mode
              && negb (is_none identifier))
     then
       _ ← channel (SendMessage session_expired_text None);
       mret END
     else
       p ← lift (as_page page);
       terms ← lift (as_items all_terms_data);
       ident ← lift (as_atom identifier);
       mode ← lift (as_atom search_mode);
       keyboard ← lift (create_year_semester_keyboard terms ident mode p);
       message_text ← lift (_get_year_semester_list_text_template course_code
                              (Z.of_nat (length terms)) (p + 1) prof_name);
       _ ← channel (SendMessage message_text (Some keyboard));
       mret SELECTING_YEAR_SEMESTER)
    (fun e => _ ← handle_api_error "back_to_year_sem_select" e; mret END).

(** A handler that only ever returns. *)
Definition returning (m : M state) : M hop := s ← m; mret (Return s).

(** One handler run: the function bound to the trigger, up to its
    return or its hand-over. *)
Definition back_step (h : back_trigger) (upd : update) : M hop :=
  match h with
  | BackToMain => returning (back_to_main_callback upd)
  | BackToTypingCourse => returning (back_to_typing_course_callback upd)
  | BackToTypingProf => returning (back_to_typing_prof_callback upd)
  | BackToProfSearchList => back_to_prof_search_list_callback upd
  | BackToCourseSearchList => back_to_course_search_list_callback upd
  | BackToProfCourses => back_to_prof_courses_callback upd
  | BackToCourseListFromPlot => returning (back_to_course_list_from_plot_callback upd)
  | BackToYearSemSelect => returning (back_to_year_sem_select_callback upd)
  end.

(** A back trigger run to its end: hand-overs are followed, at most
    [fuel] handlers run in a row; [None] means the bound was hit. *)
Fixpoint run_back (fuel : nat) (h : back_trigger) (upd : update) (st : hstate)
    : option (result state * hstate) :=
  match fuel with
  | O => None
  | S fuel' =>
      match back_step h upd st with
      | (Ok (Return s), st') => Some (Ok s, st')
      | (Ok (HandOver h'), st') => run_back fuel' h' upd st'
      | (Raise e, st') => Some (Raise e, st')
      end
  end.

End Channel.

End Handlers.

(** ** bot/main.py: the two conversation definitions *)
Module Main.

(** The handler functions the tables name. *)
Inductive handler_name : Type :=
| start_command
| cancel_conversation
| help_command
| feedback_start_command
| select_search_mode_callback
| handle_course_search_input
| handle_prof_search_input
| select_item_callback
| select_year_semester_callback
| page_course_search_results_callback
| page_prof_search_results_callback
| page_prof_course_list_callback
| page_year_semester_list_callback
| back_to_typing_course_callback
| back_to_typing_prof_callback
| back_to_prof_search_list_callback
| back_to_course_search_list_callback
| back_to_prof_courses_callback
| back_to_year_sem_select_callback
| back_to_course_list_from_plot_callback
| back_to_main_callback
| simple_close_callback
| view_prof_courses_callback
| feedback_type_callback
| feedback_message_handler
| feedback_confirm_send_callback
| feedback_cancel_or_edit_callback.

(** Inbound events: a command, a button press with its payload, or
    free text that is not a command. *)
Inductive event : Type :=
| EvCommand (name : string)
| EvCallback (payload : string)
| EvText (body : string).

(** What a table entry listens to.  The button patterns of the tables
    have three shapes: [^prefix], [^word$] and [^(a|b|...)$]. *)
Inductive trigger : Type :=
| CommandHandler (name : string)
| PatternPrefix (prefix : string)
| PatternOneOf (words : list string)
| TextNotCommand.

(** [re.match("^w$", s)]: [$] also matches before a final newline. *)
Definition matches_word (s w : string) : bool :=
  String.eqb s w || String.eqb s (w +:+ Handlers.nl).

Definition matches (t : trigger) (ev : event) : bool :=
  match t, ev with
  | CommandHandler n, EvCommand m => String.eqb n m
  | PatternPrefix p, EvCallback s => String.prefix p s
  | PatternOneOf ws, EvCallback s => existsb (matches_word s) ws
  | TextNotCommand, EvText _ => true
  | _, _ => false
  end.

Definition table : Type := list (trigger * handler_name).

Record conversation : Type := Conversation {
  entry_points : table;
  states : list (state * table);
  fallbacks : table;
  allow_reentry : bool
}.

Definition state_eqb (a b : state) : bool :=
  match a, b with
  | SELECTING_ACTION, SELECTING_ACTION | TYPING_COURSE, TYPING_COURSE
  | TYPING_PROF, TYPING_PROF | SELECTING_COURSE_RESULTS, SELECTING_COURSE_RESULTS
  | SELECTING_PROF_RESULTS, SELECTING_PROF_RESULTS
  | SELECTING_COURSE_FOR_PROF, SELECTING_COURSE_FOR_PROF
  | SELECTING_YEAR_SEMESTER, SELECTING_YEAR_SEMESTER
  | SHOWING_FINAL_GRADES, SHOWING_FINAL_GRADES
  | ASK_FEEDBACK_TYPE, ASK_FEEDBACK_TYPE
  | TYPING_FEEDBACK_MESSAGE, TYPING_FEEDBACK_MESSAGE
  | CONFIRM_FEEDBACK_SUBMISSION, CONFIRM_FEEDBACK_SUBMISSION
  | END, END => true
  | _, _ => false
  end.

Definition search_conv_handler : conversation :=
  Conversation
    [ (CommandHandler "start", start_command) ]
    [ (SELECTING_ACTION,
       [ (PatternOneOf [COURSE_SEARCH_MODE; PROF_SEARCH_MODE], select_search_mode_callback) ]);
      (TYPING_COURSE, [ (TextNotCommand, handle_course_search_input) ]);
      (TYPING_PROF, [ (TextNotCommand, handle_prof_search_input) ]);
      (SELECTING_COURSE_RESULTS,
       [ (PatternPrefix COURSE_SELECT_PREFIX, select_item_callback);
         (PatternOneOf [BACK_TO_TYPING_COURSE], back_to_typing_course_callback);
         (PatternPrefix PAGE_COURSE_SEARCH_RESULTS_PREFIX, page_course_search_results_callback) ]);
      (SELECTING_PROF_RESULTS,
       [ (PatternPrefix PROF_SELECT_PREFIX, select_item_callback);
         (PatternOneOf [BACK_TO_TYPING_PROF], back_to_typing_prof_callback);
         (PatternPrefix PAGE_PROF_SEARCH_RESULTS_PREFIX, page_prof_search_results_callback) ]);
      (SELECTING_COURSE_FOR_PROF,
       [ (PatternPrefix COURSE_SELECT_PREFIX, select_item_callback);
         (PatternPrefix PAGE_PROF_COURSE_LIST_PREFIX, page_prof_course_list_callback);
         (PatternPrefix VIEW_PROF_COURSES_PREFIX, view_prof_courses_callback) ]);
      (SELECTING_YEAR_SEMESTER,
       [ (PatternPrefix YEAR_SEM_SELECT_PREFIX, select_year_semester_callback);
         (PatternPrefix PAGE_YEAR_SEMESTER_PREFIX, page_year_semester_list_callback);
         (PatternOneOf [BACK_TO_COURSE_SEARCH_LIST], back_to_course_search_list_callback);
         (PatternPrefix BACK_TO_PROF_COURSE_LIST_PREFIX, back_to_prof_courses_callback) ]);
      (SHOWING_FINAL_GRADES,
       [ (PatternPrefix BACK_TO_YEAR_SEM_SELECT_PREFIX, back_to_year_sem_select_callback);
         (PatternPrefix BACK_TO_COURSE_LIST_FROM_PLOT_PREFIX, back_to_course_list_from_plot_callback);
         (PatternOneOf [BACK_TO_MAIN], back_to_main_callback);
         (PatternOneOf [CANCEL], cancel_conversation) ]) ]
    [ (CommandHandler "start", start_command);
      (CommandHandler "cancel", cancel_conversation);
      (CommandHandler "help", help_command);
      (PatternOneOf [BACK_TO_MAIN], back_to_main_callback);
      (PatternOneOf [BACK_TO_PROF_SEARCH_LIST], back_to_prof_search_list_callback);
      (PatternOneOf [CANCEL], cancel_conversation);
      (PatternOneOf ["close_interaction"], simple_close_callback) ]
    true.

Definition feedback_conv_handler : conversation :=
  Conversation
    [ (CommandHandler "feedback", feedback_start_command) ]
    [ (ASK_FEEDBACK_TYPE,
       [ (PatternOneOf [FEEDBACK_TYPE_BUG; FEEDBACK_TYPE_SUGGESTION; FEEDBACK_TYPE_GENERAL],
          feedback_type_callback) ]);
      (TYPING_FEEDBACK_MESSAGE, [ (TextNotCommand, feedback_message_handler) ]);
      (CONFIRM_FEEDBACK_SUBMISSION,
       [ (PatternOneOf [CONFIRM_SEND_FEEDBACK], feedback_confirm_send_callback);
         (PatternOneOf [CANCEL_FEEDBACK], feedback_cancel_or_edit_callback) ]) ]
    [ (PatternOneOf [CANCEL_FEEDBACK], feedback_cancel_or_edit_callback);
      (PatternOneOf [CANCEL], cancel_conversation);
      (CommandHandler "cancel", cancel_conversation);
      (CommandHandler "start", start_command) ]
    true.

(** The first entry of a table that listens to the event. *)
Fixpoint first_match (t : table) (ev : event) : option handler_name :=
  match t with
  | [] => None
  | (tr, h) :: rest => if matches tr ev then Some h else first_match rest ev
  end.

Fixpoint state_table (l : list (state * table)) (s : state) : table :=
  match l with
  | [] => []
  | (s', t) :: rest => if state_eqb s s' then t else state_table rest s
  end.

(** The handler a conversation picks for an event, in the order the
    [ConversationHandler] of the framework looks: the entry points
    (when no conversation is open, or re-entry is allowed), then the
    entries of the current state, then the fallbacks. *)
Definition resolve (c : conversation) (current : option state) (ev : event) : option handler_name :=
  let by_entry :=
    match current with
    | None => first_match (entry_points c) ev
    | Some _ => if allow_reentry c then first_match (entry_points c) ev else None
    end in
  match by_entry, current with
  | Some h, _ => Some h
  | None, None => None
  | None, Some s =>
      match first_match (state_table (states c) s) ev with
      | Some h => Some h
      | None => first_match (fallbacks c) ev
      end
  end.

Definition browse_states : list state :=
  [SELECTING_ACTION; TYPING_COURSE; TYPING_PROF; SELECTING_COURSE_RESULTS; SELECTING_PROF_RESULTS;
   SELECTING_COURSE_FOR_PROF; SELECTING_YEAR_SEMESTER; SHOWING_FINAL_GRADES].

Definition feedback_states : list state :=
  [ASK_FEEDBACK_TYPE; TYPING_FEEDBACK_MESSAGE; CONFIRM_FEEDBACK_SUBMISSION].

End Main.

(** * Properties *)

(** ** Gating filters *)
Module GatingProps.
Import Gating.

Lemma is_admin_In (user_id : Z) (admin_ids : list Z) :
  is_admin user_id admin_ids = true <-> In user_id admin_ids.
Proof.
  unfold is_admin. rewrite existsb_exists. split.
  - intros (x & Hx & Heq). apply Z.eqb_eq in Heq. now subst.
  - intros H. exists user_id. split; [assumption | apply Z.eqb_refl].
Qed.

Lemma is_admin_not_In (user_id : Z) (admin_ids : list Z) :
  is_admin user_id admin_ids = false <-> ~ In user_id admin_ids.
Proof.
  rewrite <- is_admin_In. destruct (is_admin user_id admin_ids); split; congruence.
Qed.

(** The maintenance value as the documentation of the check words it:
    nothing when the flag is absent or is the legacy ['false'], stealth
    for the legacy ['true'], the stored text otherwise. *)
Definition documented_status (stored : option string) : option string :=
  match stored with
  | None => None
  | Some m =>
      if decide (m = "false") then None
      else if decide (m = "true") then Some "stealth"
      else Some m
  end.

Lemma maintenance_status_admin (r : redis_reply) (user_id : Z) (admin_ids : list Z) :
  In user_id admin_ids ->
  get_maintenance_status r user_id admin_ids = ([], Ok None).
Proof.
  intros H. apply is_admin_In in H. unfold get_maintenance_status. now rewrite H.
Qed.

Lemma maintenance_status_stored (stored : option string) (user_id : Z) (admin_ids : list Z) :
  ~ In user_id admin_ids ->
  get_maintenance_status (RedisValue stored) user_id admin_ids = ([], Ok (documented_status stored)).
Proof.
  intros H. apply is_admin_not_In in H. unfold get_maintenance_status, documented_status.
  rewrite H. destruct stored as [m|]; [|reflexivity].
  destruct (decide (m = "false")) as [->|Hf]; [reflexivity|].
  apply String.eqb_neq in Hf. rewrite Hf.
  destruct (decide (m = "true")) as [->|Ht]; [reflexivity|].
  apply String.eqb_neq in Ht. now rewrite Ht.
Qed.

(** C10: for a user outside the elevated list the check answers live
    when the flag is absent or ['false'], stealth when it is ['true'],
    and the stored text itself otherwise; for an elevated user it
    answers live whatever the store does. *)
Theorem maintenance_status_by_stored_flag (user_id : Z) (admin_ids : list Z) :
  (~ In user_id admin_ids ->
     snd (get_maintenance_status (RedisValue None) user_id admin_ids) = Ok None
     /\ snd (get_maintenance_status (RedisValue (Some "false")) user_id admin_ids) = Ok None
     /\ snd (get_maintenance_status (RedisValue (Some "true")) user_id admin_ids) = Ok (Some "stealth")
     /\ (forall m : string, m <> "false" -> m <> "true" ->
           snd (get_maintenance_status (RedisValue (Some m)) user_id admin_ids) = Ok (Some m)))
  /\ (In user_id admin_ids ->
        forall r : redis_reply, snd (get_maintenance_status r user_id admin_ids) = Ok None).
Proof.
  split.
  - intros H. repeat split.
    + now rewrite maintenance_status_stored.
    + now rewrite maintenance_status_stored.
    + now rewrite maintenance_status_stored.
    + intros m Hf Ht. rewrite maintenance_status_stored by assumption. simpl.
      unfold documented_status.
      destruct (decide (m = "false")); [contradiction|].
      destruct (decide (m = "true")); [contradiction|]. reflexivity.
  - intros H r. now rewrite maintenance_status_admin.
Qed.

Lemma maintenance_status_by_stored_flag_witness :
  snd (get_maintenance_status (RedisValue (Some "Back at 5pm")) 42 [7; 9]) = Ok (Some "Back at 5pm")
  /\ snd (get_maintenance_status (RedisValue (Some "Back at 5pm")) 7 [7; 9]) = Ok None.
Proof.
  split.
  - apply (proj1 (maintenance_status_by_stored_flag 42 [7; 9])).
    + simpl. intros [H | [H | H]]; [discriminate H | discriminate H | exact H].
    + discriminate.
    + discriminate.
  - apply (proj2 (maintenance_status_by_stored_flag 7 [7; 9])).
    simpl. left. reflexivity.
Defined.

Lemma block_check_admin (http : http_reply) (upd : update) (admin_ids : list Z) (user_id : Z) :
  effective_user upd = Some user_id ->
  In user_id admin_ids ->
  snd (pre_process_blocked_user http upd admin_ids) = false.
Proof.
  intros Hu H. apply is_admin_In in H. unfold pre_process_blocked_user.
  now rewrite Hu, H.
Qed.

(** C6: an event of an elevated user passes the gate whatever the
    maintenance store answers (absent, stealth, a message, or an
    error) and whatever the block-list service answers; nothing is
    replied either. *)
Theorem elevated_user_always_allowed (env : gate_env) (upd : update) (admin_ids : list Z)
    (user_id : Z) :
  effective_user upd = Some user_id ->
  In user_id admin_ids ->
  gate_verdict (global_pre_processor env upd admin_ids) = Proceed
  /\ gate_replies (global_pre_processor env upd admin_ids) = [].
Proof.
  intros Hu Hin.
  assert (Hb : forall replies logs,
             block_step env upd admin_ids replies logs
             = GateResult Proceed replies
                 (logs ++ fst (pre_process_blocked_user (user_status_http env) upd admin_ids))).
  { intros replies logs. unfold block_step.
    pose proof (block_check_admin (user_status_http env) upd admin_ids user_id Hu Hin) as Hs.
    destruct (pre_process_blocked_user (user_status_http env) upd admin_ids) as [l b].
    simpl in Hs. now subst b. }
  unfold global_pre_processor. rewrite Hu.
  destruct (negb (user_id =? 0)).
  - rewrite (maintenance_status_admin _ _ _ Hin). rewrite Hb. now split.
  - rewrite Hb. now split.
Qed.

Lemma elevated_user_always_allowed_witness :
  gate_verdict (global_pre_processor (GateEnv (RedisValue (Some "stealth"))
                                        (HttpJson (JObject {[ "is_blocked" := ABool true ]})) true)
                  (Update (Some 7) true false) [7; 9]) = Proceed
  /\ gate_replies (global_pre_processor (GateEnv (RedisValue (Some "stealth"))
                                           (HttpJson (JObject {[ "is_blocked" := ABool true ]})) true)
                     (Update (Some 7) true false) [7; 9]) = [].
Proof.
  apply (elevated_user_always_allowed _ _ _ 7).
  - reflexivity.
  - simpl. left. reflexivity.
Defined.

(** The exchange with the block-list service raised. *)
Definition http_raises (http : http_reply) : bool :=
  match http with
  | HttpStatusFail | HttpRequestFail | HttpOtherFail => true
  | HttpNoContent | HttpJson _ => false
  end.

(** A body that says the user is not blocked. *)
Definition unblocked_body : http_reply := HttpJson (JObject {[ "is_blocked" := ABool false ]}).

Definition redis_error_record : log_entry :=
  (ERROR, "Could not connect to Redis to check maintenance mode. Assuming NOT in maintenance.").

(** Records of a failure: warnings and errors. *)
Definition is_failure_record (e : log_entry) : bool :=
  match fst e with
  | WARNING | ERROR => true
  | DEBUG | INFO => false
  end.

Lemma block_check_raising (http : http_reply) (upd : update) (admin_ids : list Z) (user_id : Z) :
  effective_user upd = Some user_id ->
  ~ In user_id admin_ids ->
  http_raises http = true ->
  snd (pre_process_blocked_user http upd admin_ids) = false
  /\ existsb is_failure_record (fst (pre_process_blocked_user http upd admin_ids)) = true.
Proof.
  intros Hu Hn Hr. apply is_admin_not_In in Hn. unfold pre_process_blocked_user.
  rewrite Hu, Hn. destruct http; try discriminate Hr; simpl; split; reflexivity.
Qed.

Lemma block_check_unblocked (upd : update) (admin_ids : list Z) :
  snd (pre_process_blocked_user unblocked_body upd admin_ids) = false.
Proof.
  unfold pre_process_blocked_user. destruct (effective_user upd) as [u|]; [|reflexivity].
  destruct (is_admin u admin_ids); reflexivity.
Qed.

Lemma block_step_verdict (env : gate_env) (upd : update) (admin_ids : list Z)
    (replies : list reply) (logs : list log_entry) :
  gate_verdict (block_step env upd admin_ids replies logs)
  = (if snd (pre_process_blocked_user (user_status_http env) upd admin_ids)
     then HandlerStop else Proceed)
  /\ gate_replies (block_step env upd admin_ids replies logs) = replies
  /\ gate_logs (block_step env upd admin_ids replies logs)
     = logs ++ fst (pre_process_blocked_user (user_status_http env) upd admin_ids).
Proof.
  unfold block_step.
  destruct (pre_process_blocked_user (user_status_http env) upd admin_ids) as [l b].
  simpl. now destruct b.
Qed.

(** What the user sees of a run of the gate: the verdict and the replies. *)
Definition visible (r : gate_result) : verdict * list reply := (gate_verdict r, gate_replies r).

Lemma visible_block_step (env : gate_env) (upd : update) (admin_ids : list Z)
    (replies : list reply) (logs : list log_entry) :
  visible (block_step env upd admin_ids replies logs)
  = (if snd (pre_process_blocked_user (user_status_http env) upd admin_ids)
     then HandlerStop else Proceed, replies).
Proof.
  unfold visible. destruct (block_step_verdict env upd admin_ids replies logs) as (-> & -> & _).
  reflexivity.
Qed.

(** What the gate shows depends on the service only through the block
    verdict. *)
Lemma visible_same_block_verdict (r : redis_reply) (h1 h2 : http_reply) (ok : bool)
    (upd : update) (admin_ids : list Z) :
  snd (pre_process_blocked_user h1 upd admin_ids) = snd (pre_process_blocked_user h2 upd admin_ids) ->
  visible (global_pre_processor (GateEnv r h1 ok) upd admin_ids)
  = visible (global_pre_processor (GateEnv r h2 ok) upd admin_ids).
Proof.
  intros H. unfold global_pre_processor. simpl.
  destruct (effective_user upd) as [u|]; [|rewrite !visible_block_step; simpl; now rewrite H].
  destruct (negb (u =? 0)); [|rewrite !visible_block_step; simpl; now rewrite H].
  destruct (get_maintenance_status r u admin_ids) as [logs [[st|]|e]];
    [|rewrite !visible_block_step; simpl; now rewrite H|reflexivity].
  destruct (String.eqb st "stealth"); [reflexivity|].
  destruct (negb (String.eqb st "")); [|rewrite !visible_block_step; simpl; now rewrite H].
  destruct (has_message upd); [now destruct ok|].
  destruct (has_callback_query upd); [now destruct ok|reflexivity].
Qed.

(** C7: the gate fails open.  For a user who is subject to the checks,
    a connection error of the maintenance store shows the same verdict
    and replies as an absent flag; a block-list call that raises shows
    the same as a body saying "not blocked"; with both failing the
    event proceeds with no reply; and either failure leaves a warning
    or error record in the log instead of escaping. *)
Theorem gate_fails_open (upd : update) (admin_ids : list Z) (user_id : Z)
    (http : http_reply) (ok : bool) :
  effective_user upd = Some user_id ->
  user_id <> 0 ->
  ~ In user_id admin_ids ->
  http_raises http = true ->
  (forall h : http_reply,
     visible (global_pre_processor (GateEnv RedisConnectionError h ok) upd admin_ids)
     = visible (global_pre_processor (GateEnv (RedisValue None) h ok) upd admin_ids)
     /\ In redis_error_record
          (gate_logs (global_pre_processor (GateEnv RedisConnectionError h ok) upd admin_ids)))
  /\ (forall r : redis_reply,
        visible (global_pre_processor (GateEnv r http ok) upd admin_ids)
        = visible (global_pre_processor (GateEnv r unblocked_body ok) upd admin_ids))
  /\ visible (global_pre_processor (GateEnv RedisConnectionError http ok) upd admin_ids)
     = (Proceed, [])
  /\ existsb is_failure_record
       (gate_logs (global_pre_processor (GateEnv (RedisValue None) http ok) upd admin_ids)) = true.
Proof.
  intros Hu Hz Hn Hr.
  pose proof (block_check_raising http upd admin_ids user_id Hu Hn Hr) as [Hb Hl].
  pose proof Hn as Hn'. apply is_admin_not_In in Hn'.
  assert (Hnz : negb (user_id =? 0) = true).
  { apply negb_true_iff. now apply Z.eqb_neq. }
  repeat split.
  - unfold global_pre_processor, get_maintenance_status. simpl.
    rewrite Hu, Hnz, Hn'. now rewrite !visible_block_step.
  - unfold global_pre_processor, get_maintenance_status. simpl.
    rewrite Hu, Hnz, Hn'.
    match goal with
    | |- context [block_step ?e ?u ?a ?r ?l] =>
        destruct (block_step_verdict e u a r l) as (_ & _ & Hlog)
    end.
    rewrite Hlog. simpl. now left.
  - intros r. apply visible_same_block_verdict. rewrite Hb. symmetry. apply block_check_unblocked.
  - unfold global_pre_processor, get_maintenance_status. simpl.
    rewrite Hu, Hnz, Hn'. rewrite visible_block_step. simpl. now rewrite Hb.
  - unfold global_pre_processor, get_maintenance_status. simpl.
    rewrite Hu, Hnz, Hn'.
    match goal with
    | |- context [block_step ?e ?u ?a ?r ?l] =>
        destruct (block_step_verdict e u a r l) as (_ & _ & Hlog)
    end.
    rewrite Hlog. simpl. exact Hl.
Qed.

Lemma gate_fails_open_witness :
  visible (global_pre_processor (GateEnv RedisConnectionError HttpRequestFail true)
             (Update (Some 42) true false) [7; 9]) = (Proceed, []).
Proof.
  refine (proj1 (proj2 (proj2 (gate_fails_open (Update (Some 42) true false) [7; 9] 42
                                 HttpRequestFail true _ _ _ _)))).
  - reflexivity.
  - discriminate.
  - simpl. intros [H | [H | H]]; [discriminate H | discriminate H | exact H].
  - reflexivity.
Defined.

(** The gate is not trivially open: a blocked user is stopped, and so
    is anyone during stealth maintenance. *)
Example blocked_user_is_stopped :
  visible (global_pre_processor
             (GateEnv (RedisValue None) (HttpJson (JObject {[ "is_blocked" := ABool true ]})) true)
             (Update (Some 42) true false) [7; 9]) = (HandlerStop, [])
  /\ visible (global_pre_processor (GateEnv (RedisValue (Some "true")) unblocked_body true)
                (Update (Some 42) true false) [7; 9]) = (HandlerStop, [])
  /\ visible (global_pre_processor (GateEnv (RedisValue (Some "Back at 5pm")) unblocked_body true)
                (Update (Some 42) true false) [7; 9]) = (HandlerStop, [ReplyText "Back at 5pm"]).
Proof. repeat split. Qed.

End GatingProps.

(** ** Built-ins: printing and reading integers, cutting payloads *)
Module PyProps.

Lemma append_empty_r (s : string) : s +:+ "" = s.
Proof. induction s as [|c s IH]; simpl; [reflexivity | now rewrite IH]. Qed.

Lemma append_assoc (a b c : string) : (a +:+ b) +:+ c = a +:+ (b +:+ c).
Proof. induction a as [|x a IH]; simpl; [reflexivity | now rewrite IH]. Qed.

Lemma rev_onto_twice (s a b : string) :
  string_rev_onto (string_rev_onto s a) b = string_rev_onto a (s +:+ b).
Proof.
  revert a b. induction s as [|c s IH]; intros a b; simpl; [reflexivity|].
  now rewrite IH.
Qed.

Lemma string_rev_involutive (s : string) : string_rev (string_rev s) = s.
Proof. unfold string_rev. rewrite rev_onto_twice. simpl. apply append_empty_r. Qed.

(** No blank anywhere in the text. *)
Fixpoint no_space (s : string) : bool :=
  match s with
  | EmptyString => true
  | String c s' => negb (is_space c) && no_space s'
  end.

Lemma lstrip_no_space (s : string) : no_space s = true -> lstrip s = s.
Proof.
  destruct s as [|c s]; simpl; [reflexivity|].
  intros H. apply andb_true_iff in H as [H _]. apply negb_true_iff in H. now rewrite H.
Qed.

Lemma no_space_rev_onto (s a : string) :
  no_space (string_rev_onto s a) = no_space s && no_space a.
Proof.
  revert a. induction s as [|c s IH]; intros a; simpl; [reflexivity|].
  rewrite IH. simpl. destruct (is_space c), (no_space s), (no_space a); reflexivity.
Qed.

Lemma strip_no_space (s : string) : no_space s = true -> strip s = s.
Proof.
  intros H. unfold strip. rewrite (lstrip_no_space s H).
  rewrite lstrip_no_space.
  - apply string_rev_involutive.
  - unfold string_rev. rewrite no_space_rev_onto, H. reflexivity.
Qed.

(** Only decimal digits in the text. *)
Fixpoint all_digits (s : string) : bool :=
  match s with
  | EmptyString => true
  | String c s' => is_digit c && all_digits s'
  end.

Lemma digits_of_uint (d : uint) : all_digits (NilEmpty.string_of_uint d) = true.
Proof. induction d; simpl; try reflexivity; assumption. Qed.

Lemma is_digit_not_space (c : ascii) : is_digit c = true -> is_space c = false.
Proof.
  unfold is_digit, is_space. intros H. apply andb_true_iff in H as [H1 H2].
  apply Nat.leb_le in H1. apply Nat.leb_le in H2.
  apply orb_false_iff. split; apply andb_false_iff.
  - right. apply Nat.leb_gt. lia.
  - right. apply Nat.leb_gt. lia.
Qed.

Lemma is_digit_not_underscore (c : ascii) : is_digit c = true -> Ascii.eqb c "_" = false.
Proof.
  intros H. destruct (Ascii.eqb_spec c "_") as [->|]; [discriminate H | reflexivity].
Qed.

Lemma all_digits_no_space (s : string) : all_digits s = true -> no_space s = true.
Proof.
  induction s as [|c s IH]; simpl; [reflexivity|].
  intros H. apply andb_true_iff in H as [Hc Hs].
  rewrite (is_digit_not_space c Hc). simpl. now apply IH.
Qed.

Lemma drop_underscores_digits (s : string) (prev : bool) :
  all_digits s = true ->
  s <> EmptyString \/ prev = true ->
  drop_underscores prev s = Some s.
Proof.
  revert prev. induction s as [|c s IH]; intros prev Hd Hne.
  - destruct Hne as [Hne | ->]; [contradiction | reflexivity].
  - simpl in Hd. apply andb_true_iff in Hd as [Hc Hs]. simpl.
    rewrite (is_digit_not_underscore c Hc), Hc.
    rewrite (IH true Hs) by now right. reflexivity.
Qed.

Lemma string_of_uint_nonempty (d : uint) :
  d <> Nil -> NilEmpty.string_of_uint d <> EmptyString.
Proof. destruct d; simpl; congruence. Qed.

Lemma int_digits_of_uint (d : uint) :
  d <> Nil -> int_digits (NilEmpty.string_of_uint d) = Some d.
Proof.
  intros Hd. unfold int_digits.
  rewrite drop_underscores_digits.
  - apply NilEmpty.usu.
  - apply digits_of_uint.
  - left. now apply string_of_uint_nonempty.
Qed.

(** The text of an unsigned numeral that is not empty reads back. *)
Lemma int_str_unsigned (d : uint) :
  d <> Nil -> int_str (NilEmpty.string_of_uint d) = Ok (Z.of_int (Pos d)).
Proof.
  intros Hd. unfold int_str.
  rewrite strip_no_space by (apply all_digits_no_space, digits_of_uint).
  pose proof (int_digits_of_uint d Hd) as Hi.
  pose proof (digits_of_uint d) as Ha.
  destruct (NilEmpty.string_of_uint d) as [|c r] eqn:E.
  - exfalso. now apply (string_of_uint_nonempty d Hd).
  - simpl in Ha. apply andb_true_iff in Ha as [Hc _].
    assert (Hm : Ascii.eqb c "-" = false).
    { destruct (Ascii.eqb_spec c "-") as [->|]; [discriminate Hc | reflexivity]. }
    assert (Hp : Ascii.eqb c "+" = false).
    { destruct (Ascii.eqb_spec c "+") as [->|]; [discriminate Hc | reflexivity]. }
    rewrite Hm, Hp, Hi. reflexivity.
Qed.

Lemma int_str_negative (d : uint) :
  d <> Nil -> int_str (String "-" (NilEmpty.string_of_uint d)) = Ok (Z.of_int (Neg d)).
Proof.
  intros Hd. unfold int_str.
  rewrite strip_no_space.
  - simpl. now rewrite (int_digits_of_uint d Hd).
  - simpl. apply all_digits_no_space, digits_of_uint.
Qed.

(** [int(str(z)) == z] *)
Lemma int_str_str_int (z : Z) : int_str (str_int z) = Ok z.
Proof.
  unfold str_int. rewrite <- (DecimalZ.of_to z) at 2.
  destruct z as [|p|p]; simpl.
  - reflexivity.
  - pose proof (DecimalPos.Unsigned.to_uint_nonnil p) as Hn.
    replace (NilZero.string_of_uint (Pos.to_uint p)) with (NilEmpty.string_of_uint (Pos.to_uint p))
      by (destruct (Pos.to_uint p); [contradiction | reflexivity ..]).
    now rewrite int_str_unsigned.
  - pose proof (DecimalPos.Unsigned.to_uint_nonnil p) as Hn.
    replace (NilZero.string_of_uint (Pos.to_uint p)) with (NilEmpty.string_of_uint (Pos.to_uint p))
      by (destruct (Pos.to_uint p); [contradiction | reflexivity ..]).
    now rewrite int_str_negative.
Qed.

(** The text of an integer holds no underscore. *)
Fixpoint no_char (x : ascii) (s : string) : bool :=
  match s with
  | EmptyString => true
  | String c s' => negb (Ascii.eqb c x) && no_char x s'
  end.

Lemma all_digits_no_underscore (s : string) : all_digits s = true -> no_char "_" s = true.
Proof.
  induction s as [|c s IH]; simpl; [reflexivity|].
  intros H. apply andb_true_iff in H as [Hc Hs].
  rewrite (is_digit_not_underscore c Hc). simpl. now apply IH.
Qed.

Lemma str_int_no_underscore (z : Z) : no_char "_" (str_int z) = true.
Proof.
  unfold str_int. destruct z as [|p|p]; simpl; [reflexivity | |].
  - destruct (Pos.to_uint p) eqn:E; try reflexivity;
      rewrite <- E; simpl;
      replace (NilZero.string_of_uint (Pos.to_uint p)) with (NilEmpty.string_of_uint (Pos.to_uint p))
        by (rewrite E; reflexivity);
      apply all_digits_no_underscore, digits_of_uint.
  - destruct (Pos.to_uint p) eqn:E; try reflexivity;
      rewrite <- E;
      replace (NilZero.string_of_uint (Pos.to_uint p)) with (NilEmpty.string_of_uint (Pos.to_uint p))
        by (rewrite E; reflexivity);
      apply all_digits_no_underscore, digits_of_uint.
Qed.

Lemma rsplit_once_none (x : ascii) (s : string) :
  no_char x s = true -> rsplit_once x s = None.
Proof.
  induction s as [|c s IH]; simpl; [reflexivity|].
  intros H. apply andb_true_iff in H as [Hc Hs]. apply negb_true_iff in Hc.
  now rewrite (IH Hs), Hc.
Qed.

(** [rsplit] cuts at the last separator, whatever comes before it. *)
Lemma rsplit_once_last (x : ascii) (a b : string) :
  no_char x b = true -> rsplit_once x (a +:+ String x b) = Some (a, b).
Proof.
  intros Hb. induction a as [|c a IH]; simpl.
  - now rewrite (rsplit_once_none x b Hb), Ascii.eqb_refl.
  - now rewrite IH.
Qed.

Lemma split_char_none (x : ascii) (s : string) :
  no_char x s = true -> split_char x s = [s].
Proof.
  induction s as [|c s IH]; simpl; [reflexivity|].
  intros H. apply andb_true_iff in H as [Hc Hs]. apply negb_true_iff in Hc.
  now rewrite Hc, (IH Hs).
Qed.

Lemma split_char_cons (x : ascii) (a r : string) :
  no_char x a = true -> split_char x (a +:+ String x r) = a :: split_char x r.
Proof.
  induction a as [|c a IH]; simpl.
  - intros _. now rewrite Ascii.eqb_refl.
  - intros H. apply andb_true_iff in H as [Hc Ha]. apply negb_true_iff in Hc.
    now rewrite Hc, (IH Ha).
Qed.

Lemma prefix_append (p s : string) : String.prefix p (p +:+ s) = true.
Proof.
  induction p as [|c p IH]; simpl; [now destruct s|].
  destruct (ascii_dec c c) as [_|Hn]; [exact IH | now contradiction Hn].
Qed.

Lemma string_drop_append (p s : string) : string_drop (String.length p) (p +:+ s) = s.
Proof. induction p as [|c p IH]; simpl; [reflexivity | exact IH]. Qed.

(** A payload is cut right after its prefix. *)
Lemma split1_prefix (p s : string) : split1 p (p +:+ s) = [""; s].
Proof.
  unfold split1.
  destruct (p +:+ s) as [|c r] eqn:E.
  - destruct p; [|discriminate E]. simpl in E. subst s. reflexivity.
  - assert (Hpre : String.prefix p (String c r) = true) by (rewrite <- E; apply prefix_append).
    assert (Hdrop : string_drop (String.length p) (String c r) = s)
      by (rewrite <- E; apply string_drop_append).
    cbn [split_once]. now rewrite Hpre, Hdrop.
Qed.

End PyProps.

(** ** Pagination controls *)
Module ControlsProps.
Import Keyboards.

(** The control row [_add_pagination_buttons] builds before it decides
    whether to append it. *)
Definition control_row (current_page total_items : Z) (base_callback_prefix : string)
    (payload_parts : option (list atom)) : list button :=
  concat (_add_pagination_buttons [] current_page total_items base_callback_prefix payload_parts).

Definition has_previous (row : list button) : Prop :=
  exists target, In (previous_button target) row.

Definition has_next (row : list button) : Prop :=
  exists target, In (next_button target) row.

Lemma previous_is_not_next (a b : string) : previous_button a <> next_button b.
Proof. unfold previous_button, next_button. intros H. inversion H. Qed.

(** The buttons are appended to the rows already there, as one row, or
    not at all. *)
Lemma add_pagination_buttons_appends (keyboard0 : keyboard) (current_page total_items : Z)
    (base_callback_prefix : string) (payload_parts : option (list atom)) :
  _add_pagination_buttons keyboard0 current_page total_items base_callback_prefix payload_parts
  = keyboard0 ++ _add_pagination_buttons [] current_page total_items base_callback_prefix payload_parts.
Proof.
  unfold _add_pagination_buttons.
  destruct (total_items <=? ITEMS_PER_PAGE); [now rewrite app_nil_r|].
  destruct (0 <? current_page);
    destruct (current_page <? (total_items + ITEMS_PER_PAGE - 1) / ITEMS_PER_PAGE - 1);
    simpl; try reflexivity.
  now rewrite app_nil_r.
Qed.

Lemma control_row_short (current_page total_items : Z) (base_callback_prefix : string)
    (payload_parts : option (list atom)) :
  total_items <= ITEMS_PER_PAGE ->
  _add_pagination_buttons [] current_page total_items base_callback_prefix payload_parts = [].
Proof.
  intros H. unfold _add_pagination_buttons.
  apply Z.leb_le in H. now rewrite H.
Qed.

(** The control row, control by control. *)
Lemma control_row_eq (current_page total_items : Z) (base_callback_prefix : string)
    (payload_parts : option (list atom)) :
  exists previous_target next_target,
    control_row current_page total_items base_callback_prefix payload_parts
    = (if (ITEMS_PER_PAGE <? total_items) && (0 <? current_page)
       then [previous_button previous_target] else [])
      ++ (if (ITEMS_PER_PAGE <? total_items)
             && (current_page <? (total_items + ITEMS_PER_PAGE - 1) / ITEMS_PER_PAGE - 1)
          then [next_button next_target] else []).
Proof.
  unfold control_row, _add_pagination_buttons.
  do 2 eexists.
  rewrite (Z.leb_antisym ITEMS_PER_PAGE total_items).
  destruct (ITEMS_PER_PAGE <? total_items); simpl; [|reflexivity].
  destruct (0 <? current_page);
    destruct (current_page <? (total_items + ITEMS_PER_PAGE - 1) / ITEMS_PER_PAGE - 1);
    simpl; reflexivity.
Qed.

Lemma control_row_previous (current_page total_items : Z) (base_callback_prefix : string)
    (payload_parts : option (list atom)) :
  has_previous (control_row current_page total_items base_callback_prefix payload_parts)
  <-> 0 < current_page /\ ITEMS_PER_PAGE < total_items.
Proof.
  destruct (control_row_eq current_page total_items base_callback_prefix payload_parts)
    as (pt & nt & ->).
  unfold has_previous.
  destruct (Z.ltb_spec ITEMS_PER_PAGE total_items) as [Ht|Ht];
    destruct (Z.ltb_spec 0 current_page) as [Hp|Hp]; simpl.
  - split; [intros _; now split | intros _; exists pt; now left].
  - split; [|lia]. intros [t H].
    destruct (current_page <? _); simpl in H; [|contradiction].
    destruct H as [H|[]]. now apply eq_sym, previous_is_not_next in H.
  - split; [|lia]. intros [t []].
  - split; [|lia]. intros [t []].
Qed.

Lemma control_row_next (current_page total_items : Z) (base_callback_prefix : string)
    (payload_parts : option (list atom)) :
  has_next (control_row current_page total_items base_callback_prefix payload_parts)
  <-> (current_page + 1) * ITEMS_PER_PAGE < total_items /\ ITEMS_PER_PAGE < total_items.
Proof.
  destruct (control_row_eq current_page total_items base_callback_prefix payload_parts)
    as (pt & nt & ->).
  unfold has_next, ITEMS_PER_PAGE.
  destruct (Z.ltb_spec 8 total_items) as [Ht|Ht]; simpl.
  - destruct (Z.ltb_spec current_page ((total_items + 8 - 1) / 8 - 1)) as [Hn|Hn].
    + split; [intros _; split; Z.to_euclidean_division_equations; lia|].
      intros _. exists nt. apply in_or_app. right. now left.
    + split; [|Z.to_euclidean_division_equations; lia]. intros [t H]. rewrite app_nil_r in H.
      destruct (0 <? current_page); simpl in H; [|contradiction].
      destruct H as [H|[]]. now apply previous_is_not_next in H.
  - split; [|lia]. intros [t []].
Qed.

(** The claim as the specification words it, at one input: Previous
    iff the index is positive, Next iff another page follows. *)
Definition controls_as_specified (current_page total_items : Z) (base_callback_prefix : string)
    (payload_parts : option (list atom)) : Prop :=
  let row := control_row current_page total_items base_callback_prefix payload_parts in
  (has_previous row <-> 0 < current_page)
  /\ (has_next row <-> (current_page + 1) * ITEMS_PER_PAGE < total_items)
  /\ (total_items = 0 -> row = []).

(** C3, as stated, fails: on page 1 of a list of five items (a stale
    button of a longer list) no Previous control is rendered. *)
Lemma no_previous_on_short_list :
  ~ controls_as_specified 1 5 PAGE_COURSE_SEARCH_RESULTS_PREFIX None.
Proof.
  intros (Hprev & _ & _).
  assert (H : 0 < 1) by lia.
  apply Hprev in H. destruct H as [t []].
Qed.

(** C3, amended: the builder adds its controls as one row after the
    item rows.  Previous is in it iff the index is positive and the
    list is longer than a page; Next is in it iff a further page
    follows and the list is longer than a page, which for an index
    that is not negative is just that a further page follows; a list
    of at most one page, the empty one included, gets no control. *)
Theorem pagination_controls (keyboard0 : keyboard) (current_page total_items : Z)
    (base_callback_prefix : string) (payload_parts : option (list atom)) :
  let row := control_row current_page total_items base_callback_prefix payload_parts in
  _add_pagination_buttons keyboard0 current_page total_items base_callback_prefix payload_parts
  = keyboard0 ++ (match row with [] => [] | _ :: _ => [row] end)
  /\ (has_previous row <-> 0 < current_page /\ ITEMS_PER_PAGE < total_items)
  /\ (has_next row <->
      (current_page + 1) * ITEMS_PER_PAGE < total_items /\ ITEMS_PER_PAGE < total_items)
  /\ (0 <= current_page ->
      (has_next row <-> (current_page + 1) * ITEMS_PER_PAGE < total_items))
  /\ (total_items <= ITEMS_PER_PAGE -> row = []).
Proof.
  intros row. split; [|split; [|split; [|split]]].
  - rewrite add_pagination_buttons_appends. f_equal.
    subst row. unfold control_row, _add_pagination_buttons.
    destruct (total_items <=? ITEMS_PER_PAGE); [reflexivity|].
    destruct (0 <? current_page);
      destruct (current_page <? (total_items + ITEMS_PER_PAGE - 1) / ITEMS_PER_PAGE - 1);
      reflexivity.
  - apply control_row_previous.
  - apply control_row_next.
  - intros Hp. subst row. rewrite control_row_next. unfold ITEMS_PER_PAGE. lia.
  - intros H. subst row. unfold control_row. now rewrite control_row_short.
Qed.

Lemma pagination_controls_witness :
  has_next (control_row 0 12 PAGE_COURSE_SEARCH_RESULTS_PREFIX None)
  /\ control_row 1 5 PAGE_COURSE_SEARCH_RESULTS_PREFIX None = [].
Proof.
  pose proof (pagination_controls [] 0 12 PAGE_COURSE_SEARCH_RESULTS_PREFIX None)
    as (_ & _ & _ & Hnext & _).
  pose proof (pagination_controls [] 1 5 PAGE_COURSE_SEARCH_RESULTS_PREFIX None)
    as (_ & _ & _ & _ & Hshort).
  split.
  - apply Hnext; unfold ITEMS_PER_PAGE; lia.
  - apply Hshort. unfold ITEMS_PER_PAGE. lia.
Defined.

End ControlsProps.

(** ** The page of a cached list *)
Module PageProps.
Import Keyboards ControlsProps.

(** The items at positions [[p*ITEMS_PER_PAGE, (p+1)*ITEMS_PER_PAGE)]. *)
Definition page_items {A} (l : list A) (p : Z) : list A :=
  firstn 8 (skipn (Z.to_nat (p * ITEMS_PER_PAGE)) l).

Lemma slice_is_page {A} (l : list A) (p : Z) :
  0 <= p ->
  slice l (p * ITEMS_PER_PAGE) (p * ITEMS_PER_PAGE + ITEMS_PER_PAGE) = page_items l p.
Proof.
  intros Hp. unfold slice, page_items, slice_bound, ITEMS_PER_PAGE.
  assert (H0 : (p * 8 <? 0) = false) by (apply Z.ltb_ge; lia).
  assert (H1 : (p * 8 + 8 <? 0) = false) by (apply Z.ltb_ge; lia).
  rewrite H0, H1.
  destruct (Z.le_gt_cases (Z.of_nat (length l)) (p * 8)) as [Hout|Hin].
  - rewrite !Z.min_r by lia.
    rewrite !skipn_all2 by lia. now rewrite !firstn_nil.
  - rewrite (Z.min_l (p * 8)) by lia.
    destruct (Z.le_gt_cases (p * 8 + 8) (Z.of_nat (length l))) as [Hfull|Hpart].
    + rewrite Z.min_l by lia. now replace (p * 8 + 8 - p * 8) with 8 by lia.
    + rewrite Z.min_r by lia.
      rewrite !firstn_all2; [reflexivity | |]; rewrite length_skipn; lia.
Qed.

(** Beyond the last item a page is empty (and slicing does not raise). *)
Lemma page_items_beyond {A} (l : list A) (p : Z) :
  Z.of_nat (length l) <= p * ITEMS_PER_PAGE -> page_items l p = [].
Proof.
  intros H. unfold page_items. rewrite skipn_all2 by lia. apply firstn_nil.
Qed.

(** The slot of an item that identifies it, and the label it is shown with. *)
Definition identifier (search_type : string) (it : item) : atom :=
  if String.eqb search_type "course" then get it "code" else get it "id".

Definition label (search_type : string) (it : item) : atom :=
  let item_id := identifier search_type it in
  if String.eqb search_type "course" then
    let title := get_default it "name" item_id in
    if truthy title && negb (py_eq title item_id)
    then AStr (str item_id +:+ " - " +:+ str title) else item_id
  else get_default it "name" (AStr ("Prof ID " +:+ str item_id)).

Definition select_prefix (search_type : string) : string :=
  if String.eqb search_type "course" then COURSE_SELECT_PREFIX else PROF_SELECT_PREFIX.

(** The button of an item whose label is the text [s]. *)
Definition item_button (search_type : string) (it : item) (s : string) : button :=
  Button (take_chars 60 s) (select_prefix search_type +:+ str (identifier search_type it)).

(** An item on which the loop does not raise: it has no identifier, or
    its label is text. *)
Definition renderable (search_type : string) (it : item) : Prop :=
  truthy (identifier search_type it) = true -> exists s, label search_type it = AStr s.

(** The row an item contributes: one button when it carries an
    identifier, nothing otherwise. *)
Definition item_rows (search_type : string) (it : item) : list (list button) :=
  if truthy (identifier search_type it) then
    match label search_type it with
    | AStr s => [[item_button search_type it s]]
    | _ => []
    end
  else [].

Lemma search_result_row_renderable (search_type : string) (it : item) :
  renderable search_type it ->
  search_result_row search_type it = Ok (item_rows search_type it).
Proof.
  unfold renderable, search_result_row, item_rows, item_button, select_prefix, label, identifier.
  destruct (String.eqb search_type "course"); simpl.
  - destruct (truthy (get it "code")) eqn:Ht; [|reflexivity].
    intros H. destruct (H eq_refl) as [s Hs]. rewrite Hs. reflexivity.
  - destruct (truthy (get it "id")) eqn:Ht; [|reflexivity].
    intros H. destruct (H eq_refl) as [s Hs]. rewrite Hs. reflexivity.
Qed.

Lemma rows_of_renderable (search_type : string) (l : list item) :
  Forall (renderable search_type) l ->
  rows_of (search_result_row search_type) l = Ok (concat (map (item_rows search_type) l)).
Proof.
  induction 1 as [|it l Hit _ IH]; simpl; [reflexivity|].
  rewrite (search_result_row_renderable _ _ Hit). simpl. rewrite IH. reflexivity.
Qed.

Definition page_prefix (search_type : string) : string :=
  if String.eqb search_type "course"
  then PAGE_COURSE_SEARCH_RESULTS_PREFIX else PAGE_PROF_SEARCH_RESULTS_PREFIX.

(** The keyboard of a page: item rows, then the controls, then the footer. *)
Lemma search_results_keyboard_page (all_results : list item) (search_type : string) (p : Z) :
  0 <= p ->
  Forall (renderable search_type) (page_items all_results p) ->
  create_search_results_keyboard all_results search_type p
  = Ok (concat (map (item_rows search_type) (page_items all_results p))
        ++ _add_pagination_buttons [] p (Z.of_nat (length all_results)) (page_prefix search_type) None
        ++ [search_footer search_type]).
Proof.
  intros Hp Hr. unfold create_search_results_keyboard.
  rewrite (slice_is_page all_results p Hp).
  rewrite (rows_of_renderable _ _ Hr). simpl.
  rewrite add_pagination_buttons_appends. unfold page_prefix.
  now rewrite app_assoc.
Qed.

End PageProps.

(** ** Reasoning about handler bodies *)
Module HandlerProps.
Import Keyboards Handlers.

(** A body that leaves the slot [k] of the context as it found it,
    however it ends. *)
Definition preserves {A} (k : string) (m : M A) : Prop :=
  forall st, user_data (snd (m st)) !! k = user_data st !! k.

Lemma preserves_ret {A} (k : string) (a : A) : preserves k (mret a).
Proof. intros st. reflexivity. Qed.

Lemma preserves_raise {A} (k : string) (e : exn) : preserves k (raise e : M A).
Proof. intros st. reflexivity. Qed.

Lemma preserves_lift {A} (k : string) (r : result A) : preserves k (lift r).
Proof. intros st. reflexivity. Qed.

Lemma preserves_bind {A B} (k : string) (m : M A) (f : A -> M B) :
  preserves k m -> (forall a, preserves k (f a)) -> preserves k (m ≫= f).
Proof.
  intros Hm Hf st. unfold mbind, M_bind. specialize (Hm st).
  destruct (m st) as [[a|e] st']; simpl in *; [|assumption].
  now rewrite Hf.
Qed.

Lemma preserves_try_catch {A} (k : string) (body : M A) (handler : exn -> M A) :
  preserves k body -> (forall e, preserves k (handler e)) -> preserves k (try_catch body handler).
Proof.
  intros Hm Hh st. unfold try_catch. specialize (Hm st).
  destruct (body st) as [[a|e] st']; simpl in *; [assumption|].
  now rewrite Hh.
Qed.

Lemma preserves_channel (world : nat -> outcome) (k : string) (eff : effect) :
  preserves k (channel world eff).
Proof. intros st. unfold channel. now destruct (world (calls st)). Qed.

Lemma preserves_ud_get (k k' : string) : preserves k (ud_get k').
Proof. intros st. reflexivity. Qed.

Lemma preserves_ud_get_default (k k' : string) (d : pyval) : preserves k (ud_get_default k' d).
Proof. intros st. reflexivity. Qed.

Lemma preserves_ud_set (k k' : string) (v : pyval) : k' <> k -> preserves k (ud_set k' v).
Proof. intros Hne st. simpl. now apply lookup_insert_ne. Qed.

Lemma preserves_ud_pop (k k' : string) : k' <> k -> preserves k (ud_pop k').
Proof. intros Hne st. simpl. now apply lookup_delete_ne. Qed.

Lemma preserves_handle_api_error (k : string) (src : string) (e : exn) :
  preserves k (handle_api_error src e).
Proof. intros st. reflexivity. Qed.

Lemma preserves_schedule (k : string) (eff : effect) : preserves k (schedule eff).
Proof. intros st. reflexivity. Qed.

Lemma preserves_the_query (k : string) (upd : update) : preserves k (the_query upd).
Proof. intros st. unfold the_query. now destruct (callback_query upd). Qed.

Create HintDb preserves.
#[export] Hint Resolve preserves_ret preserves_raise preserves_lift preserves_channel
  preserves_ud_get preserves_ud_get_default preserves_handle_api_error preserves_schedule
  preserves_the_query : preserves.

(** One syntactic step through a body. *)
Ltac preserves_step :=
  match goal with
  | |- preserves _ (mbind _ _) => apply preserves_bind; [|intros ?]
  | |- preserves _ (try_catch _ _) => apply preserves_try_catch; [|intros ?]
  | |- preserves _ (ud_set _ _) => apply preserves_ud_set; try discriminate
  | |- preserves _ (ud_pop _) => apply preserves_ud_pop; try discriminate
  | |- preserves _ (if ?b then _ else _) => destruct b
  | |- preserves _ (match ?x with _ => _ end) => destruct x
  | |- preserves _ _ => solve [auto with preserves]
  end.

Ltac preserves_all := repeat preserves_step.

(** A page of a list is rendered from the context without writing to
    it. *)
Lemma preserves_render_list_page (k : string) (list_type_key : string) (parts : list string)
    (new_page : Z) (primary data : pyval) :
  preserves k (render_list_page list_type_key parts new_page primary data).
Proof. unfold render_list_page. preserves_all. Qed.

(** Turning a page writes two slots only: the message to edit and the
    cursor of that list. *)
Lemma preserves_handle_pagination (world : nat -> outcome) (k : string) (upd : update)
    (list_type_key : string) (parts : list string) (listing : state) (n : nat) :
  k <> "original_message_id_for_edit" ->
  k <> "current_" +:+ list_type_key +:+ "_page" ->
  preserves k (_handle_pagination_callback world upd list_type_key parts listing n).
Proof.
  intros H1 H2. unfold _handle_pagination_callback.
  preserves_all; try congruence; apply preserves_render_list_page.
Qed.

(** A body whose normal returns all satisfy [P]. *)
Definition yields {A} (P : A -> Prop) (m : M A) : Prop :=
  forall st a st', m st = (Ok a, st') -> P a.

Lemma yields_ret {A} (P : A -> Prop) (a : A) : P a -> yields P (mret a).
Proof. intros H st a' st' E. inversion E. now subst. Qed.

Lemma yields_raise {A} (P : A -> Prop) (e : exn) : yields P (raise e : M A).
Proof. intros st a st' E. discriminate E. Qed.

Lemma yields_bind {A B} (P : B -> Prop) (m : M A) (f : A -> M B) :
  (forall a, yields P (f a)) -> yields P (m ≫= f).
Proof.
  intros Hf st b st' E. unfold mbind, M_bind in E.
  destruct (m st) as [[a|e] st1]; [|discriminate E].
  now apply (Hf a st1 b st').
Qed.

Lemma yields_try_catch {A} (P : A -> Prop) (body : M A) (handler : exn -> M A) :
  yields P body -> (forall e, yields P (handler e)) -> yields P (try_catch body handler).
Proof.
  intros Hb Hh st a st' E. unfold try_catch in E.
  destruct (body st) as [[a0|e] st1] eqn:Eb.
  - inversion E. subst. now apply (Hb st a st').
  - now apply (Hh e st1 a st').
Qed.

Ltac yields_step :=
  match goal with
  | |- yields _ (mbind _ _) => apply yields_bind; intros ?
  | |- yields _ (try_catch _ _) => apply yields_try_catch; [|intros ?]
  | |- yields _ (mret _) => apply yields_ret
  | |- yields _ (raise _) => apply yields_raise
  | |- yields _ (if ?b then _ else _) => destruct b
  | |- yields _ (match ?x with _ => _ end) => destruct x
  end.

(** A handler of exceptions that itself returns. *)
Definition returns {A} (m : M A) : Prop :=
  forall st, exists a st', m st = (Ok a, st').

Lemma try_catch_returns {A} (body : M A) (handler : exn -> M A) :
  (forall e, returns (handler e)) -> returns (try_catch body handler).
Proof.
  intros Hh st. unfold try_catch.
  destruct (body st) as [[a|e] st1]; [now exists a, st1 | apply Hh].
Qed.

Lemma error_reply_returns (src : string) (e : exn) (s : state) :
  returns (_ ← handle_api_error src e; mret s).
Proof. intros st. eexists _, _. reflexivity. Qed.

(** Once the button press is acknowledged, turning a page returns: the
    listing state, or the end of the conversation. *)
Lemma handle_pagination_returns (world : nat -> outcome) (upd : update) (q : query)
    (list_type_key : string) (parts : list string) (listing : state) (n : nat) (st : hstate) :
  callback_query upd = Some q ->
  world (calls st) <> Fails ->
  exists s st',
    _handle_pagination_callback world upd list_type_key parts listing n st = (Ok s, st')
    /\ (s = listing \/ s = END).
Proof.
  intros Hq Hw. unfold _handle_pagination_callback, the_query. rewrite Hq.
  unfold mbind at 1, M_bind at 1. simpl.
  unfold mbind at 1, M_bind at 1. unfold channel at 1.
  destruct (world (calls st)) as [|mid] eqn:Ew; [contradiction|].
  unfold mbind at 1, M_bind at 1. simpl.
  match goal with
  | |- exists s st', try_catch ?body ?handler ?st1 = _ /\ _ =>
      destruct (try_catch_returns body handler
                  (fun e => error_reply_returns _ e END) st1) as (s & st' & E);
      exists s, st'; split; [exact E|];
      assert (Hy : yields (fun s => s = listing \/ s = END) (try_catch body handler))
  end.
  { repeat yields_step; auto. }
  exact (Hy _ _ _ E).
Qed.

(** Running a body on a state, one reduction at a time: the monad and
    the context operations unfold, tests on literals compute, and the
    facts at hand rewrite the lookups and the channel's answers. *)
Ltac exec_unfold :=
  progress cbv beta iota delta
    [mbind M_bind mret M_ret try_catch lift raise channel ud_set ud_get ud_get_default ud_pop
     ud_clear set_user_data user_data trace calls handle_api_error schedule the_query
     as_items as_page as_atom default from_option id VNone].

Ltac exec_compute :=
  progress cbn
    [negb length Nat.eqb rev app index nth_error String.eqb Ascii.eqb Bool.eqb andb orb
     is_none val_truthy truthy val_eq_int py_eq String.append fst snd].

Ltac exec_rewrite :=
  first
    [ rewrite PyProps.int_str_str_int
    | rewrite PyProps.split1_prefix
    | rewrite lookup_insert_eq
    | rewrite lookup_insert_ne by done
    | rewrite lookup_delete_eq
    | rewrite lookup_delete_ne by done
    | rewrite lookup_empty
    | match goal with
      | H : ?l = _ |- context [?l] => rewrite H
      end ].

Ltac exec := repeat first [exec_unfold | exec_compute | exec_rewrite].

(** Sample surroundings: a channel that delivers every call, and the
    press of a button with the given payload on message 7. *)
Definition always_ok : nat -> outcome := fun _ => Succeeds 100.

Definition press (payload : string) : update :=
  Update (Some (User 42 (Some "Asha"))) (Some (Query payload 7 1 true)) 1.

End HandlerProps.

(** ** Turning pages *)
Module PaginationProps.
Import Keyboards Handlers HandlerProps PageProps ControlsProps.

(** Reading the payload of a button does not touch the state. *)
Lemma payload_after_run (prefix : string) (upd : update) (q : query) (st : hstate) :
  callback_query upd = Some q ->
  payload_after prefix upd st = (index (split1 prefix (data q)) 1, st).
Proof. intros Hq. unfold payload_after. exec. reflexivity. Qed.

(** The text above a page of search results whose query is stored as text. *)
Lemma search_list_text_of_text (item_type : string) (count : Z) (qtext : string) (n : Z) :
  exists text,
    _get_search_list_text_template item_type count (VAtom (AStr qtext)) n = Ok text.
Proof.
  unfold _get_search_list_text_template. simpl.
  destruct (negb (String.eqb qtext "")); simpl; eexists; reflexivity.
Qed.

(** Turning to page [p] of the course results: the cursor becomes [p]
    as decoded and the page the builder makes of [p] is shown. *)
Lemma page_course_search_run (world : nat -> outcome) (upd : update) (q : query) (st : hstate)
    (l : list item) (p : Z) (qtext : string) (mid1 mid2 : Z) (text : string) (kb : keyboard) :
  callback_query upd = Some q ->
  data q = PAGE_COURSE_SEARCH_RESULTS_PREFIX +:+ str_int p ->
  user_data st !! "all_course_search_results" = Some (VItems l) ->
  user_data st !! "last_search_query_course" = Some (VAtom (AStr qtext)) ->
  world (calls st) = Succeeds mid1 ->
  world (S (calls st)) = Succeeds mid2 ->
  _get_search_list_text_template "courses" (Z.of_nat (length l)) (VAtom (AStr qtext)) (p + 1)
  = Ok text ->
  create_search_results_keyboard l "course" p = Ok kb ->
  page_course_search_results_callback world upd st
  = (Ok SELECTING_COURSE_RESULTS,
     HState (<["current_course_search_page" := VAtom (AInt p)]>
               (<["original_message_id_for_edit" := VAtom (AInt (message_id q))]> (user_data st)))
            (trace st ++ [QueryAnswer None; EditMessageText text (Some kb)])
            (S (S (calls st)))).
Proof.
  intros Hq Hd Hl Hqt Hw1 Hw2 Ht Hkb. destruct st as [ud tr c]. simpl in Hl, Hqt, Hw1, Hw2.
  unfold page_course_search_results_callback, payload_after, _handle_pagination_callback,
    render_list_page.
  exec. rewrite <- app_assoc. reflexivity.
Qed.

(** *** Sample data: twelve courses found for "CS", page size 8 *)

Definition course (n : Z) : item :=
  {[ "code" := AStr ("CS" +:+ str_int n); "name" := AStr "Topics" ]}.

Definition twelve_courses : list item := map course [1; 2; 3; 4; 5; 6; 7; 8; 9; 10; 11; 12].

Definition browsing_twelve : hstate :=
  HState {[ "all_course_search_results" := VItems twelve_courses;
            "current_course_search_page" := VAtom (AInt 0);
            "last_search_query_course" := VAtom (AStr "CS") ]} [] 0.

Definition course_row (n : Z) : list button :=
  [Button ("CS" +:+ str_int n +:+ " - Topics") ("cs_CS" +:+ str_int n)].

(** The scenario of the specification: page 0 shows items 1-8 with
    only Next, page 1 shows items 9-12 with only Previous. *)
Example twelve_courses_two_pages :
  (exists rows, create_search_results_keyboard twelve_courses "course" 0
                = Ok (rows ++ [[next_button "p_csr_1"]] ++ [search_footer "course"])
                /\ length rows = 8%nat)
  /\ (exists rows, create_search_results_keyboard twelve_courses "course" 1
                   = Ok (rows ++ [[previous_button "p_csr_0"]] ++ [search_footer "course"])
                   /\ length rows = 4%nat).
Proof.
  split.
  - exists (map course_row [1; 2; 3; 4; 5; 6; 7; 8]). split; vm_compute; reflexivity.
  - exists (map course_row [9; 10; 11; 12]). split; vm_compute; reflexivity.
Qed.

(** The claim C1 makes about the cursor: after a page turn it lies
    within the pages of the cached list. *)
Definition cursor_within_pages (st : hstate) : Prop :=
  exists (c : Z) (l : list item),
    user_data st !! "current_course_search_page" = Some (VAtom (AInt c))
    /\ user_data st !! "all_course_search_results" = Some (VItems l)
    /\ 0 <= c /\ c * ITEMS_PER_PAGE < Z.max 1 (Z.of_nat (length l)).

(** C1, as stated, fails: the index 5 of a stale button is stored as
    the cursor of a list that has pages 0 and 1 only. *)
Lemma stale_page_index_is_not_clamped :
  ~ cursor_within_pages
      (snd (page_course_search_results_callback always_ok (press "p_csr_5") browsing_twelve)).
Proof.
  intros (c & l & Hc & Hl & H0 & H1).
  vm_compute in Hc. vm_compute in Hl.
  inversion Hc; subst c. inversion Hl; subst l.
  vm_compute in H1. discriminate H1.
Qed.

(** *** What a page turn does, step by step *)

(** A body that reads the context and writes nothing. *)
Definition reads_only {A} (m : M A) : Prop := forall st, snd (m st) = st.

Lemma reads_only_ret {A} (a : A) : reads_only (mret a).
Proof. intros st. reflexivity. Qed.

Lemma reads_only_raise {A} (e : exn) : reads_only (raise e : M A).
Proof. intros st. reflexivity. Qed.

Lemma reads_only_lift {A} (r : result A) : reads_only (lift r).
Proof. intros st. reflexivity. Qed.

Lemma reads_only_ud_get (k : string) : reads_only (ud_get k).
Proof. intros st. reflexivity. Qed.

Lemma reads_only_ud_get_default (k : string) (d : pyval) : reads_only (ud_get_default k d).
Proof. intros st. reflexivity. Qed.

Lemma reads_only_bind {A B} (m : M A) (f : A -> M B) :
  reads_only m -> (forall a, reads_only (f a)) -> reads_only (m ≫= f).
Proof.
  intros Hm Hf st. unfold mbind, M_bind. specialize (Hm st).
  destruct (m st) as [[a|e] st']; simpl in Hm; subst st'; [apply Hf | reflexivity].
Qed.

Ltac reads_only_step :=
  match goal with
  | |- reads_only (mbind _ _) => apply reads_only_bind; [|intros ?]
  | |- reads_only (mret _) => apply reads_only_ret
  | |- reads_only (raise _) => apply reads_only_raise
  | |- reads_only (lift _) => apply reads_only_lift
  | |- reads_only (ud_get _) => apply reads_only_ud_get
  | |- reads_only (ud_get_default _ _) => apply reads_only_ud_get_default
  | |- reads_only (if ?b then _ else _) => destruct b
  | |- reads_only (match ?x with _ => _ end) => destruct x
  end.

(** Rendering a page reads the context and writes nothing. *)
Lemma reads_only_render_list_page (list_type_key : string) (parts : list string) (new_page : Z)
    (primary data : pyval) :
  reads_only (render_list_page list_type_key parts new_page primary data).
Proof. unfold render_list_page. repeat reads_only_step. Qed.

(** The context after a page turn that got as far as the cursor. *)
Definition turned (list_type_key : string) (q : query) (p : Z) (ud : gmap string pyval)
    : gmap string pyval :=
  <[("current_" +:+ list_type_key +:+ "_page") := VAtom (AInt p)]>
    (<["original_message_id_for_edit" := VAtom (AInt (message_id q))]> ud).

(** The list the keyboard of a page is made of. *)
Definition keyboard_data (list_type_key : string) (primary : pyval) (ud : gmap string pyval)
    : pyval :=
  if String.eqb list_type_key "prof_course_list"
  then default primary (ud !! "unique_courses_for_selected_prof_kb")
  else primary.

Definition error_reply (list_type_key : string) (e : exn) : effect :=
  ErrorReply ("pagination_" +:+ list_type_key) e get_restart_keyboard.

(** A page turn with a payload of the right shape on a cached list:
    the index is stored as decoded, then the page is rendered and
    shown, or the error reply is scheduled. *)
Lemma handle_pagination_run (world : nat -> outcome) (upd : update) (q : query)
    (list_type_key : string) (parts : list string) (listing : state) (n : nat) (st : hstate)
    (last : string) (p : Z) (primary : pyval) (m1 : Z) :
  callback_query upd = Some q ->
  world (calls st) = Succeeds m1 ->
  (length parts =? n)%nat = true ->
  index (rev parts) 0 = Ok last ->
  int_str last = Ok p ->
  user_data st !! ("all_" +:+ list_type_key +:+ "_results") = Some primary ->
  is_none primary = false ->
  is_none (keyboard_data list_type_key primary (user_data st)) = false ->
  _handle_pagination_callback world upd list_type_key parts listing n st
  = let ud1 := turned list_type_key q p (user_data st) in
    let st1 := HState ud1 (trace st ++ [QueryAnswer None]) (S (calls st)) in
    match fst (render_list_page list_type_key parts p primary
                 (keyboard_data list_type_key primary (user_data st)) st1) with
    | Ok (text, kb) =>
        match world (S (calls st)) with
        | Succeeds _ =>
            (Ok listing,
             HState ud1 (trace st ++ [QueryAnswer None; EditMessageText text (Some kb)])
                    (S (S (calls st))))
        | Fails =>
            (Ok END,
             HState ud1 (trace st ++ [QueryAnswer None; error_reply list_type_key TelegramError])
                    (S (S (calls st))))
        end
    | Raise e =>
        (Ok END,
         HState ud1 (trace st ++ [QueryAnswer None; error_reply list_type_key e]) (S (calls st)))
    end.
Proof.
  intros Hq Hw Hlen Hlast Hint Hprim Hnone Hdata.
  destruct st as [ud tr c]. simpl in Hw, Hprim, Hdata. cbn [user_data trace calls].
  unfold _handle_pagination_callback, keyboard_data in *.
  exec.
  assert (Hend : forall (r : result (string * keyboard)) (st2 : hstate) d,
            render_list_page list_type_key parts p primary d
              (HState (turned list_type_key q p ud) (tr ++ [QueryAnswer None]) (S c)) = (r, st2) ->
            st2 = HState (turned list_type_key q p ud) (tr ++ [QueryAnswer None]) (S c)).
  { intros r st2 d E.
    pose proof (reads_only_render_list_page list_type_key parts p primary d
                  (HState (turned list_type_key q p ud) (tr ++ [QueryAnswer None]) (S c))) as H.
    rewrite E in H. exact H. }
  unfold turned, error_reply in *. cbn [String.append] in *.
  destruct (String.eqb list_type_key "prof_course_list") eqn:Ek; exec.
  - change (match ud !! "unique_courses_for_selected_prof_kb" with
            | Some x => x | None => primary end)
      with (default primary (ud !! "unique_courses_for_selected_prof_kb")) in *.
    rewrite Hdata. cbn [negb andb].
    match goal with
    | |- context [render_list_page ?k ?ps ?pp ?pr ?d ?s] =>
        destruct (render_list_page k ps pp pr d s) as [[[text kb]|e] st2] eqn:Er;
        apply Hend in Er; subst st2
    end; cbn [fst].
    + destruct (world (S c)); cbn; now rewrite <- app_assoc.
    + cbn. now rewrite <- app_assoc.
  - match goal with
    | |- context [render_list_page ?k ?ps ?pp ?pr ?d ?s] =>
        destruct (render_list_page k ps pp pr d s) as [[[text kb]|e] st2] eqn:Er;
        apply Hend in Er; subst st2
    end; cbn [fst].
    + destruct (world (S c)); cbn; now rewrite <- app_assoc.
    + cbn. now rewrite <- app_assoc.
Qed.

(** How a pagination callback can end, seen from the channel: the page
    is shown and the listing state returned; or the conversation ends
    without a word, the state untouched; or it ends with the error
    reply, which carries the restart control. *)
Definition page_outcome (listing : state) (st : hstate) (s : state) (st' : hstate) : Prop :=
  (s = listing
   /\ exists text kb,
        trace st' = trace st ++ [QueryAnswer None; EditMessageText text (Some kb)])
  \/ (s = END /\ st' = st)
  \/ (s = END
      /\ exists src e,
           trace st' = trace st ++ [QueryAnswer None; ErrorReply src e get_restart_keyboard]).

Ltac ends_with_error_reply :=
  eexists _, _; split; [reflexivity|]; right; right; split; [reflexivity|];
  eexists _, _; cbn; now rewrite <- app_assoc.

Lemma handle_pagination_outcome (world : nat -> outcome) (upd : update) (q : query)
    (list_type_key : string) (parts : list string) (listing : state) (n : nat) (st : hstate) :
  callback_query upd = Some q ->
  world (calls st) <> Fails ->
  exists s st',
    _handle_pagination_callback world upd list_type_key parts listing n st = (Ok s, st')
    /\ page_outcome listing st s st'.
Proof.
  intros Hq Hw. destruct (world (calls st)) as [|m1] eqn:Ew; [contradiction|]. clear Hw.
  destruct ((length parts =? n)%nat) eqn:Hlen.
  2:{ destruct st as [ud tr c]. simpl in Ew. unfold _handle_pagination_callback. exec.
      ends_with_error_reply. }
  destruct (index (rev parts) 0) as [last|e] eqn:Hlast.
  2:{ destruct st as [ud tr c]. simpl in Ew. unfold _handle_pagination_callback. exec.
      ends_with_error_reply. }
  destruct (int_str last) as [p|e] eqn:Hint.
  2:{ destruct st as [ud tr c]. simpl in Ew. unfold _handle_pagination_callback. exec.
      ends_with_error_reply. }
  destruct (user_data st !! ("all_" +:+ list_type_key +:+ "_results")) as [primary|] eqn:Hprim.
  2:{ destruct st as [ud tr c]. simpl in Ew, Hprim. unfold _handle_pagination_callback. exec.
      destruct (String.eqb list_type_key "prof_course_list"); exec; ends_with_error_reply. }
  destruct (is_none primary) eqn:Hnone.
  { destruct st as [ud tr c]. simpl in Ew, Hprim. unfold _handle_pagination_callback. exec.
    destruct (String.eqb list_type_key "prof_course_list"); exec; ends_with_error_reply. }
  destruct (is_none (keyboard_data list_type_key primary (user_data st))) eqn:Hdata.
  { destruct st as [ud tr c]. simpl in Ew, Hprim, Hdata.
    unfold _handle_pagination_callback, keyboard_data in *. exec.
    destruct (String.eqb list_type_key "prof_course_list"); exec; [|congruence].
    change (match ud !! "unique_courses_for_selected_prof_kb" with
            | Some x => x | None => primary end)
      with (default primary (ud !! "unique_courses_for_selected_prof_kb")) in *.
    rewrite Hdata. cbn [andb]. ends_with_error_reply. }
  rewrite (handle_pagination_run world upd q list_type_key parts listing n st last p primary m1)
    by assumption.
  cbv zeta.
  destruct (fst (render_list_page _ _ _ _ _ _)) as [[text kb]|e].
  - destruct (world (S (calls st))).
    + eexists _, _. split; [reflexivity|]. right. right. split; [reflexivity|].
      now eexists _, _.
    + eexists _, _. split; [reflexivity|]. left. split; [reflexivity|]. now eexists _, _.
  - eexists _, _. split; [reflexivity|]. right. right. split; [reflexivity|]. now eexists _, _.
Qed.

(** The four pagination callbacks with the state each lists in. *)
Definition page_callbacks_and_states (world : nat -> outcome)
    : list ((update -> M state) * state) :=
  [ (page_course_search_results_callback world, SELECTING_COURSE_RESULTS);
    (page_prof_search_results_callback world, SELECTING_PROF_RESULTS);
    (page_prof_course_list_callback world, SELECTING_COURSE_FOR_PROF);
    (page_year_semester_list_callback world, SELECTING_YEAR_SEMESTER) ].

Lemma page_callbacks_outcome (world : nat -> outcome) (upd : update) (q : query) (st : hstate)
    (cb : update -> M state) (listing : state) :
  callback_query upd = Some q ->
  world (calls st) <> Fails ->
  In (cb, listing) (page_callbacks_and_states world) ->
  exists s st', cb upd st = (Ok s, st') /\ page_outcome listing st s st'.
Proof.
  intros Hq Hw Hin.
  pose proof (fun key parts listing n =>
                handle_pagination_outcome world upd q key parts listing n st Hq Hw) as Hgo.
  assert (Hsilent : exists s st', (Ok END, st) = (Ok s, st') /\ page_outcome listing st s st').
  { exists END, st. split; [reflexivity|]. right. left. now split. }
  destruct Hin as [[= <- <-]|[[= <- <-]|[[= <- <-]|[[= <- <-]|[]]]]].
  - unfold page_course_search_results_callback.
    unfold mbind at 1, M_bind at 1, try_catch. unfold mbind at 1, M_bind at 1.
    rewrite (payload_after_run _ upd q st Hq). unfold index.
    destruct (nth_error _ 1) as [s|]; cbn; [apply Hgo | exact Hsilent].
  - unfold page_prof_search_results_callback.
    unfold mbind at 1, M_bind at 1, try_catch. unfold mbind at 1, M_bind at 1.
    rewrite (payload_after_run _ upd q st Hq). unfold index.
    destruct (nth_error _ 1) as [s|]; cbn; [apply Hgo | exact Hsilent].
  - unfold page_prof_course_list_callback.
    unfold mbind at 1, M_bind at 1, try_catch. unfold mbind at 1, M_bind at 1.
    rewrite (payload_after_run _ upd q st Hq). unfold index.
    destruct (nth_error _ 1) as [s|]; cbn; [|exact Hsilent].
    destruct (rsplit1 "_" s) as [|a [|b [|c r]]]; cbn; try apply Hgo; exact Hsilent.
  - unfold page_year_semester_list_callback.
    unfold mbind at 1, M_bind at 1, try_catch. unfold mbind at 1, M_bind at 1.
    rewrite (payload_after_run _ upd q st Hq). unfold index.
    destruct (nth_error _ 1) as [s|]; cbn; [|exact Hsilent].
    destruct (negb _); cbn; [exact Hsilent | apply Hgo].
Qed.

(** A page turn that returns its listing state stored the decoded
    index and showed what was rendered of it. *)
Lemma handle_pagination_turn (world : nat -> outcome) (upd : update) (q : query)
    (list_type_key : string) (parts : list string) (listing : state) (n : nat) (st : hstate)
    (last : string) (p : Z) (primary : pyval) (m1 : Z) :
  callback_query upd = Some q ->
  world (calls st) = Succeeds m1 ->
  (length parts =? n)%nat = true ->
  index (rev parts) 0 = Ok last ->
  int_str last = Ok p ->
  user_data st !! ("all_" +:+ list_type_key +:+ "_results") = Some primary ->
  is_none primary = false ->
  is_none (keyboard_data list_type_key primary (user_data st)) = false ->
  listing <> END ->
  let r := _handle_pagination_callback world upd list_type_key parts listing n st in
  user_data (snd r) = turned list_type_key q p (user_data st)
  /\ (fst r = Ok listing ->
      exists text kb,
        fst (render_list_page list_type_key parts p primary
               (keyboard_data list_type_key primary (user_data st))
               (HState (turned list_type_key q p (user_data st))
                  (trace st ++ [QueryAnswer None]) (S (calls st))))
        = Ok (text, kb)
        /\ trace (snd r) = trace st ++ [QueryAnswer None; EditMessageText text (Some kb)]).
Proof.
  intros Hq Hw Hlen Hlast Hint Hprim Hnone Hdata Hne r. subst r.
  rewrite (handle_pagination_run world upd q list_type_key parts listing n st last p primary m1)
    by assumption.
  cbv zeta.
  destruct (fst (render_list_page _ _ _ _ _ _)) as [[text kb]|e].
  - destruct (world (S (calls st))); cbn [fst snd user_data trace].
    + split; [reflexivity|]. intros [= H]. now symmetry in H.
    + split; [reflexivity|]. intros _. now exists text, kb.
  - cbn [fst snd user_data]. split; [reflexivity|]. intros [= H]. now symmetry in H.
Qed.

(** What was rendered is what the builder of the list makes of the
    index. *)
Lemma render_search_keyboard (search_type key : string) (parts : list string) (p : Z)
    (l : list item) (st : hstate) (text : string) (kb : keyboard) :
  (key = "course_search" /\ search_type = "course") \/ (key = "prof_search" /\ search_type = "prof") ->
  fst (render_list_page key parts p (VItems l) (VItems l) st) = Ok (text, kb) ->
  create_search_results_keyboard l search_type p = Ok kb.
Proof.
  intros [[-> ->]|[-> ->]]; unfold render_list_page; exec;
    destruct (create_search_results_keyboard l _ p) as [k|e]; exec; try discriminate;
    destruct (_get_search_list_text_template _ _ _ _) as [t|e]; exec; try discriminate;
    now intros [= _ ->].
Qed.

Lemma render_prof_course_keyboard (prof_id_str page_str : string) (p : Z) (primary : pyval)
    (l : list item) (st : hstate) (text : string) (kb : keyboard) :
  fst (render_list_page "prof_course_list" [prof_id_str; page_str] p primary (VItems l) st)
  = Ok (text, kb) ->
  create_prof_course_selection_keyboard l prof_id_str p = Ok kb.
Proof.
  unfold render_list_page; exec.
  destruct (create_prof_course_selection_keyboard l prof_id_str p) as [k|e]; exec;
    try discriminate.
  destruct (_get_prof_course_list_text_template _ _ _) as [t|e]; exec; try discriminate.
  now intros [= _ ->].
Qed.

Lemma render_year_semester_keyboard (mode identifier page_str : string) (p : Z)
    (terms : list item) (data : pyval) (st : hstate) (text : string) (kb : keyboard) :
  fst (render_list_page "year_semester_list" [mode; identifier; page_str] p (VItems terms) data st)
  = Ok (text, kb) ->
  create_year_semester_keyboard terms (AStr identifier) (AStr mode) p = Ok kb.
Proof.
  unfold render_list_page; exec.
  destruct (String.eqb mode "prof"); exec;
    (destruct (create_year_semester_keyboard terms (AStr identifier) (AStr mode) p) as [k|e];
     exec; try discriminate);
    (destruct (_get_year_semester_list_text_template _ _ _ _) as [t|e]; exec; try discriminate);
    now intros [= _ ->].
Qed.

(** *** The payloads the four callbacks accept *)

Lemma page_course_search_decoded (world : nat -> outcome) (upd : update) (q : query)
    (st : hstate) (s : string) :
  callback_query upd = Some q ->
  data q = PAGE_COURSE_SEARCH_RESULTS_PREFIX +:+ s ->
  page_course_search_results_callback world upd st
  = _handle_pagination_callback world upd "course_search" [s] SELECTING_COURSE_RESULTS 1 st.
Proof.
  intros Hq Hd. unfold page_course_search_results_callback.
  unfold mbind at 1, M_bind at 1, try_catch. unfold mbind at 1, M_bind at 1.
  rewrite (payload_after_run _ upd q st Hq), Hd, PyProps.split1_prefix. reflexivity.
Qed.

Lemma page_prof_search_decoded (world : nat -> outcome) (upd : update) (q : query)
    (st : hstate) (s : string) :
  callback_query upd = Some q ->
  data q = PAGE_PROF_SEARCH_RESULTS_PREFIX +:+ s ->
  page_prof_search_results_callback world upd st
  = _handle_pagination_callback world upd "prof_search" [s] SELECTING_PROF_RESULTS 1 st.
Proof.
  intros Hq Hd. unfold page_prof_search_results_callback.
  unfold mbind at 1, M_bind at 1, try_catch. unfold mbind at 1, M_bind at 1.
  rewrite (payload_after_run _ upd q st Hq), Hd, PyProps.split1_prefix. reflexivity.
Qed.

Lemma page_prof_course_list_decoded (world : nat -> outcome) (upd : update) (q : query)
    (st : hstate) (prof_id_str : string) (p : Z) :
  callback_query upd = Some q ->
  data q = PAGE_PROF_COURSE_LIST_PREFIX +:+ prof_id_str +:+ "_" +:+ str_int p ->
  page_prof_course_list_callback world upd st
  = _handle_pagination_callback world upd "prof_course_list" [prof_id_str; str_int p]
      SELECTING_COURSE_FOR_PROF 2 st.
Proof.
  intros Hq Hd. unfold page_prof_course_list_callback.
  unfold mbind at 1, M_bind at 1, try_catch. unfold mbind at 1, M_bind at 1.
  rewrite (payload_after_run _ upd q st Hq), Hd, PyProps.split1_prefix.
  cbn [index nth_error]. unfold rsplit1.
  change ("_" +:+ str_int p) with (String "_" (str_int p)).
  rewrite PyProps.rsplit_once_last by apply PyProps.str_int_no_underscore.
  reflexivity.
Qed.

Lemma page_year_semester_decoded (world : nat -> outcome) (upd : update) (q : query)
    (st : hstate) (mode identifier : string) (p : Z) :
  callback_query upd = Some q ->
  data q = PAGE_YEAR_SEMESTER_PREFIX +:+ mode +:+ "_" +:+ identifier +:+ "_" +:+ str_int p ->
  PyProps.no_char "_" mode = true ->
  PyProps.no_char "_" identifier = true ->
  page_year_semester_list_callback world upd st
  = _handle_pagination_callback world upd "year_semester_list" [mode; identifier; str_int p]
      SELECTING_YEAR_SEMESTER 3 st.
Proof.
  intros Hq Hd Hm Hi. unfold page_year_semester_list_callback.
  unfold mbind at 1, M_bind at 1, try_catch. unfold mbind at 1, M_bind at 1.
  rewrite (payload_after_run _ upd q st Hq), Hd, PyProps.split1_prefix.
  cbn [index nth_error].
  change ("_" +:+ identifier +:+ "_" +:+ str_int p)
    with (String "_" (identifier +:+ String "_" (str_int p))).
  rewrite PyProps.split_char_cons by assumption.
  rewrite PyProps.split_char_cons by assumption.
  rewrite PyProps.split_char_none by apply PyProps.str_int_no_underscore.
  reflexivity.
Qed.

(** The index of a page turn is used as decoded: it is the cursor
    afterwards, and the page that is shown carries the keyboard
    [built] of it. *)
Definition turn_as_decoded (r : result state * hstate) (st : hstate) (q : query)
    (list_type_key : string) (listing : state) (p : Z) (built : result keyboard) : Prop :=
  user_data (snd r) = turned list_type_key q p (user_data st)
  /\ (fst r = Ok listing ->
      exists text kb,
        built = Ok kb
        /\ trace (snd r) = trace st ++ [QueryAnswer None; EditMessageText text (Some kb)]).

Lemma page_search_turn (world : nat -> outcome) (upd : update) (q : query) (st : hstate)
    (m1 : Z) (l : list item) (p : Z) :
  callback_query upd = Some q ->
  world (calls st) = Succeeds m1 ->
  (data q = PAGE_COURSE_SEARCH_RESULTS_PREFIX +:+ str_int p ->
   user_data st !! "all_course_search_results" = Some (VItems l) ->
   turn_as_decoded (page_course_search_results_callback world upd st) st q "course_search"
     SELECTING_COURSE_RESULTS p (create_search_results_keyboard l "course" p))
  /\ (data q = PAGE_PROF_SEARCH_RESULTS_PREFIX +:+ str_int p ->
      user_data st !! "all_prof_search_results" = Some (VItems l) ->
      turn_as_decoded (page_prof_search_results_callback world upd st) st q "prof_search"
        SELECTING_PROF_RESULTS p (create_search_results_keyboard l "prof" p)).
Proof.
  intros Hq Hw. split; intros Hd Hl.
  - rewrite (page_course_search_decoded world upd q st _ Hq Hd).
    destruct (handle_pagination_turn world upd q "course_search" [str_int p]
                SELECTING_COURSE_RESULTS 1 st (str_int p) p (VItems l) m1)
      as [Hud Hshown]; try assumption; try reflexivity;
      [apply PyProps.int_str_str_int | discriminate |].
    split; [exact Hud|]. intros Hr. destruct (Hshown Hr) as (text & kb & Hrender & Htr).
    exists text, kb. split; [|exact Htr].
    apply (render_search_keyboard "course" "course_search" _ _ _ _ _ _ (or_introl (conj eq_refl eq_refl)) Hrender).
  - rewrite (page_prof_search_decoded world upd q st _ Hq Hd).
    destruct (handle_pagination_turn world upd q "prof_search" [str_int p]
                SELECTING_PROF_RESULTS 1 st (str_int p) p (VItems l) m1)
      as [Hud Hshown]; try assumption; try reflexivity;
      [apply PyProps.int_str_str_int | discriminate |].
    split; [exact Hud|]. intros Hr. destruct (Hshown Hr) as (text & kb & Hrender & Htr).
    exists text, kb. split; [|exact Htr].
    apply (render_search_keyboard "prof" "prof_search" _ _ _ _ _ _ (or_intror (conj eq_refl eq_refl)) Hrender).
Qed.

Lemma page_prof_course_list_turn (world : nat -> outcome) (upd : update) (q : query)
    (st : hstate) (m1 : Z) (l : list item) (primary : pyval) (prof_id_str : string) (p : Z) :
  callback_query upd = Some q ->
  world (calls st) = Succeeds m1 ->
  data q = PAGE_PROF_COURSE_LIST_PREFIX +:+ prof_id_str +:+ "_" +:+ str_int p ->
  user_data st !! "all_prof_course_list_results" = Some primary ->
  is_none primary = false ->
  user_data st !! "unique_courses_for_selected_prof_kb" = Some (VItems l) ->
  turn_as_decoded (page_prof_course_list_callback world upd st) st q "prof_course_list"
    SELECTING_COURSE_FOR_PROF p (create_prof_course_selection_keyboard l prof_id_str p).
Proof.
  intros Hq Hw Hd Hprim Hnone Hl.
  rewrite (page_prof_course_list_decoded world upd q st _ _ Hq Hd).
  assert (Hdata : keyboard_data "prof_course_list" primary (user_data st) = VItems l).
  { unfold keyboard_data. cbn [String.eqb Ascii.eqb Bool.eqb andb]. now rewrite Hl. }
  destruct (handle_pagination_turn world upd q "prof_course_list" [prof_id_str; str_int p]
              SELECTING_COURSE_FOR_PROF 2 st (str_int p) p primary m1)
    as [Hud Hshown]; try assumption; try reflexivity;
    [apply PyProps.int_str_str_int | now rewrite Hdata | discriminate |].
  split; [exact Hud|]. intros Hr. destruct (Hshown Hr) as (text & kb & Hrender & Htr).
  exists text, kb. split; [|exact Htr].
  rewrite Hdata in Hrender. exact (render_prof_course_keyboard _ _ _ _ _ _ _ _ Hrender).
Qed.

Lemma page_year_semester_turn (world : nat -> outcome) (upd : update) (q : query)
    (st : hstate) (m1 : Z) (terms : list item) (mode identifier : string) (p : Z) :
  callback_query upd = Some q ->
  world (calls st) = Succeeds m1 ->
  data q = PAGE_YEAR_SEMESTER_PREFIX +:+ mode +:+ "_" +:+ identifier +:+ "_" +:+ str_int p ->
  PyProps.no_char "_" mode = true ->
  PyProps.no_char "_" identifier = true ->
  user_data st !! "all_year_semester_list_results" = Some (VItems terms) ->
  turn_as_decoded (page_year_semester_list_callback world upd st) st q "year_semester_list"
    SELECTING_YEAR_SEMESTER p
    (create_year_semester_keyboard terms (AStr identifier) (AStr mode) p).
Proof.
  intros Hq Hw Hd Hm Hi Hl.
  rewrite (page_year_semester_decoded world upd q st _ _ _ Hq Hd Hm Hi).
  destruct (handle_pagination_turn world upd q "year_semester_list"
              [mode; identifier; str_int p] SELECTING_YEAR_SEMESTER 3 st (str_int p) p
              (VItems terms) m1)
    as [Hud Hshown]; try assumption; try reflexivity;
    [apply PyProps.int_str_str_int | discriminate |].
  split; [exact Hud|]. intros Hr. destruct (Hshown Hr) as (text & kb & Hrender & Htr).
  exists text, kb. split; [|exact Htr].
  exact (render_year_semester_keyboard _ _ _ _ _ _ _ _ _ Hrender).
Qed.

(** C1, amended: the page index is used as decoded, without clamping.
    Once the channel takes the acknowledgement of the press, each of
    the four pagination callbacks returns without raising, whatever
    the payload and the context, in one of three ways: it shows a page
    and returns its listing state; or its own decoder rejects the
    payload and it ends the conversation at once, context and channel
    untouched; or it ends the conversation with the error reply that
    carries the restart control.  For a payload that encodes an
    integer [p], of whatever size or sign, and a cached list, each of
    the four callbacks stores [p] as its cursor, and when it returns
    its listing state the page it has shown carries the keyboard that
    its builder makes of the cached list and [p].  An index beyond the
    last item of the cached course list is answered with a page that
    has no item row, only the controls the builder makes of that index
    and the footer. *)
Theorem page_index_used_as_decoded (world : nat -> outcome) (upd : update) (q : query)
    (st : hstate) (m1 : Z) :
  callback_query upd = Some q ->
  world (calls st) = Succeeds m1 ->
  (forall cb listing,
      In (cb, listing) (page_callbacks_and_states world) ->
      exists s st', cb upd st = (Ok s, st') /\ page_outcome listing st s st')
  /\ (forall (l : list item) (p : Z),
        data q = PAGE_COURSE_SEARCH_RESULTS_PREFIX +:+ str_int p ->
        user_data st !! "all_course_search_results" = Some (VItems l) ->
        turn_as_decoded (page_course_search_results_callback world upd st) st q
          "course_search" SELECTING_COURSE_RESULTS p
          (create_search_results_keyboard l "course" p))
  /\ (forall (l : list item) (p : Z),
        data q = PAGE_PROF_SEARCH_RESULTS_PREFIX +:+ str_int p ->
        user_data st !! "all_prof_search_results" = Some (VItems l) ->
        turn_as_decoded (page_prof_search_results_callback world upd st) st q
          "prof_search" SELECTING_PROF_RESULTS p
          (create_search_results_keyboard l "prof" p))
  /\ (forall (l : list item) (primary : pyval) (prof_id_str : string) (p : Z),
        data q = PAGE_PROF_COURSE_LIST_PREFIX +:+ prof_id_str +:+ "_" +:+ str_int p ->
        user_data st !! "all_prof_course_list_results" = Some primary ->
        is_none primary = false ->
        user_data st !! "unique_courses_for_selected_prof_kb" = Some (VItems l) ->
        turn_as_decoded (page_prof_course_list_callback world upd st) st q
          "prof_course_list" SELECTING_COURSE_FOR_PROF p
          (create_prof_course_selection_keyboard l prof_id_str p))
  /\ (forall (terms : list item) (mode identifier : string) (p : Z),
        data q = PAGE_YEAR_SEMESTER_PREFIX +:+ mode +:+ "_" +:+ identifier
                 +:+ "_" +:+ str_int p ->
        PyProps.no_char "_" mode = true ->
        PyProps.no_char "_" identifier = true ->
        user_data st !! "all_year_semester_list_results" = Some (VItems terms) ->
        turn_as_decoded (page_year_semester_list_callback world upd st) st q
          "year_semester_list" SELECTING_YEAR_SEMESTER p
          (create_year_semester_keyboard terms (AStr identifier) (AStr mode) p))
  /\ (forall (l : list item) (p : Z) (qtext : string) (mid : Z),
        data q = PAGE_COURSE_SEARCH_RESULTS_PREFIX +:+ str_int p ->
        user_data st !! "all_course_search_results" = Some (VItems l) ->
        user_data st !! "last_search_query_course" = Some (VAtom (AStr qtext)) ->
        Z.of_nat (length l) <= p * ITEMS_PER_PAGE ->
        world (S (calls st)) = Succeeds mid ->
        exists text,
          page_course_search_results_callback world upd st
          = (Ok SELECTING_COURSE_RESULTS,
             HState (turned "course_search" q p (user_data st))
                    (trace st
                     ++ [QueryAnswer None;
                         EditMessageText text
                           (Some (_add_pagination_buttons [] p (Z.of_nat (length l))
                                    PAGE_COURSE_SEARCH_RESULTS_PREFIX None
                                  ++ [search_footer "course"]))])
                    (S (S (calls st))))).
Proof.
  intros Hq Hw.
  assert (Hw' : world (calls st) <> Fails) by (rewrite Hw; discriminate).
  split; [|split; [|split; [|split; [|split]]]].
  - intros cb listing Hin. now apply (page_callbacks_outcome world upd q st cb listing).
  - intros l p. now apply (page_search_turn world upd q st m1 l p).
  - intros l p. now apply (page_search_turn world upd q st m1 l p).
  - intros l primary prof_id_str p.
    now apply (page_prof_course_list_turn world upd q st m1 l primary prof_id_str p).
  - intros terms mode identifier p.
    now apply (page_year_semester_turn world upd q st m1 terms mode identifier p).
  - intros l p qtext mid Hd Hl Hqt Hbeyond Hw2.
    destruct (search_list_text_of_text "courses" (Z.of_nat (length l)) qtext (p + 1)) as [text Ht].
    exists text.
    assert (Hp : 0 <= p) by (unfold ITEMS_PER_PAGE in Hbeyond; lia).
    apply (page_course_search_run world upd q st l p qtext m1 mid); try assumption.
    rewrite search_results_keyboard_page; [|assumption|].
    + rewrite (page_items_beyond l p Hbeyond). reflexivity.
    + rewrite (page_items_beyond l p Hbeyond). constructor.
Qed.

Lemma page_index_used_as_decoded_witness :
  fst (page_course_search_results_callback always_ok (press "p_csr_5") browsing_twelve)
  = Ok SELECTING_COURSE_RESULTS
  /\ user_data (snd (page_course_search_results_callback always_ok (press "p_csr_5")
                       browsing_twelve))
     !! "current_course_search_page" = Some (VAtom (AInt 5)).
Proof.
  destruct (page_index_used_as_decoded always_ok (press "p_csr_5")
              (Query "p_csr_5" 7 1 true) browsing_twelve 100 eq_refl eq_refl)
    as (_ & Hturn & _ & _ & _ & Hbeyond).
  split.
  - destruct (Hbeyond twelve_courses 5 "CS" 100) as [text E].
    + reflexivity.
    + reflexivity.
    + reflexivity.
    + vm_compute. discriminate.
    + reflexivity.
    + now rewrite E.
  - destruct (Hturn twelve_courses 5 eq_refl eq_refl) as [Hud _].
    rewrite Hud. apply lookup_insert_eq.
Defined.

(** *** What a page shows *)

(** A search result as the gateway serialises it (api/schemas.py): a
    course carries its code, a text that is not empty, and a name that
    is text or null; a professor carries a numeric id that is not zero
    and a name. *)
Definition search_result (search_type : string) (it : item) : Prop :=
  if String.eqb search_type "course"
  then (exists c, it !! "code" = Some (AStr c) /\ c <> "")
       /\ (it !! "name" = None \/ it !! "name" = Some ANone
           \/ exists n, it !! "name" = Some (AStr n))
  else (exists n, it !! "id" = Some (AInt n) /\ n <> 0)
       /\ (exists s, it !! "name" = Some (AStr s)).

(** An item the loop makes a button of: it carries an identifier and
    its label is text. *)
Definition shown (search_type : string) (it : item) : Prop :=
  truthy (identifier search_type it) = true /\ exists s, label search_type it = AStr s.

Lemma search_result_shown (search_type : string) (it : item) :
  search_result search_type it -> shown search_type it.
Proof.
  unfold search_result, shown, label, identifier, get, get_default.
  destruct (String.eqb search_type "course").
  - intros [(c & Hc & Hne) Hname]. rewrite Hc. cbn [default truthy].
    split; [now apply negb_true_iff, String.eqb_neq|].
    destruct Hname as [Hn|[Hn|[n Hn]]]; rewrite Hn; cbn [default truthy andb].
    + destruct (_ && _); now eexists.
    + now eexists.
    + destruct (_ && _); now eexists.
  - intros [(n & Hn & Hne) (s & Hs)]. rewrite Hn, Hs. cbn [default truthy].
    split; [now apply negb_true_iff, Z.eqb_neq | now eexists].
Qed.

Lemma shown_renderable (search_type : string) (it : item) :
  shown search_type it -> renderable search_type it.
Proof. intros [_ H] _. exact H. Qed.

(** The rows of items that are all shown: one button each, in order. *)
Lemma rows_of_shown (search_type : string) (l : list item) :
  Forall (shown search_type) l ->
  exists buttons,
    concat (map (item_rows search_type) l) = map (fun b => [b]) buttons
    /\ Forall2 (fun it b => exists s, label search_type it = AStr s
                                      /\ b = item_button search_type it s)
         l buttons.
Proof.
  induction 1 as [|it l [Hid [s Hs]] _ (buttons & E & F)].
  - exists []. split; [reflexivity | constructor].
  - exists (item_button search_type it s :: buttons). split.
    + cbn [map concat]. unfold item_rows at 1. rewrite Hid, Hs, E. reflexivity.
    + constructor; [|exact F]. exists s. now split.
Qed.

(** The same page turned to twice in a row: when both turns show
    their page, they show it with one and the same keyboard, [built]. *)
Definition same_keyboard_twice (world : nat -> outcome) (cb : update -> M state)
    (listing : state) (upd : update) (st : hstate) (built : result keyboard) : Prop :=
  forall m1 m2 : Z,
    world (calls st) = Succeeds m1 ->
    world (calls (snd (cb upd st))) = Succeeds m2 ->
    fst (cb upd st) = Ok listing ->
    fst (cb upd (snd (cb upd st))) = Ok listing ->
    exists text1 text2 kb,
      built = Ok kb
      /\ trace (snd (cb upd (snd (cb upd st))))
         = trace st ++ [QueryAnswer None; EditMessageText text1 (Some kb);
                        QueryAnswer None; EditMessageText text2 (Some kb)].

Lemma same_page_twice (world : nat -> outcome) (upd : update) (q : query) (st : hstate)
    (key : string) (listing : state) (cb : update -> M state) (l : list item) (p : Z)
    (built : result keyboard) :
  (forall st0 m, world (calls st0) = Succeeds m ->
                 user_data st0 !! ("all_" +:+ key +:+ "_results") = Some (VItems l) ->
                 turn_as_decoded (cb upd st0) st0 q key listing p built) ->
  "all_" +:+ key +:+ "_results" <> "current_" +:+ key +:+ "_page" ->
  "all_" +:+ key +:+ "_results" <> "original_message_id_for_edit" ->
  user_data st !! ("all_" +:+ key +:+ "_results") = Some (VItems l) ->
  same_keyboard_twice world cb listing upd st built.
Proof.
  intros Hturn Hne1 Hne2 Hl m1 m2 Hw1 Hw2 Hr1 Hr2.
  destruct (Hturn st m1 Hw1 Hl) as [Hud1 Hshown1].
  destruct (Hshown1 Hr1) as (text1 & kb & Hkb & Htr1).
  assert (Hl2 : user_data (snd (cb upd st)) !! ("all_" +:+ key +:+ "_results")
                = Some (VItems l)).
  { rewrite Hud1. unfold turned. now rewrite !lookup_insert_ne by congruence. }
  destruct (Hturn _ m2 Hw2 Hl2) as [_ Hshown2].
  destruct (Hshown2 Hr2) as (text2 & kb2 & Hkb2 & Htr2).
  assert (kb2 = kb) by congruence. subst kb2.
  exists text1, text2, kb. split; [exact Hkb|].
  rewrite Htr2, Htr1, <- app_assoc. reflexivity.
Qed.

(** C5: for a page index that is not negative and a cached list of
    search results (items that carry their identifier and a text
    label, as every result of the gateway does), the keyboard of page
    [p] consists of one single-button row for each item at positions
    [[p*8, (p+1)*8)] of the cached list, in list order, then the
    controls, then the footer.  Turning pages never writes the cached
    list, and the same page of the course results or of the professor
    results turned to twice in a row is shown both times with the same
    keyboard, the one the builder makes of the list cached before. *)
Theorem page_shows_its_items (all_results : list item) (search_type : string) (p : Z) :
  0 <= p ->
  Forall (shown search_type) (page_items all_results p) ->
  (exists buttons,
     create_search_results_keyboard all_results search_type p
     = Ok (map (fun b => [b]) buttons
           ++ _add_pagination_buttons [] p (Z.of_nat (length all_results))
                (page_prefix search_type) None
           ++ [search_footer search_type])
     /\ Forall2 (fun it b => exists s, label search_type it = AStr s
                                       /\ b = item_button search_type it s)
          (page_items all_results p) buttons)
  /\ (forall (world : nat -> outcome) (upd : update) (st : hstate) (key : string)
        (parts : list string) (listing : state) (n : nat),
        user_data (snd (_handle_pagination_callback world upd key parts listing n st))
        !! ("all_" +:+ key +:+ "_results")
        = user_data st !! ("all_" +:+ key +:+ "_results"))
  /\ (forall (world : nat -> outcome) (upd : update) (q : query) (st : hstate),
        callback_query upd = Some q ->
        data q = PAGE_COURSE_SEARCH_RESULTS_PREFIX +:+ str_int p ->
        user_data st !! "all_course_search_results" = Some (VItems all_results) ->
        same_keyboard_twice world (page_course_search_results_callback world)
          SELECTING_COURSE_RESULTS upd st (create_search_results_keyboard all_results "course" p))
  /\ (forall (world : nat -> outcome) (upd : update) (q : query) (st : hstate),
        callback_query upd = Some q ->
        data q = PAGE_PROF_SEARCH_RESULTS_PREFIX +:+ str_int p ->
        user_data st !! "all_prof_search_results" = Some (VItems all_results) ->
        same_keyboard_twice world (page_prof_search_results_callback world)
          SELECTING_PROF_RESULTS upd st (create_search_results_keyboard all_results "prof" p)).
Proof.
  intros Hp Hshown. split; [|split; [|split]].
  - destruct (rows_of_shown search_type _ Hshown) as (buttons & E & F).
    exists buttons. split; [|exact F].
    rewrite search_results_keyboard_page; [now rewrite E | assumption |].
    eapply Forall_impl; [exact Hshown|]. apply shown_renderable.
  - intros world upd st key parts listing n.
    apply preserves_handle_pagination; simpl; discriminate.
  - intros world upd q st Hq Hd Hl.
    apply (same_page_twice world upd q st "course_search" SELECTING_COURSE_RESULTS
             (page_course_search_results_callback world) all_results p);
      try assumption; try discriminate.
    intros st0 m Hw0 Hl0. now apply (page_search_turn world upd q st0 m all_results p).
  - intros world upd q st Hq Hd Hl.
    apply (same_page_twice world upd q st "prof_search" SELECTING_PROF_RESULTS
             (page_prof_search_results_callback world) all_results p);
      try assumption; try discriminate.
    intros st0 m Hw0 Hl0. now apply (page_search_turn world upd q st0 m all_results p).
Qed.

Lemma page_shows_its_items_witness :
  exists buttons,
    create_search_results_keyboard twelve_courses "course" 1
    = Ok (map (fun b => [b]) buttons ++ [[previous_button "p_csr_0"]]
          ++ [search_footer "course"])
    /\ length buttons = 4%nat.
Proof.
  destruct (page_shows_its_items twelve_courses "course" 1) as [(buttons & E & F) _].
  - lia.
  - repeat constructor; apply search_result_shown; cbn;
      (split; [eexists; split; [reflexivity | discriminate]
              | right; right; eexists; reflexivity]).
  - exists buttons. split; [exact E|].
    apply Forall2_length in F. rewrite <- F. reflexivity.
Defined.
End PaginationProps.

(** ** Backward navigation: the fallback chains *)
Module BackProps.
Import Keyboards Handlers HandlerProps.

(** How many hand-overs can still follow a handler. *)
Definition rank (h : back_trigger) : nat :=
  match h with
  | BackToProfCourses => 2
  | BackToProfSearchList | BackToCourseSearchList => 1
  | BackToMain | BackToTypingCourse | BackToTypingProf
  | BackToCourseListFromPlot | BackToYearSemSelect => 0
  end.

Definition lower_rank (h : back_trigger) (x : hop) : Prop :=
  match x with
  | Return _ => True
  | HandOver h' => (rank h' < rank h)%nat
  end.

(** Every hand-over goes to a handler of strictly lower rank. *)
Lemma hand_over_decreases (world : nat -> outcome) (h : back_trigger) (upd : update) :
  yields (lower_rank h) (back_step world h upd).
Proof.
  destruct h; unfold back_step, returning, back_to_prof_search_list_callback,
    back_to_course_search_list_callback, back_to_prof_courses_callback;
    repeat yields_step; simpl; auto.
Qed.

(** With more handlers allowed in a row than the rank of the trigger,
    the run ends, and allowing still more changes nothing. *)
Lemma run_back_enough (world : nat -> outcome) (upd : update) (n : nat) :
  forall (h : back_trigger) (st : hstate),
    (rank h < n)%nat ->
    exists r, run_back world n h upd st = Some r
              /\ forall m, (n <= m)%nat -> run_back world m h upd st = Some r.
Proof.
  induction n as [|n IH]; intros h st Hr; [lia|].
  pose proof (hand_over_decreases world h upd st) as Hd.
  simpl. destruct (back_step world h upd st) as [[[s|h']|e] st'] eqn:E.
  - exists (Ok s, st'). split; [reflexivity|].
    intros [|m] Hm; [lia|]. simpl. now rewrite E.
  - specialize (Hd (HandOver h') st' eq_refl). simpl in Hd.
    destruct (IH h' st') as (r & Hrun & Hmore); [lia|].
    exists r. split; [exact Hrun|].
    intros [|m] Hm; [lia|]. simpl. rewrite E. apply Hmore. lia.
  - exists (Raise e, st'). split; [reflexivity|].
    intros [|m] Hm; [lia|]. simpl. now rewrite E.
Qed.

Lemma rank_below_three (h : back_trigger) : (rank h < 3)%nat.
Proof. destruct h; simpl; lia. Qed.

Definition back_answer : effect := QueryAnswer (Some "⬅️ Back").

(** The state in which a handler that only acknowledged the press and
    noted the message hands over. *)
Definition acknowledged (q : query) (st : hstate) : hstate :=
  HState (<["original_message_id_for_edit" := VAtom (AInt (message_id q))]> (user_data st))
         (trace st ++ [back_answer]) (S (calls st)).

(** The value the handlers read from a slot: [user_data.get(k)]. *)
Definition slot (k : string) (st : hstate) : pyval := default VNone (user_data st !! k).

(** Back to a professor's courses with a payload that holds no number:
    over to the restart handler. *)
Lemma prof_courses_bad_payload (world : nat -> outcome) (upd : update) (q : query)
    (st : hstate) (s : string) (mid : Z) :
  callback_query upd = Some q ->
  data q = BACK_TO_PROF_COURSE_LIST_PREFIX +:+ s ->
  int_str s = Raise ValueError ->
  world (calls st) = Succeeds mid ->
  back_step world BackToProfCourses upd st = (Ok (HandOver BackToMain), acknowledged q st).
Proof.
  intros Hq Hd Hs Hw. destruct st as [ud tr c]. simpl in Hw.
  unfold back_step, back_to_prof_courses_callback, acknowledged, back_answer.
  exec. reflexivity.
Qed.

(** Back to a professor's courses while the context names another
    professor, or none: over to the prompt for the professor's name. *)
Lemma prof_courses_other_professor (world : nat -> outcome) (upd : update) (q : query)
    (st : hstate) (prof_id mid : Z) :
  callback_query upd = Some q ->
  data q = BACK_TO_PROF_COURSE_LIST_PREFIX +:+ str_int prof_id ->
  val_eq_int (slot "selected_prof_id" st) prof_id = false ->
  world (calls st) = Succeeds mid ->
  back_step world BackToProfCourses upd st
  = (Ok (HandOver BackToTypingProf), acknowledged q st).
Proof.
  intros Hq Hd Hsel Hw. destruct st as [ud tr c]. unfold slot in Hsel. simpl in Hw, Hsel.
  unfold back_step, back_to_prof_courses_callback, acknowledged, back_answer.
  destruct (ud !! "selected_prof_id") as [v|] eqn:E; simpl in Hsel; exec; reflexivity.
Qed.

(** Back to a professor's courses, with the course list gone: over to
    the search results. *)
Lemma prof_courses_without_list (world : nat -> outcome) (upd : update) (q : query)
    (st : hstate) (prof_id mid : Z) :
  callback_query upd = Some q ->
  data q = BACK_TO_PROF_COURSE_LIST_PREFIX +:+ str_int prof_id ->
  val_eq_int (slot "selected_prof_id" st) prof_id = true ->
  val_truthy (slot "unique_courses_for_selected_prof_kb" st) = false ->
  world (calls st) = Succeeds mid ->
  back_step world BackToProfCourses upd st
  = (Ok (HandOver BackToProfSearchList), acknowledged q st).
Proof.
  intros Hq Hd Hsel Hlist Hw. destruct st as [ud tr c]. unfold slot in Hsel, Hlist.
  simpl in Hw, Hsel, Hlist.
  unfold back_step, back_to_prof_courses_callback, acknowledged, back_answer.
  destruct (ud !! "selected_prof_id") as [v|] eqn:E; simpl in Hsel; [|discriminate Hsel].
  destruct (ud !! "unique_courses_for_selected_prof_kb") as [w|] eqn:E'; simpl in Hlist; exec;
    reflexivity.
Qed.

(** Back to the search results, with the results gone: over to the
    prompt for the professor's name. *)
Lemma prof_search_list_without_results (world : nat -> outcome) (upd : update) (q : query)
    (st : hstate) (mid : Z) :
  callback_query upd = Some q ->
  is_none (slot "all_prof_search_results" st) = true ->
  world (calls st) = Succeeds mid ->
  back_step world BackToProfSearchList upd st
  = (Ok (HandOver BackToTypingProf), acknowledged q st).
Proof.
  intros Hq Hres Hw. destruct st as [ud tr c]. unfold slot in Hres. simpl in Hres, Hw.
  unfold back_step, back_to_prof_search_list_callback, acknowledged, back_answer.
  destruct (ud !! "all_prof_search_results") as [v|] eqn:E; simpl in Hres; exec; reflexivity.
Qed.

Definition prof_name_prompt : effect :=
  EditMessageText "🧑‍🏫 OK. Re-enter **professor's name**:" (Some get_cancel_keyboard).

(** The prompt for the professor's name reads no slot: acknowledged,
    it is shown whenever the channel takes the edit, and otherwise
    the conversation ends with the restart control. *)
Lemma typing_prof_prompt (world : nat -> outcome) (upd : update) (q : query)
    (st : hstate) (mid : Z) :
  callback_query upd = Some q ->
  world (calls st) = Succeeds mid ->
  exists st',
    back_step world BackToTypingProf upd st
    = (Ok (Return (match world (S (calls st)) with
                   | Succeeds _ => TYPING_PROF
                   | Fails => END
                   end)), st')
    /\ trace st'
       = trace st ++ [back_answer;
                      match world (S (calls st)) with
                      | Succeeds _ => prof_name_prompt
                      | Fails => ErrorReply "back_to_typing_prof" TelegramError get_restart_keyboard
                      end].
Proof.
  intros Hq Hw. destruct st as [ud tr c]. simpl in Hw.
  unfold back_step, returning, back_to_typing_prof_callback, _clear_list_context,
    forget_plot_and_terms, prof_name_prompt, back_answer.
  exec. simpl calls.
  destruct (world (S c)) as [|mid2]; exec; eexists; (split; [reflexivity|]);
    simpl; now rewrite <- app_assoc.
Qed.

(** *** How a chain can end the conversation *)

(** A body whose normal returns all leave a result and a state that
    satisfy [P]. *)
Definition leaves {A} (P : A -> hstate -> Prop) (m : M A) : Prop :=
  forall st a st', m st = (Ok a, st') -> P a st'.

Lemma leaves_ret {A} (P : A -> hstate -> Prop) (a : A) :
  (forall st, P a st) -> leaves P (mret a).
Proof. intros H st a' st' E. inversion E. subst. apply H. Qed.

Lemma leaves_raise {A} (P : A -> hstate -> Prop) (e : exn) : leaves P (raise e : M A).
Proof. intros st a st' E. discriminate E. Qed.

Lemma leaves_bind {A B} (P : B -> hstate -> Prop) (m : M A) (f : A -> M B) :
  (forall a, leaves P (f a)) -> leaves P (m ≫= f).
Proof.
  intros Hf st b st' E. unfold mbind, M_bind in E.
  destruct (m st) as [[a|e] st1]; [|discriminate E].
  now apply (Hf a st1 b st').
Qed.

Lemma leaves_try_catch {A} (P : A -> hstate -> Prop) (body : M A) (handler : exn -> M A) :
  leaves P body -> (forall e, leaves P (handler e)) -> leaves P (try_catch body handler).
Proof.
  intros Hb Hh st a st' E. unfold try_catch in E.
  destruct (body st) as [[a0|e] st1] eqn:Eb.
  - inversion E. subst. now apply (Hb st a st').
  - now apply (Hh e st1 a st').
Qed.

Lemma leaves_returning (P : hop -> hstate -> Prop) (m : M state) :
  leaves (fun s => P (Return s)) m -> leaves P (returning m).
Proof.
  intros Hm st x st' E. unfold returning, mbind, M_bind in E.
  destruct (m st) as [[s|e] st1] eqn:Em; [|discriminate E].
  inversion E. subst. now apply (Hm st s st').
Qed.

(** The restart control was the last thing offered. *)
Definition restart_offered (st : hstate) : Prop :=
  exists src e tr, trace st = tr ++ [ErrorReply src e get_restart_keyboard].

Lemma leaves_error_reply {A} (P : A -> hstate -> Prop) (src : string) (e : exn) (a : A) :
  (forall st, restart_offered st -> P a st) ->
  leaves P (_ ← handle_api_error src e; mret a).
Proof.
  intros H st a' st' E. inversion E. subst. apply H. now eexists _, _, _.
Qed.

Ltac leaves_step :=
  match goal with
  | |- leaves _ (_ ← handle_api_error _ _; mret _) =>
      apply leaves_error_reply; intros ? ?
  | |- leaves _ (mbind _ _) => apply leaves_bind; intros ?
  | |- leaves _ (try_catch _ _) => apply leaves_try_catch; [|intros ?]
  | |- leaves _ (mret _) => apply leaves_ret; intros ?
  | |- leaves _ (raise _) => apply leaves_raise
  | |- leaves _ (if ?b then _ else _) => destruct b
  | |- leaves _ (match ?x with _ => _ end) => destruct x
  end.

(** The links of the professor chain and of the course chain. *)
Definition chain_links : list back_trigger :=
  [BackToProfCourses; BackToProfSearchList; BackToTypingProf;
   BackToCourseSearchList; BackToTypingCourse].

(** A link that itself ends the conversation has offered the restart
    control. *)
Lemma link_ends_with_restart (world : nat -> outcome) (h : back_trigger) (upd : update) :
  In h chain_links ->
  leaves (fun x st' => x = Return END -> restart_offered st') (back_step world h upd).
Proof.
  intros Hin.
  destruct Hin as [<-|[<-|[<-|[<-|[<-|[]]]]]]; unfold back_step;
    try apply leaves_returning;
    unfold back_to_prof_search_list_callback, back_to_course_search_list_callback,
      back_to_prof_courses_callback, back_to_typing_prof_callback,
      back_to_typing_course_callback;
    repeat leaves_step; try discriminate; auto.
Qed.

(** Where each link hands over to. *)
Definition next_links (h : back_trigger) : list back_trigger :=
  match h with
  | BackToProfCourses => [BackToMain; BackToTypingProf; BackToProfSearchList]
  | BackToProfSearchList => [BackToTypingProf]
  | BackToCourseSearchList => [BackToTypingCourse]
  | _ => []
  end.

Lemma hand_over_targets (world : nat -> outcome) (h : back_trigger) (upd : update) :
  yields (fun x => forall h', x = HandOver h' -> In h' (next_links h)) (back_step world h upd).
Proof.
  destruct h; unfold back_step, returning, back_to_prof_search_list_callback,
    back_to_course_search_list_callback, back_to_prof_courses_callback;
    repeat yields_step; intros h' [=]; subst; simpl; auto.
Qed.

(** A chain that starts at a link and ends the conversation has
    offered the restart control, unless back to a professor's courses
    handed over to the restart handler. *)
Lemma chain_ends_with_restart (world : nat -> outcome) (upd : update) (n : nat) :
  forall (h : back_trigger) (st st' : hstate),
    In h chain_links ->
    run_back world n h upd st = Some (Ok END, st') ->
    restart_offered st'
    \/ (h = BackToProfCourses
        /\ exists st1, back_step world h upd st = (Ok (HandOver BackToMain), st1)).
Proof.
  induction n as [|n IH]; intros h st st' Hin Hrun; [discriminate Hrun|].
  simpl in Hrun.
  pose proof (link_ends_with_restart world h upd Hin st) as Hend.
  pose proof (hand_over_targets world h upd st) as Hnext.
  destruct (back_step world h upd st) as [[[s|h1]|e] st1] eqn:E.
  - inversion Hrun. subst. left. now apply (Hend (Return END) st').
  - specialize (Hnext (HandOver h1) st1 eq_refl h1 eq_refl).
    assert (Hcases : h1 = BackToMain /\ h = BackToProfCourses \/ In h1 chain_links
                                                                 /\ next_links h1 = []
                     \/ h1 = BackToProfSearchList).
    { destruct h; simpl in Hnext;
        repeat match goal with
               | H : _ \/ _ |- _ => destruct H
               | H : False |- _ => destruct H
               end; subst; simpl; auto 10. }
    destruct Hcases as [[-> ->] | [[Hin1 Hlast] | ->]].
    + right. split; [reflexivity|]. now exists st1.
    + destruct (IH h1 st1 st' Hin1 Hrun) as [H | [-> _]]; [now left | discriminate Hlast].
    + destruct (IH BackToProfSearchList st1 st') as [H|[[=] _]]; [simpl; auto | exact Hrun |].
      now left.
  - discriminate Hrun.
Qed.

(** Back to a professor's courses with the professor and the courses
    in the context: when the channel refuses the page, the
    conversation ends at this link, with the restart control. *)
Lemma prof_courses_page_refused (world : nat -> outcome) (upd : update) (q : query)
    (st : hstate) (prof_id mid : Z) :
  callback_query upd = Some q ->
  data q = BACK_TO_PROF_COURSE_LIST_PREFIX +:+ str_int prof_id ->
  val_eq_int (slot "selected_prof_id" st) prof_id = true ->
  val_truthy (slot "unique_courses_for_selected_prof_kb" st) = true ->
  world (calls st) = Succeeds mid ->
  world (S (calls st)) = Fails ->
  exists st',
    back_step world BackToProfCourses upd st = (Ok (Return END), st')
    /\ restart_offered st'.
Proof.
  intros Hq Hd Hsel Hlist Hw Hw2. destruct st as [ud tr c]. unfold slot in Hsel, Hlist.
  simpl in Hw, Hw2, Hsel, Hlist.
  unfold back_step, back_to_prof_courses_callback, _clear_list_context, forget_plot_and_terms.
  destruct (ud !! "selected_prof_id") as [v|] eqn:E; simpl in Hsel; [|discriminate Hsel].
  destruct (ud !! "unique_courses_for_selected_prof_kb") as [w|] eqn:E'; simpl in Hlist;
    [|discriminate Hlist].
  exec.
  repeat match goal with
         | |- context [match ?x with Ok _ => _ | Raise _ => _ end] => destruct x
         end;
    (eexists; split; [reflexivity|]; eexists _, _, _; reflexivity).
Qed.

(** *** Sample contexts *)

(** A context that lost its lists: only the selected professor is left. *)
Definition lists_lost : hstate :=
  HState {[ "selected_prof_id" := VAtom (AInt 17);
            "selected_prof_name" := VAtom (AStr "R. Iyer");
            "search_mode" := VAtom (AStr "prof") ]} [] 0.

(** A context that is gone altogether, as after [user_data.clear()]. *)
Definition context_gone : hstate := HState ∅ [] 0.

(** The claim C8 makes about the first link: with the cached course
    list missing, back to a professor's courses hands over to the
    reconstruction of the search results. *)
Definition escalates_as_specified (world : nat -> outcome) (upd : update) (st : hstate) : Prop :=
  user_data st !! "unique_courses_for_selected_prof_kb" = None ->
  exists st',
    back_step world BackToProfCourses upd st = (Ok (HandOver BackToProfSearchList), st').

(** C8, as stated, fails: with the whole context gone the first link
    does not find its professor and hands over to the prompt for the
    professor's name at once, past the search results. *)
Lemma lost_context_skips_search_results :
  ~ escalates_as_specified always_ok (press "back_prof_crs_list_17") context_gone.
Proof.
  intros H. destruct (H eq_refl) as [st' E]. vm_compute in E. discriminate E.
Qed.

(** C8, amended: every back trigger ends within three handler runs,
    whatever the update, the context and the channel do, and allowing
    more runs changes nothing; a hand-over always goes to a handler of
    lower rank, so no chain loops.  Once its press is acknowledged,
    back to a professor's courses hands over to the restart handler
    when its payload holds no number, to the prompt for the
    professor's name when the professor of the context is not the one
    of the payload (so also when the context is gone), and to the
    reconstruction of the search results when the professor is the
    same and the cached course list is missing or empty; the
    reconstruction, without cached results, hands over to the prompt
    for the professor's name; the prompt reads no slot and is shown if
    and only if the channel takes it, the conversation ending with the
    restart control otherwise.  Whenever a chain that starts at one of
    these links or at a link of the course chain ends the
    conversation, the restart control was the last thing offered,
    unless the first link handed over to the restart handler; and the
    first link itself, with its professor and the courses in the
    context, ends the conversation so when the channel refuses its
    page. *)
Theorem back_chains_are_bounded (world : nat -> outcome) (upd : update) (q : query)
    (st : hstate) (mid : Z) :
  callback_query upd = Some q ->
  world (calls st) = Succeeds mid ->
  (forall h : back_trigger,
     exists r, run_back world 3 h upd st = Some r
               /\ forall n, (3 <= n)%nat -> run_back world n h upd st = Some r)
  /\ (forall (h h' : back_trigger) (st0 st' : hstate),
        back_step world h upd st0 = (Ok (HandOver h'), st') -> (rank h' < rank h)%nat)
  /\ (forall s : string,
        data q = BACK_TO_PROF_COURSE_LIST_PREFIX +:+ s ->
        int_str s = Raise ValueError ->
        back_step world BackToProfCourses upd st
        = (Ok (HandOver BackToMain), acknowledged q st))
  /\ (forall prof_id : Z,
        data q = BACK_TO_PROF_COURSE_LIST_PREFIX +:+ str_int prof_id ->
        val_eq_int (slot "selected_prof_id" st) prof_id = false ->
        back_step world BackToProfCourses upd st
        = (Ok (HandOver BackToTypingProf), acknowledged q st))
  /\ (forall prof_id : Z,
        data q = BACK_TO_PROF_COURSE_LIST_PREFIX +:+ str_int prof_id ->
        val_eq_int (slot "selected_prof_id" st) prof_id = true ->
        val_truthy (slot "unique_courses_for_selected_prof_kb" st) = false ->
        back_step world BackToProfCourses upd st
        = (Ok (HandOver BackToProfSearchList), acknowledged q st))
  /\ (is_none (slot "all_prof_search_results" st) = true ->
      back_step world BackToProfSearchList upd st
      = (Ok (HandOver BackToTypingProf), acknowledged q st))
  /\ (exists st',
        back_step world BackToTypingProf upd st
        = (Ok (Return (match world (S (calls st)) with
                       | Succeeds _ => TYPING_PROF
                       | Fails => END
                       end)), st')
        /\ trace st'
           = trace st ++ [back_answer;
                          match world (S (calls st)) with
                          | Succeeds _ => prof_name_prompt
                          | Fails => ErrorReply "back_to_typing_prof" TelegramError
                                       get_restart_keyboard
                          end])
  /\ (forall (h : back_trigger) (n : nat) (st0 st' : hstate),
        In h chain_links ->
        run_back world n h upd st0 = Some (Ok END, st') ->
        restart_offered st'
        \/ (h = BackToProfCourses
            /\ exists st1, back_step world h upd st0 = (Ok (HandOver BackToMain), st1)))
  /\ (forall prof_id : Z,
        data q = BACK_TO_PROF_COURSE_LIST_PREFIX +:+ str_int prof_id ->
        val_eq_int (slot "selected_prof_id" st) prof_id = true ->
        val_truthy (slot "unique_courses_for_selected_prof_kb" st) = true ->
        world (S (calls st)) = Fails ->
        exists st',
          back_step world BackToProfCourses upd st = (Ok (Return END), st')
          /\ restart_offered st').
Proof.
  intros Hq Hw. split; [|split; [|split; [|split; [|split; [|split; [|split; [|split]]]]]]].
  - intros h. apply run_back_enough. apply rank_below_three.
  - intros h h' st0 st' E.
    exact (hand_over_decreases world h upd st0 (HandOver h') st' E).
  - intros s Hd Hs. now apply (prof_courses_bad_payload world upd q st s mid).
  - intros prof_id Hd Hsel.
    now apply (prof_courses_other_professor world upd q st prof_id mid).
  - intros prof_id Hd Hsel Hlist.
    now apply (prof_courses_without_list world upd q st prof_id mid).
  - intros Hres. now apply (prof_search_list_without_results world upd q st mid).
  - now apply (typing_prof_prompt world upd q st mid).
  - intros h n st0 st' Hin Hrun. now apply (chain_ends_with_restart world upd n h st0 st').
  - intros prof_id Hd Hsel Hlist Hw2.
    now apply (prof_courses_page_refused world upd q st prof_id mid).
Qed.

Lemma back_chains_are_bounded_witness :
  back_step always_ok BackToProfCourses (press "back_prof_crs_list_17") lists_lost
  = (Ok (HandOver BackToProfSearchList),
     acknowledged (Query "back_prof_crs_list_17" 7 1 true) lists_lost)
  /\ back_step always_ok BackToProfSearchList (press "back_prof_crs_list_17") lists_lost
     = (Ok (HandOver BackToTypingProf),
        acknowledged (Query "back_prof_crs_list_17" 7 1 true) lists_lost)
  /\ back_step always_ok BackToProfCourses (press "back_prof_crs_list_17") context_gone
     = (Ok (HandOver BackToTypingProf),
        acknowledged (Query "back_prof_crs_list_17" 7 1 true) context_gone).
Proof.
  destruct (back_chains_are_bounded always_ok (press "back_prof_crs_list_17")
              (Query "back_prof_crs_list_17" 7 1 true) lists_lost 100 eq_refl eq_refl)
    as (_ & _ & _ & _ & H1 & H2 & _).
  destruct (back_chains_are_bounded always_ok (press "back_prof_crs_list_17")
              (Query "back_prof_crs_list_17" 7 1 true) context_gone 100 eq_refl eq_refl)
    as (_ & _ & _ & H0 & _).
  split; [|split].
  - apply (H1 17); reflexivity.
  - apply H2. reflexivity.
  - apply (H0 17); reflexivity.
Defined.

(** The whole chain on the context that lost its lists: three
    acknowledgements, then the prompt for the professor's name. *)
Example chain_ends_at_name_prompt :
  exists st',
    run_back always_ok 3 BackToProfCourses (press "back_prof_crs_list_17") lists_lost
    = Some (Ok TYPING_PROF, st')
    /\ trace st' = [back_answer; back_answer; back_answer; prof_name_prompt]
    /\ user_data st' = {[ "search_mode" := VAtom (AStr "prof");
                          "original_message_id_for_edit" := VAtom (AInt 7) ]}.
Proof.
  eexists. split; [vm_compute; reflexivity|]. split; vm_compute; reflexivity.
Qed.

(** On the context that is gone, two acknowledgements: the search
    results are not tried. *)
Example short_chain_on_lost_context :
  exists st',
    run_back always_ok 3 BackToProfCourses (press "back_prof_crs_list_17") context_gone
    = Some (Ok TYPING_PROF, st')
    /\ trace st' = [back_answer; back_answer; prof_name_prompt].
Proof.
  eexists. split; vm_compute; reflexivity.
Qed.

(** A channel that refuses its second call. *)
Definition second_call_refused : nat -> outcome :=
  fun n => if (n =? 1)%nat then Fails else Succeeds 100.

(** The conversation can end at the first link: the courses are
    cached, the channel refuses the page. *)
Example first_link_can_end :
  exists st',
    back_step second_call_refused BackToProfCourses (press "back_prof_crs_list_17")
      (HState {[ "selected_prof_id" := VAtom (AInt 17);
                 "unique_courses_for_selected_prof_kb"
                 := VItems [ {[ "course_code" := AStr "CS101";
                                "course_name" := AStr "Programming" ]} ] ]} [] 0)
    = (Ok (Return END), st')
    /\ trace st' = [back_answer;
                    ErrorReply "back_to_prof_courses" TelegramError get_restart_keyboard].
Proof.
  eexists. split; vm_compute; reflexivity.
Qed.

(** The other back triggers: the course chain has two links, and the
    two triggers of the final view end the conversation at once when
    the context is gone. *)
Example context_gone_elsewhere :
  (exists st', run_back always_ok 3 BackToCourseSearchList (press "back_crs_srch_list")
                 context_gone = Some (Ok TYPING_COURSE, st'))
  /\ (exists st', run_back always_ok 3 BackToYearSemSelect (press "back_ys_sel_CS101")
                    context_gone = Some (Ok END, st')
                  /\ trace st' = [QueryAnswer (Some "⬅️ Going back...");
                                  SendMessage session_expired_text None]).
Proof.
  split.
  - eexists. vm_compute. reflexivity.
  - eexists. split; vm_compute; reflexivity.
Qed.

End BackProps.

(** ** The start command and the restart button *)
Module RestartProps.
Import Keyboards Handlers HandlerProps.

Definition prompt_slot : string := "original_message_id_for_edit".

(** What the start command sends and schedules when the channel takes
    the welcome message. *)
Definition start_effects (upd : update) : list effect :=
  SendMessage (welcome_text (effective_user upd)) (Some get_start_keyboard)
  :: match effective_user upd with
     | Some u => [ScheduleSubscribe (user_id u)]
     | None => []
     end.

(** The start command, run: it swaps the handle of the prompt message
    and touches no other slot. *)
Lemma start_command_run (world : nat -> outcome) (upd : update) (st : hstate) :
  start_command world upd st
  = match world (calls st) with
    | Succeeds mid =>
        (Ok SELECTING_ACTION,
         HState (<[prompt_slot := VAtom (AInt mid)]> (user_data st))
                (trace st ++ start_effects upd) (S (calls st)))
    | Fails =>
        (Ok END, HState (delete prompt_slot (user_data st)) (trace st) (S (calls st)))
    end.
Proof.
  destruct st as [ud tr c]. unfold start_command, start_effects, prompt_slot.
  exec. simpl calls. destruct (world c) as [|mid]; exec; [reflexivity|].
  rewrite insert_delete_eq.
  destruct (effective_user upd) as [u|]; exec; [now rewrite <- app_assoc | reflexivity].
Qed.

(** The restart button, run to its last step: from the moment the
    context is cleared, only the welcome message decides the end. *)
Lemma restart_tail (world : nat -> outcome) (u : option user) (st : hstate) :
  (_ ← ud_clear;
   try_catch
     (mid ← channel world (SendMessage (welcome_text u) (Some get_start_keyboard));
      _ ← ud_set "original_message_id_for_edit" (VAtom (AInt mid));
      mret SELECTING_ACTION)
     (fun _ => mret END)) st
  = match world (calls st) with
    | Succeeds mid =>
        (Ok SELECTING_ACTION,
         HState {[ prompt_slot := VAtom (AInt mid) ]}
                (trace st ++ [SendMessage (welcome_text u) (Some get_start_keyboard)])
                (S (calls st)))
    | Fails => (Ok END, HState ∅ (trace st) (S (calls st)))
    end.
Proof.
  destruct st as [ud tr c]. unfold prompt_slot. exec. simpl calls.
  destruct (world c) as [|mid]; exec; reflexivity.
Qed.

(** However the restart button ends, the context it leaves holds the
    new prompt handle and nothing else, or nothing at all. *)
Lemma back_to_main_resets (world : nat -> outcome) (upd : update) (st : hstate)
    (r : result state) (st' : hstate) :
  back_to_main_callback world upd st = (r, st') ->
  (r = Ok SELECTING_ACTION /\ exists mid, user_data st' = {[ prompt_slot := VAtom (AInt mid) ]})
  \/ (r = Ok END /\ user_data st' = ∅)
  \/ (exists e, r = Raise e).
Proof.
  unfold back_to_main_callback.
  unfold mbind at 1, M_bind at 1.
  destruct (_disable_previous_plot_buttons world st) as [[[]|e] st1];
    [|intros E; inversion E; right; right; now exists e].
  unfold mbind at 1, M_bind at 1.
  match goal with
  | |- context [match ?m st1 with _ => _ end] => destruct (m st1) as [[[]|e] st2]
  end; [|intros E; inversion E; right; right; now exists e].
  rewrite restart_tail.
  destruct (world (calls st2)) as [|mid]; intros E; inversion E; subst; simpl.
  - right. left. now split.
  - left. split; [reflexivity|]. now exists mid.
Qed.

(** With a channel that takes every call, and no ill-typed plot
    message left in the context, the restart button reissues the
    welcome prompt. *)
Lemma back_to_main_delivered (world : nat -> outcome) (upd : update) (st : hstate) :
  (forall n, exists mid, world n = Succeeds mid) ->
  (user_data st !! "final_plot_message_obj" = None
   \/ exists m, user_data st !! "final_plot_message_obj" = Some (VMessage m)) ->
  exists st', back_to_main_callback world upd st = (Ok SELECTING_ACTION, st').
Proof.
  intros Hall Hplot. destruct st as [ud tr c]. simpl in Hplot.
  destruct (Hall c) as [m0 H0]. destruct (Hall (S c)) as [m1 H1].
  destruct (Hall (S (S c))) as [m2 H2]. destruct (Hall (S (S (S c)))) as [m3 H3].
  unfold back_to_main_callback, _disable_previous_plot_buttons.
  destruct Hplot as [Hp|[m Hp]];
    destruct (callback_query upd) as [q|]; [destruct (has_reply_markup q)| |destruct (has_reply_markup q)|];
    exec; eexists; reflexivity.
Qed.

(** Where the two triggers are declared: in every state of the browse
    flow both are routed; in the feedback flow only the command is. *)
Lemma start_triggers_routed :
  Forall (fun s =>
            Main.resolve Main.search_conv_handler (Some s) (Main.EvCommand "start")
            = Some Main.start_command
            /\ Main.resolve Main.search_conv_handler (Some s) (Main.EvCallback BACK_TO_MAIN)
               = Some Main.back_to_main_callback)
    Main.browse_states
  /\ Forall (fun s =>
               Main.resolve Main.feedback_conv_handler (Some s) (Main.EvCommand "start")
               = Some Main.start_command
               /\ Main.resolve Main.feedback_conv_handler (Some s) (Main.EvCallback BACK_TO_MAIN)
                  = None)
       Main.feedback_states.
Proof. split; repeat constructor. Qed.

(** The mode choice that follows the start command: acknowledged, it
    leaves the handle the command recorded and the chosen mode, and
    nothing of what the context held before. *)
Definition chosen_mode (payload : string) : string :=
  if String.eqb payload COURSE_SEARCH_MODE then "course" else "prof".

Lemma mode_choice_after_start (world : nat -> outcome) (upd choice : update) (q : query)
    (st : hstate) (mid m : Z) :
  world (calls st) = Succeeds mid ->
  mid <> 0 ->
  callback_query choice = Some q ->
  data q = COURSE_SEARCH_MODE \/ data q = PROF_SEARCH_MODE ->
  world (S (calls st)) = Succeeds m ->
  user_data (snd (select_search_mode_callback world choice (snd (start_command world upd st))))
  = {[ prompt_slot := VAtom (AInt mid); "search_mode" := VAtom (AStr (chosen_mode (data q))) ]}.
Proof.
  intros Hw Hmid Hq Hd Hw2. rewrite start_command_run, Hw. simpl snd.
  destruct st as [ud tr c]. simpl in Hw, Hw2. simpl calls. simpl user_data.
  apply Z.eqb_neq in Hmid.
  unfold select_search_mode_callback, prompt_slot, chosen_mode.
  unfold COURSE_SEARCH_MODE, PROF_SEARCH_MODE in *.
  destruct Hd as [Hd|Hd]; rewrite Hd; exec;
    destruct (world (S (S c))) as [|m2]; exec; simpl;
    rewrite insert_insert_ne by done; now rewrite insert_empty.
Qed.

(** The claim C2 makes about the context after a start trigger: the
    prompt handle and no other slot. *)
Definition holds_only_prompt (st : hstate) : Prop :=
  exists mid, user_data st = {[ prompt_slot := VAtom (AInt mid) ]}.

(** The start command typed in the middle of browsing. *)
Definition start_typed : update := Update (Some (User 42 (Some "Asha"))) None 1.

(** The start command leaves every slot but the prompt handle as it
    found it, whatever the channel does. *)
Lemma start_command_keeps_others (world : nat -> outcome) (upd : update) (st : hstate) :
  delete prompt_slot (user_data (snd (start_command world upd st)))
  = delete prompt_slot (user_data st).
Proof.
  rewrite start_command_run. destruct (world (calls st)) as [|mid]; simpl.
  - now rewrite delete_delete_eq.
  - now rewrite delete_insert_eq.
Qed.

(** C2 at its failing input: the start command typed in the middle of
    browsing twelve cached courses.  The command returns the
    action-selection state and records the handle of the new prompt,
    and the results, the cursor and the query of the search before are
    still in the context: whatever the context and the channel, the
    command leaves every slot but the handle as it found it.  The
    restart button, pressed on the same context, leaves the new handle
    and nothing else; and however it ends, unless it raises, its
    context holds the handle alone or nothing at all. *)
Theorem start_command_keeps_context :
  start_command always_ok start_typed PaginationProps.browsing_twelve
  = (Ok SELECTING_ACTION,
     HState {[ prompt_slot := VAtom (AInt 100);
               "all_course_search_results" := VItems PaginationProps.twelve_courses;
               "current_course_search_page" := VAtom (AInt 0);
               "last_search_query_course" := VAtom (AStr "CS") ]}
            (start_effects start_typed) 1)
  /\ (forall (world : nat -> outcome) (upd : update) (st : hstate),
        delete prompt_slot (user_data (snd (start_command world upd st)))
        = delete prompt_slot (user_data st))
  /\ (exists st',
        back_to_main_callback always_ok (press BACK_TO_MAIN) PaginationProps.browsing_twelve
        = (Ok SELECTING_ACTION, st')
        /\ user_data st' = {[ prompt_slot := VAtom (AInt 100) ]})
  /\ (forall (world : nat -> outcome) (upd : update) (st : hstate),
        let r := back_to_main_callback world upd st in
        (fst r = Ok SELECTING_ACTION /\ holds_only_prompt (snd r))
        \/ (fst r = Ok END /\ user_data (snd r) = ∅)
        \/ (exists e, fst r = Raise e)).
Proof.
  split; [|split; [|split]].
  - rewrite start_command_run. reflexivity.
  - exact start_command_keeps_others.
  - eexists. split; vm_compute; reflexivity.
  - intros world upd st r.
    destruct (back_to_main_callback world upd st) as [x st'] eqn:E. subst r. simpl.
    exact (back_to_main_resets world upd st x st' E).
Qed.

(** After the start command the context is not the prompt handle
    alone. *)
Lemma start_command_keeps_slots :
  ~ holds_only_prompt (snd (start_command always_ok start_typed PaginationProps.browsing_twelve)).
Proof.
  intros [mid H]. rewrite start_command_run in H. simpl in H.
  apply (f_equal (fun m => m !! "all_course_search_results")) in H.
  rewrite lookup_insert_ne in H by done.
  rewrite lookup_singleton_ne in H by done.
  vm_compute in H. discriminate H.
Qed.

(** The restart button pressed in the middle of browsing: the context
    is the new prompt handle alone. *)
Example restart_button_clears :
  exists st',
    back_to_main_callback always_ok (press BACK_TO_MAIN) PaginationProps.browsing_twelve
    = (Ok SELECTING_ACTION, st')
    /\ user_data st' = {[ prompt_slot := VAtom (AInt 100) ]}.
Proof. eexists. split; vm_compute; reflexivity. Qed.

(** The mode choice that follows the start command is what clears the
    slots the command left. *)
Example mode_choice_clears :
  exists st',
    select_search_mode_callback always_ok (press COURSE_SEARCH_MODE)
      (snd (start_command always_ok start_typed PaginationProps.browsing_twelve))
    = (Ok TYPING_COURSE, st')
    /\ user_data st' = {[ prompt_slot := VAtom (AInt 100);
                          "search_mode" := VAtom (AStr "course") ]}.
Proof. eexists. split; vm_compute; reflexivity. Qed.

End RestartProps.

(** ** Payloads of the pagination buttons: encoding and decoding *)
Module PayloadProps.
Import Keyboards Handlers HandlerProps PyProps.

(** The payload a control carries: the prefix, the identifiers each
    followed by the delimiter, the target page. *)
Definition encode (prefix : string) (identifiers : list string) (page : Z) : string :=
  prefix +:+ (match identifiers with
              | [] => ""
              | _ :: _ => join "_" identifiers +:+ "_"
              end) +:+ str_int page.

(** The builder writes exactly this payload on its controls. *)
Lemma controls_carry_encoding (current_page total_items : Z) (prefix : string)
    (parts : list atom) :
  ITEMS_PER_PAGE < total_items ->
  0 < current_page ->
  current_page < (total_items + ITEMS_PER_PAGE - 1) / ITEMS_PER_PAGE - 1 ->
  _add_pagination_buttons [] current_page total_items prefix (Some parts)
  = [[previous_button (encode prefix (map str parts) (current_page - 1));
      next_button (encode prefix (map str parts) (current_page + 1))]].
Proof.
  intros Ht Hp Hn. unfold _add_pagination_buttons, encode.
  apply Z.leb_gt in Ht. apply Z.ltb_lt in Hp. apply Z.ltb_lt in Hn.
  rewrite Ht, Hp, Hn. now destruct parts.
Qed.

(** Search results: the page comes back. *)
Lemma search_results_round_trip (prefix : string) (page : Z) :
  index (split1 prefix (encode prefix [] page)) 1 = Ok (str_int page)
  /\ int_str (str_int page) = Ok page.
Proof.
  unfold encode. simpl. rewrite split1_prefix. split; [reflexivity | apply int_str_str_int].
Qed.

(** A professor's courses: the identifier comes back whatever it is,
    since the payload is cut at its last delimiter. *)
Lemma prof_course_list_round_trip (prof_id_str : string) (page : Z) :
  index (split1 PAGE_PROF_COURSE_LIST_PREFIX
           (encode PAGE_PROF_COURSE_LIST_PREFIX [prof_id_str] page)) 1
  = Ok (prof_id_str +:+ "_" +:+ str_int page)
  /\ rsplit1 "_" (prof_id_str +:+ "_" +:+ str_int page) = [prof_id_str; str_int page]
  /\ int_str (str_int page) = Ok page.
Proof.
  unfold encode. rewrite split1_prefix. cbn [join]. rewrite append_assoc.
  split; [reflexivity|]. split; [|apply int_str_str_int].
  unfold rsplit1. change ("_" +:+ str_int page) with (String "_" (str_int page)).
  now rewrite rsplit_once_last by apply str_int_no_underscore.
Qed.

(** Terms: mode and identifier come back when neither holds the
    delimiter. *)
Lemma year_semester_round_trip (mode back_id : string) (page : Z) :
  no_char "_" mode = true ->
  no_char "_" back_id = true ->
  split_char "_" (mode +:+ "_" +:+ back_id +:+ "_" +:+ str_int page)
  = [mode; back_id; str_int page].
Proof.
  intros Hm Hb.
  change ("_" +:+ back_id +:+ "_" +:+ str_int page)
    with (String "_" (back_id +:+ String "_" (str_int page))).
  rewrite split_char_cons by assumption.
  rewrite split_char_cons by assumption.
  now rewrite split_char_none by apply str_int_no_underscore.
Qed.

(** The number of delimiters in a text. *)
Fixpoint count_char (x : ascii) (s : string) : nat :=
  match s with
  | EmptyString => O
  | String c s' => if Ascii.eqb c x then S (count_char x s') else count_char x s'
  end.

Lemma split_char_count (x : ascii) (s : string) :
  length (split_char x s) = S (count_char x s).
Proof.
  induction s as [|c s IH]; simpl; [reflexivity|].
  destruct (Ascii.eqb c x); simpl; [now rewrite IH|].
  destruct (split_char x s); simpl in *; [discriminate IH | exact IH].
Qed.

Lemma count_char_append (x : ascii) (a b : string) :
  count_char x (a +:+ b) = (count_char x a + count_char x b)%nat.
Proof.
  induction a as [|c a IH]; simpl; [reflexivity|].
  destruct (Ascii.eqb c x); simpl; now rewrite IH.
Qed.

Lemma count_char_positive (x : ascii) (s : string) :
  no_char x s = false -> (1 <= count_char x s)%nat.
Proof.
  induction s as [|c s IH]; simpl; [discriminate|].
  destruct (Ascii.eqb c x); simpl; [lia | exact IH].
Qed.

(** An identifier that holds the delimiter is cut in two by the term
    decoder, which then sees more than three parts and gives up. *)
Lemma year_semester_rejects_underscore (world : nat -> outcome) (upd : update) (q : query)
    (st : hstate) (mode back_id : string) (page : Z) :
  callback_query upd = Some q ->
  data q = encode PAGE_YEAR_SEMESTER_PREFIX [mode; back_id] page ->
  no_char "_" back_id = false ->
  page_year_semester_list_callback world upd st = (Ok END, st).
Proof.
  intros Hq Hd Hb. unfold page_year_semester_list_callback.
  unfold mbind at 1, M_bind at 1, try_catch. unfold mbind at 1, M_bind at 1.
  rewrite (PaginationProps.payload_after_run _ upd q st Hq), Hd.
  unfold encode. rewrite split1_prefix. cbn [index nth_error].
  assert (Hlen : (4 <= length (split_char "_"
                                 ((join "_" [mode; back_id] +:+ "_") +:+ str_int page)))%nat).
  { rewrite split_char_count. cbn [join]. rewrite !count_char_append.
    apply count_char_positive in Hb. simpl. lia. }
  destruct (length _) as [|[|[|[|n]]]] eqn:E; try lia.
  reflexivity.
Qed.

(** Nine terms of one course, one per year. *)
Definition term (y s : string) : item :=
  {[ "academic_year" := AStr y; "semester" := AStr s ]}.

Definition nine_terms : list item :=
  map (fun y => term y "Odd")
    ["2015-16"; "2016-17"; "2017-18"; "2018-19"; "2019-20"; "2020-21"; "2021-22"; "2022-23";
     "2023-24"].

(** C4 at its failing input: the course code [CS_101].  The term
    keyboard of that course puts the payload [p_ys_course_CS_101_1]
    on its Next control; the decoder of that prefix cuts it into four
    parts, not three, and ends the conversation without rendering or
    touching the state.  The decoder of the professor-course prefix,
    which cuts at the last delimiter only, gets the same identifier
    back. *)
Theorem year_semester_payload_is_not_decoded :
  (exists rows footer,
     create_year_semester_keyboard nine_terms (AStr "CS_101") (AStr "course") 0
     = Ok (rows ++ [[next_button "p_ys_course_CS_101_1"]] ++ [footer])
     /\ length rows = 8%nat)
  /\ encode PAGE_YEAR_SEMESTER_PREFIX ["course"; "CS_101"] 1 = "p_ys_course_CS_101_1"
  /\ split_char "_" "course_CS_101_1" = ["course"; "CS"; "101"; "1"]
  /\ (forall (world : nat -> outcome) (st : hstate),
        page_year_semester_list_callback world (press "p_ys_course_CS_101_1") st = (Ok END, st))
  /\ rsplit1 "_" "CS_101_1" = ["CS_101"; "1"].
Proof.
  split; [|split; [|split; [|split]]].
  - exists (map (term_row (AStr "course") (AStr "CS_101"))
              (map (fun y => term y "Odd")
                 ["2023-24"; "2022-23"; "2021-22"; "2020-21"; "2019-20"; "2018-19"; "2017-18";
                  "2016-17"])).
    eexists. split; vm_compute; reflexivity.
  - reflexivity.
  - reflexivity.
  - intros world st.
    apply (year_semester_rejects_underscore world _ (Query "p_ys_course_CS_101_1" 7 1 true) st
             "course" "CS_101" 1); reflexivity.
  - reflexivity.
Qed.

End PayloadProps.

(** ** The order of the terms on the year/semester keyboard *)
Module TermOrderProps.
Import Keyboards PageProps.

(** [a] stands before [b] in [l]. *)
Definition before {A} (l : list A) (a b : A) : Prop :=
  exists l1 l2, l = l1 ++ a :: l2 /\ b ∈ l2.

Lemma before_nil {A} (a b : A) : ~ before [] a b.
Proof. intros (l1 & l2 & E & _). destruct l1; discriminate E. Qed.

Lemma before_cons {A} (y : A) (l : list A) (a b : A) :
  before (y :: l) a b <-> (a = y /\ b ∈ l) \/ before l a b.
Proof.
  split.
  - intros (l1 & l2 & E & Hb). destruct l1 as [|z l1]; simpl in E; inversion E; subst.
    + left. now split.
    + right. now exists l1, l2.
  - intros [[-> Hb]|(l1 & l2 & -> & Hb)].
    + now exists [], l.
    + now exists (y :: l1), l2.
Qed.

Lemma before_snoc {A} (l : list A) (k a b : A) :
  before (l ++ [k]) a b -> before l a b \/ (b = k /\ a ∈ l).
Proof.
  intros (l1 & l2 & E & Hb).
  destruct l2 as [|z l2 _] using rev_ind; [now apply elem_of_nil in Hb|].
  change (l1 ++ a :: l2 ++ [z]) with (l1 ++ (a :: l2) ++ [z]) in E.
  rewrite app_assoc in E. apply app_inj_tail in E as [-> ->].
  apply elem_of_app in Hb as [Hb|Hb].
  - left. now exists l1, l2.
  - apply list_elem_of_singleton in Hb as ->. right. split; [reflexivity|].
    apply elem_of_app. right. left.
Qed.

Lemma before_elem {A} (l : list A) (a b : A) : before l a b -> a ∈ l /\ b ∈ l.
Proof.
  intros (l1 & l2 & -> & Hb). split; apply elem_of_app; right; [left | now right].
Qed.

Lemma elem_of_map_iff {A B} (f : A -> B) (l : list A) (y : B) :
  y ∈ map f l <-> exists x, f x = y /\ x ∈ l.
Proof.
  rewrite list_elem_of_In, in_map_iff. split; intros (x & Hx & Hin); exists x;
    (split; [exact Hx|]); now apply list_elem_of_In.
Qed.

Lemma before_map {A B} (f : A -> B) (l : list A) (a b : A) :
  before l a b -> before (map f l) (f a) (f b).
Proof.
  intros (l1 & l2 & -> & Hb). exists (map f l1), (map f l2). split.
  - now rewrite map_app.
  - apply elem_of_map_iff. now exists b.
Qed.

Lemma before_map_inv {A B} (f : A -> B) (l : list A) (a' b' : B) :
  before (map f l) a' b' -> exists a b, f a = a' /\ f b = b' /\ before l a b.
Proof.
  intros (l1 & l2 & E & Hb).
  apply map_eq_app in E as (m1 & m2 & -> & _ & E).
  apply map_eq_cons in E as (a & m3 & -> & Ha & <-).
  apply elem_of_map_iff in Hb as (b & Hb & Hin).
  exists a, b. split; [exact Ha|]. split; [exact Hb|]. now exists m1, m3.
Qed.

(** *** The stable sort *)
Section StableSort.

Context {K A : Type} (leb : K -> K -> bool).
Hypothesis leb_total : forall a b, leb a b = false -> leb b a = true.
Hypothesis leb_trans : forall a b c, leb a b = true -> leb b c = true -> leb a c = true.

Definition by_key (x y : K * A) : Prop := leb (fst x) (fst y) = true.

Lemma insert_sorted_perm (x : K * A) (l : list (K * A)) :
  insert_sorted leb x l ≡ₚ x :: l.
Proof.
  induction l as [|y l IH]; simpl; [reflexivity|].
  destruct (leb (fst x) (fst y)); [reflexivity|].
  rewrite IH. apply perm_swap.
Qed.

Lemma sort_by_key_perm (l : list (K * A)) : sort_by_key leb l ≡ₚ l.
Proof.
  induction l as [|x l IH]; simpl; [reflexivity|].
  rewrite insert_sorted_perm. now rewrite IH.
Qed.

Lemma insert_sorted_sorted (x : K * A) (l : list (K * A)) :
  StronglySorted by_key l -> StronglySorted by_key (insert_sorted leb x l).
Proof.
  induction 1 as [|y l Hs IH Hy]; simpl; [repeat constructor|].
  destruct (leb (fst x) (fst y)) eqn:E.
  - constructor; [now constructor|].
    constructor; [exact E|].
    eapply Forall_impl; [exact Hy|]. intros z Hz. unfold by_key in *. eauto.
  - constructor; [exact IH|].
    rewrite (insert_sorted_perm x l). constructor; [|exact Hy].
    unfold by_key. now apply leb_total.
Qed.

Lemma sort_by_key_sorted (l : list (K * A)) : StronglySorted by_key (sort_by_key leb l).
Proof.
  induction l as [|x l IH]; simpl; [constructor | now apply insert_sorted_sorted].
Qed.

(** The sort is stable: of two entries neither of which the order
    puts first, the one that stood first still does. *)
Lemma insert_sorted_before (x : K * A) (l : list (K * A)) (a b : K * A) :
  before (insert_sorted leb x l) a b ->
  leb (fst b) (fst a) = true ->
  before (x :: l) a b.
Proof.
  intros H Hba. induction l as [|y l IH]; simpl in H; [exact H|].
  destruct (leb (fst x) (fst y)) eqn:E; [exact H|].
  apply before_cons in H as [[-> Hb]|H].
  - rewrite insert_sorted_perm in Hb. apply elem_of_cons in Hb as [->|Hb]; [congruence|].
    apply before_cons. right. apply before_cons. left. now split.
  - apply IH, before_cons in H as [[-> Hb]|H].
    + apply before_cons. left. split; [reflexivity | now right].
    + apply before_cons. right. apply before_cons. now right.
Qed.

Lemma sort_by_key_before (l : list (K * A)) (a b : K * A) :
  before (sort_by_key leb l) a b ->
  leb (fst b) (fst a) = true ->
  before l a b.
Proof.
  intros H Hba. induction l as [|x l IH]; simpl in H; [exact H|].
  apply insert_sorted_before in H; [|exact Hba].
  apply before_cons in H as [[-> Hb]|H]; apply before_cons.
  - left. split; [reflexivity|]. now rewrite sort_by_key_perm in Hb.
  - right. now apply IH.
Qed.

End StableSort.

(** The tuple order of the sort keys. *)
Definition key_le (a b : Z * Z) : Prop := key_leb a b = true.

Lemma key_leb_total (a b : Z * Z) : key_leb a b = false -> key_leb b a = true.
Proof.
  unfold key_leb. destruct a as [a1 a2], b as [b1 b2]. simpl. intros H.
  apply orb_false_iff in H as [H1 H2]. apply Z.ltb_ge in H1.
  apply orb_true_iff.
  destruct (Z.eqb_spec a1 b1) as [->|Hne].
  - right. rewrite Z.eqb_refl. simpl in *. apply Z.leb_le. apply Z.leb_gt in H2. lia.
  - left. apply Z.ltb_lt. lia.
Qed.

Lemma key_leb_trans (a b c : Z * Z) :
  key_leb a b = true -> key_leb b c = true -> key_leb a c = true.
Proof.
  unfold key_leb. destruct a as [a1 a2], b as [b1 b2], c as [c1 c2]. simpl.
  rewrite !orb_true_iff, !andb_true_iff, !Z.ltb_lt, !Z.eqb_eq, !Z.leb_le. lia.
Qed.

Lemma key_le_antisym (a b : Z * Z) : key_le a b -> key_le b a -> a = b.
Proof.
  unfold key_le, key_leb. destruct a as [a1 a2], b as [b1 b2]. simpl.
  rewrite !orb_true_iff, !andb_true_iff, !Z.ltb_lt, !Z.eqb_eq, !Z.leb_le.
  intros H1 H2. f_equal; lia.
Qed.

(** *** De-duplication *)

(** The pair a term is filed and shown under. *)
Definition tkey (t : item) : term_key := (get t "academic_year", get t "semester").

(** A key of two non-empty texts. *)
Definition text_key (k : term_key) : Prop :=
  exists y s, k = (AStr y, AStr s) /\ y <> "" /\ s <> "".

Lemma key_eq_text (k1 k2 : term_key) :
  text_key k1 -> text_key k2 -> (key_eq k1 k2 = true <-> k1 = k2).
Proof.
  intros (y1 & s1 & -> & _) (y2 & s2 & -> & _). unfold key_eq. simpl.
  rewrite andb_true_iff, !String.eqb_eq. split.
  - intros [-> ->]. reflexivity.
  - intros H. inversion H. now split.
Qed.

Lemma text_key_truthy (k : term_key) :
  text_key k -> truthy (fst k) && truthy (snd k) = true.
Proof.
  intros (y & s & -> & Hy & Hs). simpl.
  apply String.eqb_neq in Hy. apply String.eqb_neq in Hs. now rewrite Hy, Hs.
Qed.

(** What holds of the dictionary while it is filled from [src]: no
    key twice, every entry a term of [src] filed under its own key. *)
Definition filed (src : list item) (d : list (term_key * item)) : Prop :=
  NoDup (map fst d)
  /\ Forall (fun p => text_key (fst p) /\ tkey (snd p) = fst p /\ snd p ∈ src) d.

Lemma dict_set_filed (src : list item) (v : item) (d : list (term_key * item)) :
  text_key (tkey v) -> v ∈ src -> filed src d ->
  filed src (dict_set (tkey v) v d)
  /\ (forall k, k ∈ map fst (dict_set (tkey v) v d) <-> k = tkey v \/ k ∈ map fst d).
Proof.
  intros Hk Hv. induction d as [|[k0 v0] d IH]; intros [Hnd Hall].
  - simpl. split.
    + split; [repeat constructor; set_solver|]. repeat constructor; assumption.
    + intros k. set_solver.
  - simpl in Hnd. apply NoDup_cons in Hnd as [Hk0 Hnd].
    apply Forall_cons in Hall as [(Ht0 & He0 & Hs0) Hall]. simpl in Ht0, He0, Hs0.
    simpl. destruct (key_eq (tkey v) k0) eqn:E.
    + apply (key_eq_text _ _ Hk Ht0) in E. subst k0. split.
      * split; [simpl; now apply NoDup_cons|].
        apply Forall_cons. split; [now repeat split | exact Hall].
      * intros k. simpl. rewrite !elem_of_cons, E. tauto.
    + destruct (IH (conj Hnd Hall)) as [[Hnd' Hall'] Hkeys].
      assert (Hne : tkey v <> k0).
      { intros Heq.
        assert (Ht : key_eq (tkey v) k0 = true) by (now apply key_eq_text).
        congruence. }
      split.
      * split.
        -- simpl. apply NoDup_cons. split; [|exact Hnd'].
           rewrite Hkeys. intros [->|Hin]; [now apply Hne | now apply Hk0].
        -- apply Forall_cons. split; [now repeat split | exact Hall'].
      * intros k. simpl. rewrite !elem_of_cons, Hkeys. tauto.
Qed.

Lemma dedup_terms_filed (src terms : list item) (acc : list (term_key * item)) :
  Forall (fun t => text_key (tkey t) /\ t ∈ src) terms ->
  filed src acc ->
  filed src (dedup_terms terms acc)
  /\ (forall k, k ∈ map fst (dedup_terms terms acc)
                <-> k ∈ map fst acc \/ exists t, t ∈ terms /\ tkey t = k).
Proof.
  revert acc. induction terms as [|t terms IH]; intros acc Hterms Hacc.
  - simpl. split; [exact Hacc|]. intros k. split; [now left|].
    intros [H|(t & Ht & _)]; [exact H | now apply elem_of_nil in Ht].
  - apply Forall_cons in Hterms as [[Hk Hin] Hterms].
    simpl. change (get t "academic_year", get t "semester") with (tkey t).
    pose proof (text_key_truthy _ Hk) as Htr.
    change (truthy (get t "academic_year") && truthy (get t "semester"))
      with (truthy (fst (tkey t)) && truthy (snd (tkey t))).
    rewrite Htr.
    destruct (dict_set_filed src t acc Hk Hin Hacc) as [Hf Hkeys].
    destruct (IH _ Hterms Hf) as [Hf' Hkeys'].
    split; [exact Hf'|].
    intros k. rewrite Hkeys', Hkeys. split.
    + intros [[->|H]|(t' & Ht' & <-)].
      * right. exists t. split; [left | reflexivity].
      * now left.
      * right. exists t'. split; [now right | reflexivity].
    + intros [H|(t' & Ht' & <-)].
      * left. now right.
      * apply elem_of_cons in Ht' as [->|Ht']; [left; now left|].
        right. now exists t'.
Qed.

(** *** The sorted terms *)

(** The sort key read off the pair a term is filed under. *)
Definition key_sort_key (k : term_key) : result (Z * Z) :=
  match fst k with
  | AStr y =>
      first ← index (split_char "-" y) 0;
      n ← int_str first;
      mret (- n, sem_rank (snd k))
  | _ => Raise AttributeError
  end.

Lemma sort_key_of_tkey (t : item) : sort_key t = key_sort_key (tkey t).
Proof. reflexivity. Qed.

(** The sort key of a term, where it has one. *)
Definition display_key (t : item) : Z * Z :=
  match sort_key t with
  | Ok k => k
  | Raise _ => (0, 0)
  end.

(** A term the sort accepts: its pair is of two non-empty texts and
    it has a sort key. *)
Definition sortable (t : item) : Prop :=
  text_key (tkey t) /\ exists k, sort_key t = Ok k.

Lemma sort_key_display (t : item) : sortable t -> sort_key t = Ok (display_key t).
Proof. intros [_ [k Hk]]. unfold display_key. now rewrite Hk. Qed.

Definition with_key (v : item) : (Z * Z) * item := (display_key v, v).

Lemma keyed_sortable (l : list item) :
  Forall sortable l -> keyed l = Ok (map with_key l).
Proof.
  induction 1 as [|v l Hv _ IH]; simpl; [reflexivity|].
  rewrite (sort_key_display v Hv). simpl. rewrite IH. reflexivity.
Qed.

Lemma strongly_sorted_map {A B} (R : A -> A -> Prop) (Q : B -> B -> Prop) (f : A -> B)
    (l : list A) :
  (forall x y, R x y -> Q (f x) (f y)) ->
  StronglySorted R l -> StronglySorted Q (map f l).
Proof.
  intros Hf. induction 1 as [|x l _ IH Hx]; simpl; constructor; [exact IH|].
  apply Forall_forall. intros y Hy. apply list_elem_of_In, in_map_iff in Hy as (z & <- & Hz).
  apply Hf. rewrite Forall_forall in Hx. apply Hx. now apply list_elem_of_In.
Qed.

(** The list the keyboard pages through: every well-formed term is
    there once under its (year, semester) pair, and the list is in
    the order of the sort keys. *)
Lemma sorted_terms_spec (terms : list item) :
  Forall sortable terms ->
  exists sorted,
    sorted_terms_of terms = Ok sorted
    /\ (forall v, v ∈ sorted -> v ∈ terms)
    /\ NoDup (map tkey sorted)
    /\ (forall t, t ∈ terms -> tkey t ∈ map tkey sorted)
    /\ StronglySorted key_le (map display_key sorted).
Proof.
  intros Hwf.
  assert (Hsrc : Forall (fun t => text_key (tkey t) /\ t ∈ terms) terms).
  { apply Forall_forall. intros t Ht. rewrite Forall_forall in Hwf.
    split; [apply (Hwf t Ht) | exact Ht]. }
  destruct (dedup_terms_filed terms terms [] Hsrc) as [[Hnd Hall] Hkeys].
  { split; [constructor | constructor]. }
  set (d := dedup_terms terms []) in *.
  assert (Hval : forall v, v ∈ map snd d -> v ∈ terms).
  { intros v Hv. apply elem_of_map_iff in Hv as (p & <- & Hp).
    rewrite Forall_forall in Hall. apply (Hall p Hp). }
  assert (Hk : map tkey (map snd d) = map fst d).
  { rewrite map_map. apply map_ext_in. intros p Hp. apply list_elem_of_In in Hp.
    rewrite Forall_forall in Hall. apply (Hall p Hp). }
  assert (Hwfd : Forall sortable (map snd d)).
  { apply Forall_forall. intros v Hv. rewrite Forall_forall in Hwf. apply Hwf, Hval, Hv. }
  set (pairs := sort_by_key key_leb (map with_key (map snd d))).
  assert (Hperm : pairs ≡ₚ map with_key (map snd d)) by apply sort_by_key_perm.
  assert (Hsnd : map snd pairs ≡ₚ map snd d).
  { rewrite Hperm. rewrite map_map. simpl. now rewrite map_id. }
  assert (Hfst : map fst pairs = map display_key (map snd pairs)).
  { rewrite map_map. apply map_ext_in. intros p Hp. apply list_elem_of_In in Hp.
    rewrite Hperm in Hp. apply elem_of_map_iff in Hp as (v & <- & _). reflexivity. }
  exists (map snd pairs). split; [|split; [|split; [|split]]].
  - unfold sorted_terms_of. fold d. rewrite (keyed_sortable _ Hwfd). reflexivity.
  - intros v Hv. rewrite Hsnd in Hv. now apply Hval.
  - rewrite Hsnd, Hk. exact Hnd.
  - intros t Ht. rewrite Hsnd, Hk. apply Hkeys. right. now exists t.
  - rewrite <- Hfst.
    apply (strongly_sorted_map (by_key key_leb) key_le fst); [now intros x y H|].
    apply sort_by_key_sorted; [apply key_leb_total | apply key_leb_trans].
Qed.

(** *** Arrival order *)

(** Filing a term under its pair: a pair already there keeps its
    place, a new one goes to the end. *)
Lemma dict_set_keys (v : item) (d : list (term_key * item)) :
  text_key (tkey v) ->
  Forall (fun p => text_key (fst p)) d ->
  (tkey v ∈ map fst d /\ map fst (dict_set (tkey v) v d) = map fst d)
  \/ ((tkey v ∉ map fst d) /\ map fst (dict_set (tkey v) v d) = map fst d ++ [tkey v]).
Proof.
  intros Hk. induction 1 as [|[k0 v0] d Hk0 _ IH]; simpl.
  - right. split; [apply not_elem_of_nil | reflexivity].
  - simpl in Hk0. destruct (key_eq (tkey v) k0) eqn:E.
    + apply (key_eq_text _ _ Hk Hk0) in E. left. split; [rewrite E; left | reflexivity].
    + assert (Hne : tkey v <> k0).
      { intros Heq. apply (key_eq_text _ _ Hk Hk0) in Heq. congruence. }
      destruct IH as [[Hin E']|[Hout E']]; simpl; rewrite E'.
      * left. split; [now right | reflexivity].
      * right. split; [|reflexivity]. intros Hin. apply elem_of_cons in Hin as [?|?]; auto.
Qed.

Lemma dedup_terms_snoc (terms : list item) (t : item) (acc : list (term_key * item)) :
  text_key (tkey t) ->
  dedup_terms (terms ++ [t]) acc = dict_set (tkey t) t (dedup_terms terms acc).
Proof.
  intros Hk. revert acc. induction terms as [|t0 terms IH]; intros acc; simpl.
  - change (truthy (get t "academic_year") && truthy (get t "semester"))
      with (truthy (fst (tkey t)) && truthy (snd (tkey t))).
    now rewrite (text_key_truthy _ Hk).
  - destruct (_ && _); apply IH.
Qed.

(** The pairs of the dictionary stand in the order in which they were
    first seen: a pair that stands before another occurs in the input
    before the other ever does. *)
Lemma dedup_first_seen (terms : list item) (k1 k2 : term_key) :
  Forall (fun t => text_key (tkey t)) terms ->
  before (map fst (dedup_terms terms [])) k1 k2 ->
  exists t1 t2, map tkey terms = t1 ++ k1 :: t2 /\ k2 ∉ t1.
Proof.
  induction terms as [|t terms IH] using rev_ind; intros Hwf Hb.
  - now apply before_nil in Hb.
  - apply Forall_app in Hwf as [Hwf Ht]. apply Forall_cons in Ht as [Ht _].
    assert (Hsrc : Forall (fun t => text_key (tkey t) /\ t ∈ terms) terms).
    { apply Forall_forall. intros x Hx. rewrite Forall_forall in Hwf. split; auto. }
    destruct (dedup_terms_filed terms terms [] Hsrc) as [[_ Hall] Hkeys];
      [split; constructor|].
    assert (Hin : forall k, k ∈ map fst (dedup_terms terms []) <-> k ∈ map tkey terms).
    { intros k. rewrite Hkeys. split.
      - intros [H|(x & Hx & <-)]; [now apply elem_of_nil in H|].
        apply elem_of_map_iff. now exists x.
      - intros H. apply elem_of_map_iff in H as (x & <- & Hx). right. now exists x. }
    assert (Htext : Forall (fun p => text_key (fst p)) (dedup_terms terms [])).
    { eapply Forall_impl; [exact Hall|]. now intros p [H _]. }
    assert (Hold : before (map fst (dedup_terms terms [])) k1 k2 ->
                   exists t1 t2, map tkey (terms ++ [t]) = t1 ++ k1 :: t2 /\ k2 ∉ t1).
    { intros H. destruct (IH Hwf H) as (t1 & t2 & E & Hout).
      exists t1, (t2 ++ [tkey t]). split; [|exact Hout].
      rewrite map_app, E, <- app_assoc. reflexivity. }
    rewrite (dedup_terms_snoc terms t [] Ht) in Hb.
    destruct (dict_set_keys t _ Ht Htext) as [[_ E]|[Hnew E]]; rewrite E in Hb.
    + now apply Hold.
    + apply before_snoc in Hb as [Hb|[-> Hk1]]; [now apply Hold|].
      apply Hin, list_elem_of_split in Hk1 as (t1 & t2 & E1).
      exists t1, (t2 ++ [tkey t]). split.
      * rewrite map_app, E1, <- app_assoc. reflexivity.
      * intros Hk2. apply Hnew, Hin. rewrite E1. apply elem_of_app. now left.
Qed.

(** The sort key as a function of the pair. *)
Definition key_display (k : term_key) : Z * Z :=
  match key_sort_key k with
  | Ok x => x
  | Raise _ => (0, 0)
  end.

Lemma display_key_of_tkey (t : item) : display_key t = key_display (tkey t).
Proof. reflexivity. Qed.

(** Sorting is stable: two pairs the sort key does not tell apart
    leave the sort in the order they stood in the dictionary. *)
Lemma sorted_terms_stable (terms sorted : list item) (k1 k2 : term_key) :
  Forall sortable terms ->
  sorted_terms_of terms = Ok sorted ->
  before (map tkey sorted) k1 k2 ->
  key_leb (key_display k2) (key_display k1) = true ->
  before (map fst (dedup_terms terms [])) k1 k2.
Proof.
  intros Hwf Hs Hb Hle.
  assert (Hsrc : Forall (fun t => text_key (tkey t) /\ t ∈ terms) terms).
  { apply Forall_forall. intros t Ht. rewrite Forall_forall in Hwf.
    split; [apply (Hwf t Ht) | exact Ht]. }
  destruct (dedup_terms_filed terms terms [] Hsrc) as [[_ Hall] _]; [split; constructor|].
  unfold sorted_terms_of in Hs.
  set (d := dedup_terms terms []) in *.
  assert (Hwfd : Forall sortable (map snd d)).
  { apply Forall_forall. intros v Hv. apply elem_of_map_iff in Hv as (p & <- & Hp).
    rewrite Forall_forall in Hall. rewrite Forall_forall in Hwf. apply Hwf, (Hall p Hp). }
  rewrite (keyed_sortable _ Hwfd) in Hs. simpl in Hs. inversion Hs as [Hs']. clear Hs.
  rewrite <- Hs' in Hb. clear Hs'.
  set (pairs := sort_by_key key_leb (map with_key (map snd d))) in *.
  rewrite map_map in Hb.
  apply before_map_inv in Hb as (p1 & p2 & <- & <- & Hb).
  assert (Hfst : forall p, p ∈ pairs -> fst p = key_display (tkey (snd p))).
  { intros p Hp. unfold pairs in Hp. rewrite sort_by_key_perm in Hp.
    apply elem_of_map_iff in Hp as (v & <- & _). reflexivity. }
  destruct (before_elem _ _ _ Hb) as [Hp1 Hp2].
  apply sort_by_key_before in Hb; [|now rewrite (Hfst p1 Hp1), (Hfst p2 Hp2)].
  rewrite map_map in Hb.
  apply before_map_inv in Hb as (e1 & e2 & <- & <- & Hb).
  destruct (before_elem _ _ _ Hb) as [He1 He2].
  rewrite Forall_forall in Hall.
  destruct (Hall e1 He1) as (_ & E1 & _). destruct (Hall e2 He2) as (_ & E2 & _).
  simpl. rewrite E1, E2. now apply before_map.
Qed.

(** *** The keyboard *)

Import ControlsProps.

Definition footer_row (mode back_id : atom) : list button :=
  [Button "⬅️ Back" (if py_eq mode (AStr "course") then BACK_TO_COURSE_SEARCH_LIST
                     else BACK_TO_PROF_COURSE_LIST_PREFIX +:+ str back_id);
   Button "❌ Cancel" CANCEL].

Lemma year_semester_keyboard_of_sorted (terms sorted : list item) (back_id mode : atom) (p : Z) :
  sorted_terms_of terms = Ok sorted ->
  create_year_semester_keyboard terms back_id mode p
  = Ok (map (term_row mode back_id)
          (slice sorted (p * ITEMS_PER_PAGE) (p * ITEMS_PER_PAGE + ITEMS_PER_PAGE))
        ++ _add_pagination_buttons [] p (Z.of_nat (length sorted)) PAGE_YEAR_SEMESTER_PREFIX
             (Some [mode; back_id])
        ++ [footer_row mode back_id]).
Proof.
  intros H. unfold create_year_semester_keyboard. rewrite H. simpl.
  rewrite add_pagination_buttons_appends. now rewrite <- app_assoc.
Qed.

(** A row shows the pair of the term and nothing else of it. *)
Definition key_row (mode back_id : atom) (k : term_key) : list button :=
  [Button (str (fst k) +:+ " (" +:+ str (snd k) +:+ ")")
          (YEAR_SEM_SELECT_PREFIX +:+ str (fst k) +:+ "|" +:+ str (snd k) +:+ "|" +:+ str mode
           +:+ "|" +:+ str back_id)].

Lemma term_row_of_key (mode back_id : atom) (t : item) :
  term_row mode back_id t = key_row mode back_id (tkey t).
Proof. reflexivity. Qed.

Lemma slice_map {A B} (f : A -> B) (l : list A) (a b : Z) :
  slice (map f l) a b = map f (slice l a b).
Proof. unfold slice. rewrite length_map. now rewrite skipn_map, firstn_map. Qed.

Lemma map_eq_through {A B C} (f : A -> B) (g : A -> C) (l1 l2 : list A) :
  map f l1 = map f l2 ->
  (forall x y, x ∈ l1 -> y ∈ l2 -> f x = f y -> g x = g y) ->
  map g l1 = map g l2.
Proof.
  revert l2. induction l1 as [|x l1 IH]; intros [|y l2] E H; simpl in *; try discriminate E.
  - reflexivity.
  - inversion E as [[Exy El]]. f_equal.
    + apply H; [left | left | exact Exy].
    + apply IH; [exact El|]. intros x' y' Hx Hy. apply H; now right.
Qed.

(** The keyboard in terms of the pairs it pages through. *)
Lemma year_semester_keyboard_of_keys (terms sorted : list item) (back_id mode : atom) (p : Z) :
  sorted_terms_of terms = Ok sorted ->
  create_year_semester_keyboard terms back_id mode p
  = Ok (map (key_row mode back_id)
          (slice (map tkey sorted) (p * ITEMS_PER_PAGE) (p * ITEMS_PER_PAGE + ITEMS_PER_PAGE))
        ++ _add_pagination_buttons [] p (Z.of_nat (length (map tkey sorted)))
             PAGE_YEAR_SEMESTER_PREFIX (Some [mode; back_id])
        ++ [footer_row mode back_id]).
Proof.
  intros H. rewrite (year_semester_keyboard_of_sorted terms sorted back_id mode p H).
  rewrite length_map, slice_map, map_map.
  now rewrite (map_ext _ _ (term_row_of_key mode back_id)).
Qed.

(** Two arrival orders of terms among which no two different pairs
    have the same sort key give the same keyboard. *)
Lemma same_keyboard_without_equal_keys (terms terms' : list item) (back_id mode : atom) (p : Z) :
  Forall sortable terms ->
  Permutation terms terms' ->
  (forall t1 t2, In t1 terms -> In t2 terms ->
                 sort_key t1 = sort_key t2 -> tkey t1 = tkey t2) ->
  create_year_semester_keyboard terms' back_id mode p
  = create_year_semester_keyboard terms back_id mode p.
Proof.
  intros Hwf.
  destruct (sorted_terms_spec terms Hwf) as (s1 & E1 & Hin1 & Hnd1 & Hall1 & Hs1).
  pose proof Hwf as Hwf0. rewrite Forall_forall in Hwf0.
  revert terms'.
  intros terms' Hperm Hinj.
  assert (Hwf' : Forall sortable terms') by now rewrite <- Hperm.
  destruct (sorted_terms_spec terms' Hwf') as (s2 & E2 & Hin2 & Hnd2 & Hall2 & Hs2).
  rewrite (year_semester_keyboard_of_sorted terms s1 back_id mode p E1).
  rewrite (year_semester_keyboard_of_sorted terms' s2 back_id mode p E2).
  assert (Hkeys : map tkey s1 ≡ₚ map tkey s2).
  { apply NoDup_Permutation; [assumption | assumption|]. intros k. split.
    - intros Hk. apply elem_of_map_iff in Hk as (v & <- & Hv).
      apply Hall2. rewrite <- Hperm. now apply Hin1.
    - intros Hk. apply elem_of_map_iff in Hk as (v & <- & Hv).
      apply Hall1. rewrite Hperm. now apply Hin2. }
  assert (Hdk : forall l, map display_key l = map key_display (map tkey l)).
  { intros l. now rewrite map_map. }
  assert (Hsame : map display_key s1 = map display_key s2).
  { apply (StronglySorted_unique_strong key_le); [|assumption|assumption|].
    - intros x y _ _. apply key_le_antisym.
    - rewrite !Hdk. now apply Permutation_map. }
  assert (Htk : map tkey s1 = map tkey s2).
  { apply (map_eq_through display_key tkey s1 s2 Hsame).
    intros x y Hx Hy Hxy.
    assert (Hx' : x ∈ terms) by now apply Hin1.
    assert (Hy' : y ∈ terms) by (rewrite Hperm; now apply Hin2).
    apply Hinj; [now apply list_elem_of_In | now apply list_elem_of_In|].
    rewrite (sort_key_display x (Hwf0 x Hx')), (sort_key_display y (Hwf0 y Hy')).
    now rewrite Hxy. }
  assert (Hlen : length s2 = length s1).
  { rewrite <- (length_map tkey s2), <- (length_map tkey s1). now rewrite Htk. }
  rewrite Hlen. do 2 f_equal.
  rewrite !(map_ext _ _ (term_row_of_key mode back_id)).
  rewrite <- !(map_map tkey (key_row mode back_id)).
  rewrite <- !slice_map. now rewrite Htk.
Qed.

(** *** The order the specification asks for *)

(** The fixed enumeration of the semesters. *)
Definition enumeration : list string := ["Odd"; "Even"; "Summer"].

(** The place of a text in a list; a text that is not there has the
    place after the last. *)
Fixpoint place_in (l : list string) (s : string) : nat :=
  match l with
  | [] => O
  | x :: l' => if String.eqb s x then O else S (place_in l' s)
  end.

(** What an academic year reads before its first dash. *)
Fixpoint before_dash (y : string) : string :=
  match y with
  | EmptyString => EmptyString
  | String c r => if Ascii.eqb c "-" then EmptyString else String c (before_dash r)
  end.

(** The year a (year, semester) pair starts in, and the place of its
    semester in the enumeration. *)
Definition key_year (k : term_key) : Z :=
  match fst k with
  | AStr y => match int_str (before_dash y) with Ok n => n | Raise _ => 0 end
  | _ => 0
  end.

Definition key_place (k : term_key) : nat :=
  match snd k with
  | AStr s => place_in enumeration s
  | _ => length enumeration
  end.

(** [a] may stand before [b]: it is of a later year, or of the same
    year and its semester does not come after that of [b] in the
    enumeration. *)
Definition key_before (a b : term_key) : Prop :=
  key_year b < key_year a
  \/ (key_year a = key_year b /\ (key_place a <= key_place b)%nat).

(** Year and enumeration do not tell [a] and [b] apart. *)
Definition key_tie (a b : term_key) : Prop :=
  key_year a = key_year b /\ key_place a = key_place b.

(** A pair the keyboard can show: year and semester are non-empty
    texts and the year reads as a number before its first dash. *)
Definition good_key (k : term_key) : Prop :=
  exists y s n, k = (AStr y, AStr s) /\ y <> "" /\ s <> "" /\ int_str (before_dash y) = Ok n.

Definition well_formed (t : item) : Prop := good_key (tkey t).

Lemma first_part_before_dash (y : string) :
  index (split_char "-" y) 0 = Ok (before_dash y).
Proof.
  induction y as [|c y IH]; simpl; [reflexivity|].
  destruct (Ascii.eqb c "-"); [reflexivity|].
  destruct (split_char "-" y) as [|w ws]; [discriminate IH|].
  inversion IH. reflexivity.
Qed.

(** The ranks of the sort follow the enumeration. *)
Lemma sem_rank_enumeration (s1 s2 : string) :
  (sem_rank (AStr s1) <= sem_rank (AStr s2)
   <-> (place_in enumeration s1 <= place_in enumeration s2)%nat)
  /\ (sem_rank (AStr s1) = sem_rank (AStr s2)
      <-> place_in enumeration s1 = place_in enumeration s2).
Proof.
  unfold sem_rank, enumeration, place_in.
  destruct (String.eqb s1 "Odd"), (String.eqb s1 "Even"), (String.eqb s1 "Summer"),
    (String.eqb s2 "Odd"), (String.eqb s2 "Even"), (String.eqb s2 "Summer");
    split; split; intros; lia.
Qed.

Lemma good_key_sort_key (k : term_key) :
  good_key k ->
  exists s, snd k = AStr s
            /\ key_sort_key k = Ok (- key_year k, sem_rank (AStr s))
            /\ key_place k = place_in enumeration s.
Proof.
  intros (y & s & n & -> & _ & _ & Hn). exists s.
  unfold key_sort_key, key_year, key_place. simpl.
  rewrite first_part_before_dash. simpl. rewrite Hn. simpl. now repeat split.
Qed.

Lemma good_key_text (k : term_key) : good_key k -> text_key k.
Proof. intros (y & s & n & -> & Hy & Hs & _). exists y, s. repeat split; assumption. Qed.

Lemma well_formed_sortable (t : item) : well_formed t -> sortable t.
Proof.
  intros H. split; [now apply good_key_text|].
  destruct (good_key_sort_key _ H) as (s & _ & E & _).
  rewrite sort_key_of_tkey. eexists. exact E.
Qed.

Lemma key_le_key_before (a b : term_key) :
  good_key a -> good_key b -> key_le (key_display a) (key_display b) -> key_before a b.
Proof.
  intros Ha Hb.
  destruct (good_key_sort_key _ Ha) as (sa & _ & Ea & Pa).
  destruct (good_key_sort_key _ Hb) as (sb & _ & Eb & Pb).
  unfold key_le, key_leb, key_display, key_before. rewrite Ea, Eb, Pa, Pb. cbn [fst snd].
  rewrite orb_true_iff, andb_true_iff, Z.ltb_lt, Z.eqb_eq, Z.leb_le.
  destruct (sem_rank_enumeration sa sb) as [Hle _]. rewrite Hle. lia.
Qed.

Lemma key_tie_display (a b : term_key) :
  good_key a -> good_key b -> (key_tie a b <-> key_display a = key_display b).
Proof.
  intros Ha Hb.
  destruct (good_key_sort_key _ Ha) as (sa & _ & Ea & Pa).
  destruct (good_key_sort_key _ Hb) as (sb & _ & Eb & Pb).
  unfold key_tie, key_display. rewrite Ea, Eb, Pa, Pb.
  destruct (sem_rank_enumeration sa sb) as [_ Heq]. rewrite <- Heq. split.
  - intros [-> ->]. reflexivity.
  - intros [= H1 H2]. split; [lia | exact H2].
Qed.

Lemma key_leb_refl (a : Z * Z) : key_leb a a = true.
Proof. unfold key_leb. now rewrite Z.eqb_refl, Z.leb_refl, orb_true_r. Qed.

Lemma strongly_sorted_among {A B} (P : A -> Prop) (R : A -> A -> Prop) (Q : B -> B -> Prop)
    (f : A -> B) (l : list A) :
  (forall x y, P x -> P y -> Q (f x) (f y) -> R x y) ->
  Forall P l ->
  StronglySorted Q (map f l) -> StronglySorted R l.
Proof.
  intros Hf. induction 1 as [|x l Hx Hl IH]; simpl; intros H; [constructor|].
  apply StronglySorted_inv in H as [Hs Hall]. constructor; [now apply IH|].
  apply Forall_forall. intros y Hy. rewrite Forall_forall in Hl. rewrite Forall_forall in Hall.
  apply Hf; [exact Hx | now apply Hl|]. apply Hall. apply elem_of_map_iff. now exists y.
Qed.

(** The claim C9 makes about two arrival orders of the same terms:
    they give the same keyboard. *)
Definition arrival_order_irrelevant (terms terms' : list item) : Prop :=
  Permutation terms terms' ->
  forall (back_id mode : atom) (p : Z),
    create_year_semester_keyboard terms' back_id mode p
    = create_year_semester_keyboard terms back_id mode p.

(** C9, as stated, fails: two semesters outside the enumeration are
    shown in the order they arrived in. *)
Lemma unlisted_semesters_keep_arrival_order :
  ~ arrival_order_irrelevant
      [PayloadProps.term "2023-24" "Winter"; PayloadProps.term "2023-24" "Monsoon"]
      [PayloadProps.term "2023-24" "Monsoon"; PayloadProps.term "2023-24" "Winter"].
Proof.
  intros H. specialize (H (perm_swap _ _ _) (AStr "CS101") (AStr "course") 0).
  vm_compute in H. discriminate H.
Qed.

(** C9, amended: for terms whose year and semester are non-empty texts
    and whose year reads as a number before its first dash, the
    keyboard pages through the (year, semester) pairs of the input,
    each once and none missing, ordered newest start year first and,
    inside a year, by the place of the semester in the enumeration
    Odd, Even, Summer, with every other semester after these.  Pairs
    that tie on start year and place (two semesters outside the
    enumeration, two spellings of a year with the same start) are not
    ordered by the enumeration: they stand in arrival order, the pair
    that stands first occurring in the input before the other ever
    does.  When no two different pairs of the input tie, the keyboard
    does not depend on the arrival order of the terms. *)
Theorem terms_ordered_by_year_then_rank (terms : list item) (back_id mode : atom) (p : Z) :
  Forall well_formed terms ->
  (exists shown : list term_key,
     create_year_semester_keyboard terms back_id mode p
     = Ok (map (key_row mode back_id)
             (slice shown (p * ITEMS_PER_PAGE) (p * ITEMS_PER_PAGE + ITEMS_PER_PAGE))
           ++ _add_pagination_buttons [] p (Z.of_nat (length shown))
                PAGE_YEAR_SEMESTER_PREFIX (Some [mode; back_id])
           ++ [footer_row mode back_id])
     /\ NoDup shown
     /\ (forall k, k ∈ shown <-> k ∈ map tkey terms)
     /\ StronglySorted key_before shown
     /\ (forall k1 k2,
           before shown k1 k2 -> key_tie k1 k2 ->
           exists t1 t2, map tkey terms = t1 ++ k1 :: t2 /\ k2 ∉ t1))
  /\ (forall terms' : list item,
        Permutation terms terms' ->
        (forall t1 t2, In t1 terms -> In t2 terms ->
                       key_tie (tkey t1) (tkey t2) -> tkey t1 = tkey t2) ->
        create_year_semester_keyboard terms' back_id mode p
        = create_year_semester_keyboard terms back_id mode p).
Proof.
  intros Hwf.
  assert (Hs : Forall sortable terms).
  { eapply Forall_impl; [exact Hwf|]. apply well_formed_sortable. }
  pose proof Hwf as Hwf0. rewrite Forall_forall in Hwf0.
  destruct (sorted_terms_spec terms Hs) as (sorted & E & Hin & Hnd & Hall & Hsorted).
  assert (Hgood : Forall good_key (map tkey sorted)).
  { apply Forall_forall. intros k Hk. apply elem_of_map_iff in Hk as (v & <- & Hv).
    apply Hwf0, Hin, Hv. }
  split.
  - exists (map tkey sorted). split; [now apply year_semester_keyboard_of_keys|].
    split; [exact Hnd|]. split; [|split].
    + intros k. split.
      * intros Hk. apply elem_of_map_iff in Hk as (v & <- & Hv).
        apply elem_of_map_iff. exists v. split; [reflexivity | now apply Hin].
      * intros Hk. apply elem_of_map_iff in Hk as (t & <- & Ht). now apply Hall.
    + apply (strongly_sorted_among good_key key_before key_le key_display);
        [apply key_le_key_before | exact Hgood|].
      now rewrite map_map.
    + intros k1 k2 Hb Htie.
      destruct (before_elem _ _ _ Hb) as [H1 H2].
      rewrite Forall_forall in Hgood.
      apply (key_tie_display k1 k2 (Hgood k1 H1) (Hgood k2 H2)) in Htie.
      apply dedup_first_seen.
      * eapply Forall_impl; [exact Hs|]. now intros t [Ht _].
      * apply (sorted_terms_stable terms sorted k1 k2 Hs E Hb).
        rewrite Htie. apply key_leb_refl.
  - intros terms' Hperm Hinj.
    apply (same_keyboard_without_equal_keys terms terms' back_id mode p Hs Hperm).
    intros t1 t2 H1 H2 Hk. apply (Hinj t1 t2 H1 H2).
    apply key_tie_display; [apply Hwf0; now apply list_elem_of_In
                           | apply Hwf0; now apply list_elem_of_In|].
    rewrite <- !display_key_of_tkey.
    rewrite Forall_forall in Hs.
    pose proof (sort_key_display t1 (Hs t1 ltac:(now apply list_elem_of_In))) as D1.
    pose proof (sort_key_display t2 (Hs t2 ltac:(now apply list_elem_of_In))) as D2.
    congruence.
Qed.

(** Three terms of two years, in two arrival orders. *)
Definition three_terms : list item :=
  [PayloadProps.term "2022-23" "Even"; PayloadProps.term "2023-24" "Summer";
   PayloadProps.term "2023-24" "Odd"].

Definition three_terms_shuffled : list item :=
  [PayloadProps.term "2023-24" "Odd"; PayloadProps.term "2022-23" "Even";
   PayloadProps.term "2023-24" "Summer"].

Lemma three_terms_well_formed : Forall well_formed three_terms.
Proof.
  repeat constructor; eexists _, _, _;
    (split; [vm_compute; reflexivity|]); repeat split; try discriminate;
    vm_compute; reflexivity.
Defined.

Lemma terms_ordered_by_year_then_rank_witness :
  create_year_semester_keyboard three_terms_shuffled (AStr "CS101") (AStr "course") 0
  = create_year_semester_keyboard three_terms (AStr "CS101") (AStr "course") 0.
Proof.
  apply (proj2 (terms_ordered_by_year_then_rank three_terms (AStr "CS101") (AStr "course") 0
                  three_terms_well_formed)).
  - unfold three_terms, three_terms_shuffled.
    eapply perm_trans; [apply perm_skip, perm_swap | apply perm_swap].
  - intros t1 t2 H1 H2 [Hy Hp]. simpl in H1, H2.
    destruct H1 as [<-|[<-|[<-|[]]]]; destruct H2 as [<-|[<-|[<-|[]]]];
      try reflexivity; vm_compute in Hy; vm_compute in Hp;
      first [discriminate Hy | discriminate Hp].
Defined.

(** On that input the newest year comes first, Odd before Summer. *)
Example three_terms_keyboard :
  create_year_semester_keyboard three_terms (AStr "CS101") (AStr "course") 0
  = Ok [ key_row (AStr "course") (AStr "CS101") (AStr "2023-24", AStr "Odd");
         key_row (AStr "course") (AStr "CS101") (AStr "2023-24", AStr "Summer");
         key_row (AStr "course") (AStr "CS101") (AStr "2022-23", AStr "Even");
         footer_row (AStr "course") (AStr "CS101") ].
Proof. vm_compute. reflexivity. Qed.

End TermOrderProps.
